(** * pythonDataProcess: stock-name resolution, data fetching and chart
      preparation

    A shallow embedding of [src/TushareStockData.py] and
    [src/stockChartGenerator.py].

    - A pandas [DataFrame] is a list of column labels together with rows, each
      row carrying its index label and one cell per column. Column labels
      are strings; the one frame with a column index of another kind that
      the program meets is [pd.DataFrame()], which has no columns.
    - Strings are held as their UTF-8 bytes.
    - The remote tushare API, pandas' parsing and pattern matching, the
      plotting libraries and the host system are external collaborators:
      their answers are fields of the records [Tushare], [Pandas],
      [Plotting] and [Host], and every call to them that has an effect
      outside the process is recorded in a trace of [event]s.
    - Python exceptions are values of [exn]; a method is a function from the
      trace so far to a [result] and the extended trace. *)

From stdpp Require Import base gmap.
From Stdlib Require Import List String Ascii ZArith QArith Bool Lia.
From Stdlib Require Import Permutation Sorted.
Import ListNotations.
Close Scope Q_scope.
Open Scope string_scope.
Open Scope list_scope.

(** ** Cells and frames *)

(** A dynamically typed pandas value. Integers and floats are both [Num]. *)
Inductive cell : Type :=
| Num (q : Q)
| Str (s : string)
| Timestamp (t : Z).

(** Rank of the Python type of a cell; cells of different rank are not
    comparable ([TypeError]). *)
Definition cell_rank (c : cell) : nat :=
  match c with Num _ => 0 | Str _ => 1 | Timestamp _ => 2 end.

Definition same_type (a b : cell) : bool := Nat.eqb (cell_rank a) (cell_rank b).

(** [a <= b] on cells of one type: numeric order, lexicographic order on
    strings, chronological order on timestamps. On cells of different types
    the order of the ranks is used, so that the function is total; the
    operations below raise [TypeError] before they would rely on it. *)
Definition cell_leb (a b : cell) : bool :=
  match a, b with
  | Num p, Num q => Qle_bool p q
  | Str s, Str t => String.leb s t
  | Timestamp s, Timestamp t => Z.leb s t
  | _, _ => Nat.leb (cell_rank a) (cell_rank b)
  end.

Record Row : Type := mkRow { label : cell; values : list cell }.

(** [str_index] tells of which kind the column index of a frame without
    columns is: an empty index of strings, as it is left when the last
    column of a frame goes away, or an empty range of integers, as in
    [pd.DataFrame()]. It has no meaning for a frame that has columns: their
    labels are strings. *)
Record DataFrame : Type := mkDataFrame {
  columns : list string;
  rows : list Row;
  str_index : bool
}.

(** A frame whose column index holds strings. *)
Abbreviation mkFrame cols rs := (mkDataFrame cols rs true).

(** [pd.DataFrame()]: no rows, and an empty range of integers for its
    column index. *)
Definition empty_frame : DataFrame := mkDataFrame [] [] false.

(** The column index holds strings, so that the accessor [df.columns.str]
    exists. *)
Definition columns_are_strings (df : DataFrame) : bool :=
  match columns df with
  | [] => str_index df
  | _ :: _ => true
  end.

(** [df.empty]: some axis has length zero. *)
Definition df_empty (df : DataFrame) : bool :=
  match columns df, rows df with
  | [], _ => true
  | _, [] => true
  | _, _ => false
  end.

(** Position of the first column labelled [c]. *)
Fixpoint col_pos (c : string) (cols : list string) : option nat :=
  match cols with
  | [] => None
  | x :: xs => if String.eqb x c then Some 0%nat else option_map S (col_pos c xs)
  end.

(** ['c' in df.columns] *)
Definition has_col (c : string) (df : DataFrame) : bool :=
  existsb (String.eqb c) (columns df).

(** ** Exceptions and the effect monad *)

Inductive exn : Type :=
| InvalidArgument                       (* ValueError: neither name nor code given *)
| NotFoundError (stock_name : string)   (* ValueError: no code for this name *)
| SchemaError (missing : list string)   (* ValueError: required columns missing *)
| KeyError (key : string)
| IndexError
| TypeError
| AttributeError
| ExternalError (what : string).        (* raised inside an external library *)

Inductive result (A : Type) : Type :=
| Ok (a : A)
| Raise (e : exn).
Arguments Ok {A} a.
Arguments Raise {A} e.

Definition rbind {A B} (r : result A) (k : A -> result B) : result B :=
  match r with Ok a => k a | Raise e => Raise e end.

(** Effects that leave the process. Console output is not recorded. *)
Inductive event : Type :=
| ReqStockBasic                                   (* pro.stock_basic(list_status='L', ...) *)
| ReqStockBasicName (ts_code : string)            (* pro.stock_basic(ts_code=.., fields='name') *)
| ReqDaily (ts_code start_date end_date : string) (* pro.daily(...) *)
| Makedirs (dir : string)
| WriteCsv (path : string) (df : DataFrame)
| ReadCsv (path : string)
| SaveFig (path : string)
| ShowFig.

Definition trace : Type := list event.

(** A method that may raise, over a state of type [S]. *)
Definition St (S A : Type) : Type := S -> result A * S.

(** Methods whose state is the trace of external effects. *)
Abbreviation M := (St trace).

Definition ret {S A} (a : A) : St S A := fun s => (Ok a, s).
Definition raise {S A} (e : exn) : St S A := fun s => (Raise e, s).
Definition bind {S A B} (m : St S A) (k : A -> St S B) : St S B :=
  fun s => match m s with
           | (Ok a, s') => k a s'
           | (Raise e, s') => (Raise e, s')
           end.
Definition lift {S A} (r : result A) : St S A := fun s => (r, s).
(** [try: m except Exception: h] *)
Definition try_except {S A} (m : St S A) (h : exn -> St S A) : St S A :=
  fun s => match m s with
           | (Ok a, s') => (Ok a, s')
           | (Raise e, s') => h e s'
           end.
Definition emit (e : event) : M unit := fun tr => (Ok tt, tr ++ [e]).

Declare Scope m_scope.
Delimit Scope m_scope with M.
Notation "x <- m ;; k" := (bind m (fun x => k))
  (at level 100, m at next level, right associativity) : m_scope.
Notation "m ;;; k" := (bind m (fun _ => k))
  (at level 100, right associativity) : m_scope.
Open Scope m_scope.

(** Python truthiness of an optional string argument: [None] and [''] are
    false. *)
Definition truthy (o : option string) : bool :=
  match o with
  | Some s => negb (String.eqb s "")
  | None => false
  end.

(** [a or b] on optional strings. *)
Definition py_or (a b : option string) : option string :=
  if truthy a then a else b.

(** [a or 'literal'] *)
Definition or_str (a : option string) (d : string) : string :=
  if truthy a then default d a else d.

(** ** Operations on frames *)

Definition replace_nth {A} (i : nat) (v : A) (l : list A) : list A :=
  firstn i l ++ match skipn i l with [] => [] | _ :: t => v :: t end.

Definition remove_nth {A} (i : nat) (l : list A) : list A :=
  firstn i l ++ skipn (S i) l.

(** The cell of a row at a column position (frames are rectangular). *)
Definition cell_at (i : nat) (r : Row) : cell := nth i (values r) (Str "").

(** [df[c]] as the list of its cells; [KeyError] when there is no such
    column. *)
Definition getitem (c : string) (df : DataFrame) : result (list cell) :=
  match col_pos c (columns df) with
  | Some i => Ok (map (cell_at i) (rows df))
  | None => Raise (KeyError c)
  end.

(** Writing one cell of a row: an existing column is overwritten in place, a
    new column is appended on the right. *)
Definition set_cell (pos : option nat) (v : cell) (r : Row) : Row :=
  match pos with
  | Some i => mkRow (label r) (replace_nth i v (values r))
  | None => mkRow (label r) (values r ++ [v])
  end.

Definition set_cols (c : string) (cols : list string) : list string :=
  match col_pos c cols with
  | Some _ => cols
  | None => cols ++ [c]
  end.

Fixpoint set_cells (pos : option nat) (rs : list Row) (vs : list cell) : list Row :=
  match rs, vs with
  | r :: rs', v :: vs' => set_cell pos v r :: set_cells pos rs' vs'
  | _, _ => []
  end.

(** [df[c] = vs] with one value per row. The label is a string, and so are
    the labels of the frame afterwards. *)
Definition setitem (c : string) (vs : list cell) (df : DataFrame) : DataFrame :=
  mkFrame (set_cols c (columns df))
          (set_cells (col_pos c (columns df)) (rows df) vs).

(** [df[c] = v] with a scalar, broadcast to every row. *)
Definition setitem_scalar (c : string) (v : cell) (df : DataFrame) : DataFrame :=
  mkFrame (set_cols c (columns df))
          (map (set_cell (col_pos c (columns df)) v) (rows df)).

(** [df.set_index(c)]: the column becomes the index and leaves the columns;
    the labels that stay are strings. *)
Definition set_index (c : string) (df : DataFrame) : result DataFrame :=
  match col_pos c (columns df) with
  | Some i =>
      Ok (mkFrame (remove_nth i (columns df))
                  (map (fun r => mkRow (cell_at i r) (remove_nth i (values r)))
                       (rows df)))
  | None => Raise (KeyError c)
  end.

Definition lower_ascii (a : ascii) : ascii :=
  let n := nat_of_ascii a in
  if (Nat.leb 65 n && Nat.leb n 90)%bool then ascii_of_nat (n + 32) else a.

Fixpoint lower_letters (s : string) : string :=
  match s with
  | EmptyString => EmptyString
  | String a s' => String (lower_ascii a) (lower_letters s')
  end.

(** Every character of the string is an ASCII character (one byte below
    128). *)
Definition is_ascii (s : string) : bool :=
  forallb (fun a => Nat.ltb (nat_of_ascii a) 128) (list_ascii_of_string s).

(** [s.lower()]. On a string of ASCII characters Python turns the letters
    [A]-[Z] into [a]-[z] and keeps every other character. On a string with
    other characters the result is decided by the Unicode tables of the
    runtime, which are not part of this repository: [unicode] is that
    function. *)
Definition lower (unicode : string -> string) (s : string) : string :=
  if is_ascii s then lower_letters s else unicode s.

(** [mapping.get(c, c)] for a dict given as an association list. *)
Fixpoint remap (mapping : list (string * string)) (c : string) : string :=
  match mapping with
  | [] => c
  | (k, v) :: m => if String.eqb k c then v else remap m c
  end.

(** [df.rename(columns=mapping)]: the renamed labels make a new index of
    strings. *)
Definition rename (mapping : list (string * string)) (df : DataFrame) : DataFrame :=
  mkFrame (map (remap mapping) (columns df)) (rows df).

(** Insertion sort; on a list that is already in order it is the identity. *)
Fixpoint insert_by {A} (leb : A -> A -> bool) (x : A) (l : list A) : list A :=
  match l with
  | [] => [x]
  | y :: t => if leb x y then x :: y :: t else y :: insert_by leb x t
  end.

Definition sort_by {A} (leb : A -> A -> bool) (l : list A) : list A :=
  fold_right (insert_by leb) [] l.

(** All cells have the type of the first one. *)
Definition homogeneous (cs : list cell) : bool :=
  match cs with
  | [] => true
  | c :: t => forallb (same_type c) t
  end.

Definition label_leb (r1 r2 : Row) : bool := cell_leb (label r1) (label r2).

(** [df.sort_index()]: rows in ascending order of their index labels;
    labels of mixed types cannot be ordered. *)
Definition sort_index (df : DataFrame) : result DataFrame :=
  if homogeneous (map label (rows df))
  then Ok (mkDataFrame (columns df) (sort_by label_leb (rows df)) (str_index df))
  else Raise TypeError.

(** [df.sort_values(c)]: rows in ascending order of column [c]. *)
Definition sort_values (c : string) (df : DataFrame) : result DataFrame :=
  match col_pos c (columns df) with
  | None => Raise (KeyError c)
  | Some i =>
      if homogeneous (map (cell_at i) (rows df))
      then Ok (mkDataFrame (columns df)
                 (sort_by (fun r1 r2 => cell_leb (cell_at i r1) (cell_at i r2)) (rows df))
                 (str_index df))
      else Raise TypeError
  end.

(** [col.iloc[0]] *)
Definition iloc0 (cs : list cell) : result cell :=
  match cs with
  | c :: _ => Ok c
  | [] => Raise IndexError
  end.

(** Boolean indexing [l[mask]]. *)
Definition select_mask {A} (mask : list bool) (l : list A) : list A :=
  map fst (List.filter snd (combine l mask)).

(** ** External collaborators *)

(** One row of the symbol directory. The request asks for the fields
    [ts_code,symbol,name,area,industry,list_date]; only [ts_code] and [name]
    are ever read. A missing name is [None]. *)
Record StockBasic : Type := mkStock { ts_code : string; name : option string }.

(** The remote market-data API, as the answers it gives. *)
Record Tushare : Type := mkTushare {
  (* pro.stock_basic(exchange='', list_status='L', fields=...) *)
  stock_basic : result (list StockBasic);
  (* pro.stock_basic(ts_code=code, fields='name'), as its name column *)
  stock_basic_name : string -> result (list cell);
  (* pro.daily(ts_code=code, start_date=s, end_date=e) *)
  daily : string -> string -> string -> result DataFrame
}.

(** pandas functions whose behaviour is not part of this repository. *)
Record Pandas : Type := mkPandas {
  (* names.str.contains(pat, na=False): pat is a regular expression *)
  str_contains : string -> list (option string) -> result (list bool);
  (* pd.to_datetime(col, format='%Y%m%d') *)
  to_datetime_format : list cell -> result (list Z);
  (* pd.to_datetime(col) *)
  to_datetime : list cell -> result (list Z);
  (* pd.to_datetime(str(x)) *)
  to_datetime_str : cell -> result Z;
  (* pd.read_csv(path) *)
  read_csv : string -> result DataFrame;
  (* df.to_csv(path, index=False, encoding='utf-8-sig') *)
  to_csv : string -> DataFrame -> result unit;
  (* ts.strftime('%Y-%m-%d') *)
  strftime : Z -> string;
  (* label.lower(), inside columns.str.lower(), for a label with a character
     outside ASCII *)
  str_lower_unicode : string -> string
}.

(** The Python runtime and the host operating system. *)
Record Host : Type := mkHost {
  (* datetime.now().strftime('%Y%m%d') *)
  now_ymd : string;
  (* str(x), as used by f-strings *)
  py_str : cell -> string;
  path_exists : string -> bool;
  path_join : string -> string -> string;
  path_dirname : string -> string;
  (* os.makedirs(dir) / os.makedirs(dir, exist_ok=True) *)
  makedirs : string -> bool -> result unit
}.

(** ** TushareStockData *)

Definition name_is (stock_name : string) (r : StockBasic) : bool :=
  match name r with
  | Some n => String.eqb n stock_name
  | None => false
  end.

Definition is_nil {A} (l : list A) : bool :=
  match l with [] => true | _ => false end.

Section TushareStockData.
Context (ts : Tushare) (pd : Pandas) (host : Host).

Definition get_stock_code_by_name (stock_name : string) : M string :=
  stock_list <- (emit ReqStockBasic ;;; lift (stock_basic ts)) ;;
  let result := List.filter (name_is stock_name) stock_list in
  result <- (if is_nil result
             then mask <- lift (str_contains pd stock_name (map name stock_list)) ;;
                  ret (select_mask mask stock_list)
             else ret result) ;;
  match result with
  | [] => raise (NotFoundError stock_name)
  | r :: _ => ret (ts_code r)
  end.

(** The annotation step of [get_stock_data] when only a code was given. *)
Definition annotate_by_code (code : string) (df : DataFrame) : M DataFrame :=
  try_except
    (stock_info <- (emit (ReqStockBasicName code) ;;; lift (stock_basic_name ts code)) ;;
     match stock_info with
     | n :: _ => ret (setitem_scalar "stock_name" n df)
     | [] => ret df
     end)
    (fun _ => ret (setitem_scalar "stock_name" (Str code) df)).

(** Lines 64-68: the code to query, from the name when one is given. *)
Definition code_of_arguments (stock_name stock_code : option string) : M string :=
  if truthy stock_name
  then get_stock_code_by_name (default "" stock_name)
  else ret (default "" stock_code).

Definition get_stock_data (stock_name stock_code start_date end_date : option string)
  : M DataFrame :=
  if (negb (truthy stock_name) && negb (truthy stock_code))%bool
  then raise InvalidArgument
  else
    code <- code_of_arguments stock_name stock_code ;;
    let start_date := or_str start_date "20100101" in
    let end_date := or_str end_date (now_ymd host) in
    df <- (emit (ReqDaily code start_date end_date) ;;; lift (daily ts code start_date end_date)) ;;
    if df_empty df then ret empty_frame
    else
      df <- lift (sort_values "trade_date" df) ;;
      if truthy stock_name
      then ret (setitem_scalar "stock_name" (Str (default "" stock_name)) df)
      else annotate_by_code code df.

Fixpoint ends_with_rev (suffix s : list ascii) : bool :=
  match suffix, s with
  | [], _ => true
  | a :: suffix', b :: s' => (Ascii.eqb a b && ends_with_rev suffix' s')%bool
  | _ :: _, [] => false
  end.

(** [s.endswith(suffix)] *)
Definition ends_with (suffix s : string) : bool :=
  ends_with_rev (rev (list_ascii_of_string suffix)) (rev (list_ascii_of_string s)).

(** [col.min()] and [col.max()] of a non-empty column. *)
Definition col_extreme (pick : cell -> cell -> cell) (cs : list cell) : result cell :=
  match cs with
  | [] => Raise IndexError
  | c :: t => if homogeneous cs then Ok (fold_left pick t c) else Raise TypeError
  end.
Definition cell_min (a b : cell) : cell := if cell_leb a b then a else b.
Definition cell_max (a b : cell) : cell := if cell_leb a b then b else a.

(** The file name derived from the frame when none is given. *)
Definition auto_filename (df : DataFrame) : result string :=
  rbind (if has_col "stock_name" df
         then rbind (getitem "stock_name" df) (fun col =>
              rbind (iloc0 col) (fun c => Ok (py_str host c)))
         else Ok "unknown") (fun stock_name =>
  rbind (getitem "trade_date" df) (fun dates =>
  rbind (col_extreme cell_min dates) (fun start_date =>
  rbind (col_extreme cell_max dates) (fun end_date =>
  Ok (stock_name ++ "_" ++ py_str host start_date ++ "_"
                 ++ py_str host end_date ++ ".csv")%string)))).

Definition save_to_csv (df : DataFrame) (filename : option string) (output_dir : string)
  : M (option string) :=
  if df_empty df then ret None
  else
    (if path_exists host output_dir then ret tt
     else emit (Makedirs output_dir) ;;; lift (makedirs host output_dir false)) ;;;
    filename <- (if truthy filename then ret (default "" filename)
                 else lift (auto_filename df)) ;;
    let filename := if ends_with ".csv" filename then filename
                    else (filename ++ ".csv")%string in
    let filepath := path_join host output_dir filename in
    emit (WriteCsv filepath df) ;;; lift (to_csv pd filepath df) ;;;
    ret (Some filepath).

Definition get_and_save_stock_data
    (stock_name stock_code start_date end_date filename : option string)
    (output_dir : string) : M (DataFrame * option string) :=
  df <- get_stock_data stock_name stock_code start_date end_date ;;
  if df_empty df then ret (df, None)
  else
    filepath <- save_to_csv df filename output_dir ;;
    ret (df, filepath).

End TushareStockData.

(** ** StockChartGenerator: data preparation *)

Definition column_mapping : list (string * string) :=
  [("open", "Open"); ("high", "High"); ("low", "Low"); ("close", "Close");
   ("vol", "Volume"); ("volume", "Volume")].

Definition required_columns : list string := ["Open"; "High"; "Low"; "Close"].

Fixpoint map_result {A B} (f : A -> result B) (l : list A) : result (list B) :=
  match l with
  | [] => Ok []
  | a :: t => rbind (f a) (fun b => rbind (map_result f t) (fun bs => Ok (b :: bs)))
  end.

(** [try: a except: b], where nothing leaves the process. *)
Definition or_else {A} (a b : result A) : result A :=
  match a with Ok x => Ok x | Raise _ => b end.

Section PrepareData.
Context (pd : Pandas).

(** The three attempts at reading the [trade_date] column, in order. *)
Definition parse_trade_date (col : list cell) : result (list Z) :=
  or_else (to_datetime_format pd col)
    (or_else (to_datetime pd col)
       (map_result (to_datetime_str pd) col)).

(** The date column becomes the index (lines 85-100). *)
Definition index_by_date (data : DataFrame) : result DataFrame :=
  if has_col "trade_date" data then
    rbind (getitem "trade_date" data) (fun col =>
    rbind (parse_trade_date col) (fun dates =>
    set_index "Date" (setitem "Date" (map Timestamp dates) data)))
  else if has_col "Date" data then
    rbind (getitem "Date" data) (fun col =>
    rbind (to_datetime pd col) (fun dates =>
    set_index "Date" (setitem "Date" (map Timestamp dates) data)))
  else Ok data.

(** [data.columns = data.columns.str.lower()]. The accessor [.str] exists
    only on an index of strings: on the column index of [pd.DataFrame()]
    pandas raises [AttributeError], and nothing is assigned. *)
Definition lower_columns (data : DataFrame) : result DataFrame :=
  if columns_are_strings data
  then Ok (mkFrame (map (lower (str_lower_unicode pd)) (columns data)) (rows data))
  else Raise AttributeError.

Definition missing_columns (data : DataFrame) : list string :=
  List.filter (fun col => negb (has_col col data)) required_columns.

(** [prepare_data] on frame values: the input is copied first, so the
    result is a function of the input frame's content. *)
Definition prepare_data (df : DataFrame) : result DataFrame :=
  let data := df in
  rbind (index_by_date data) (fun data =>
  rbind (lower_columns data) (fun data =>
  let data := rename column_mapping data in
  match missing_columns data with
  | [] => sort_index data
  | missing => Raise (SchemaError missing)
  end)).

End PrepareData.

(** ** StockChartGenerator: figures *)

(** One [ax.plot([x, x], [y0, y1], color=.., linewidth=..)] call. *)
Record Line2D : Type := mkLine {
  xdata : nat * nat;
  ydata : cell * cell;
  color : string;
  linewidth : Q
}.

(** The price axes drawn by the manual rendering. *)
Record PriceAxes : Type := mkPriceAxes {
  lines : list Line2D;
  ax_title : string;
  xlim : nat * nat;
  xticks : list nat;
  xticklabels : list string
}.

(** The volume axes: one bar per row, at the row's position. *)
Record VolumeAxes : Type := mkVolumeAxes {
  bars : list (nat * cell);
  bar_width : Q;
  vol_xticks : list nat;
  vol_xticklabels : list string
}.

Record ManualFigure : Type := mkManual {
  figsize_of : Q * Q;
  price_axes : PriceAxes;
  volume_axes : option VolumeAxes
}.

(** The dict handed to [mpf.plot]; [datetime_format], [xrotation] and
    [show_nontrading] are constants and [plot_extra] holds the caller's
    additional keyword arguments, with which the dict is updated last. *)
Record plot_params : Type := mkParams {
  plot_type : string;
  plot_volume : bool;
  plot_style : string;
  plot_figsize : Q * Q;
  plot_title : option string;
  plot_extra : list (string * cell)
}.

Inductive Figure : Type :=
| MpfFigure (data : DataFrame) (params : plot_params)   (* made by mpf.plot *)
| FallbackFigure (fig : ManualFigure).                  (* made by _fallback_plot *)

(** mplfinance, matplotlib and the fonts of the host. *)
Record Plotting : Type := mkPlotting {
  (* mpf.plot(data, **params, returnfig=True): succeeds or raises *)
  mpf_plot : DataFrame -> plot_params -> result unit;
  (* names of the fonts found on the host that match the keyword list;
     raises when the enumeration itself fails *)
  chinese_fonts : result (list string);
  (* fig.savefig(path, dpi=300, bbox_inches='tight'), under the given
     font override when there is one *)
  savefig : Figure -> string -> option (list string) -> result unit;
  (* plt.show() *)
  show_figure : result unit
}.

(** [row[c]] for a row of a frame with the given columns. *)
Definition row_get (cols : list string) (c : string) (r : Row) : result cell :=
  match col_pos c cols with
  | Some i => Ok (cell_at i r)
  | None => Raise (KeyError c)
  end.

(** [a >= b] *)
Definition cell_ge (a b : cell) : result bool :=
  if same_type a b then Ok (cell_leb b a) else Raise TypeError.

(** A call [f(k1=.., .., kn=.., **kwargs)] in which [kwargs] holds one of the
    keywords [k1], .., [kn] written out in the call: Python raises
    [TypeError] (multiple values for a keyword argument) before the body of
    [f] runs. *)
Definition repeats_keyword (written : list string) (kwargs : list (string * cell)) : bool :=
  existsb (fun kw => existsb (String.eqb (fst kw)) written) kwargs.

(** [range(0, len, n)] *)
Fixpoint range_step (fuel start stop step : nat) : list nat :=
  match fuel with
  | O => []
  | S fuel' => if Nat.ltb start stop
               then start :: range_step fuel' (start + step) stop step
               else []
  end.

Definition tick_positions (len : nat) : list nat :=
  let n := Nat.max 1 (len / 10) in
  range_step len 0 len n.

Section Rendering.
Context (pd : Pandas) (host : Host) (plt : Plotting).

(** The two segments drawn for row number [i] (lines 252-254). *)
Definition candle (cols : list string) (i : nat) (row : Row) : result (list Line2D) :=
  rbind (row_get cols "Close" row) (fun close =>
  rbind (row_get cols "Open" row) (fun open =>
  rbind (cell_ge close open) (fun up =>
  let color := if up then "r" else "g" in
  rbind (row_get cols "Low" row) (fun low =>
  rbind (row_get cols "High" row) (fun high =>
  Ok [mkLine (i, i) (low, high) "k" (8 # 10);
      mkLine (i, i) (open, close) color (3 # 1)]))))).

(** The loop over [enumerate(data.iterrows())]. *)
Fixpoint candles (cols : list string) (i : nat) (rs : list Row) : result (list Line2D) :=
  match rs with
  | [] => Ok []
  | r :: rs' =>
      rbind (candle cols i r) (fun ls =>
      rbind (candles cols (S i) rs') (fun rest => Ok (ls ++ rest)))
  end.

(** [data.index[i].strftime('%Y-%m-%d')] *)
Definition label_strftime (data : DataFrame) (i : nat) : result string :=
  match nth_error (rows data) i with
  | Some r => match label r with
              | Timestamp t => Ok (strftime pd t)
              | _ => Raise AttributeError
              end
  | None => Raise IndexError
  end.

Definition _fallback_plot (data : DataFrame) (title : string) (volume : bool)
    (figsize : Q * Q) : result ManualFigure :=
  let len := List.length (rows data) in
  rbind (candles (columns data) 0 (rows data)) (fun ls =>
  let ticks := tick_positions len in
  rbind (map_result (label_strftime data) ticks) (fun labels =>
  let ax1 := mkPriceAxes ls title (0%nat, len) ticks labels in
  if volume then
    rbind (getitem "Volume" data) (fun vols =>
    rbind (map_result (label_strftime data) ticks) (fun labels2 =>
    Ok (mkManual figsize ax1
          (Some (mkVolumeAxes (combine (seq 0 len) vols) (8 # 10) ticks labels2)))))
  else Ok (mkManual figsize ax1 None))).

End Rendering.

(** ** StockChartGenerator: chart generation *)

(** The [data] argument of [generate_chart]: a CSV path or a frame. *)
Inductive chart_source : Type :=
| CsvPath (path : string)
| Frame (df : DataFrame).

(** Keyword arguments handed to a chart method beyond those the model passes
    one by one. Those that name one of the optional parameters [title],
    [volume], [style], [figsize] and [filename] are held in the field of
    that name, with the default of the parameter when the keyword is absent;
    [opt_extra] holds all the others, as the dict of a [**kwargs]. *)
Record chart_options : Type := mkOptions {
  opt_title : option string;
  opt_volume : bool;
  opt_style : string;
  opt_figsize : Q * Q;
  opt_filename : option string;
  opt_extra : list (string * cell)
}.

Definition default_options : chart_options :=
  mkOptions None true "yahoo" (12 # 1, 8 # 1)%Q None [].

(** An entry of the list returned by [generate_multiple_charts]. *)
Inductive chart_entry : Type :=
| ChartSaved (stock_name : option string) (chart_type : string)
             (data_rows : nat) (saved_path : string)
| ChartError (stock_name : option string) (chart_type : string) (error : exn).

(** An element of [stock_list]: a name, or a dict with the keys [name],
    [code], [start_date] and [end_date]. *)
Inductive stock_item : Type :=
| StockName (stock_name : string)
| StockDict (name code start_date end_date : option string).

Definition last_label (data : DataFrame) : option cell :=
  match rev (rows data) with
  | r :: _ => Some (label r)
  | [] => None
  end.

Section GenerateChart.
Context (ts : Tushare) (pd : Pandas) (host : Host) (plt : Plotting).

(** [index[k].strftime('%Y-%m-%d')] for the first or last label. *)
Definition strftime_label (l : option cell) : result string :=
  match l with
  | Some (Timestamp t) => Ok (strftime pd t)
  | Some _ => Raise AttributeError
  | None => Raise IndexError
  end.

(** The title used when the caller gives none (lines 157-164). *)
Definition default_title (df chart_data : DataFrame) : result string :=
  if has_col "stock_name" df then
    rbind (getitem "stock_name" df) (fun col =>
    rbind (iloc0 col) (fun stock_name =>
    rbind (strftime_label (option_map label (hd_error (rows chart_data)))) (fun start_date =>
    rbind (strftime_label (last_label chart_data)) (fun end_date =>
    Ok (py_str host stock_name ++ " K线图 (" ++ start_date ++ " 至 "
                               ++ end_date ++ ")")%string))))
  else Ok "K线图".

(** Lines 184-190: the primary renderer, and the manual one when it
    raises. The call [mpf.plot(chart_data, **plot_params, returnfig=True)]
    itself raises, inside the [try], when the caller's keyword arguments
    brought a [returnfig] into [plot_params]. *)
Definition plot_with_fallback (chart_data : DataFrame) (params : plot_params)
    (title : string) (volume : bool) (figsize : Q * Q) : result Figure :=
  match (if repeats_keyword ["returnfig"] (plot_extra params)
         then Raise TypeError
         else mpf_plot plt chart_data params) with
  | Ok _ => Ok (MpfFigure chart_data params)
  | Raise _ =>
      rbind (_fallback_plot pd chart_data title volume figsize) (fun fig =>
      Ok (FallbackFigure fig))
  end.

(** Lines 198-225: saving under a font able to show the title. *)
Definition save_figure (fig : Figure) (save_path : string) : M unit :=
  try_except
    (fonts <- lift (chinese_fonts plt) ;;
     emit (SaveFig save_path) ;;;
     lift (savefig plt fig save_path (if is_nil fonts then None else Some fonts)))
    (fun _ => emit (SaveFig save_path) ;;; lift (savefig plt fig save_path None)).

(** Lines 192-233. *)
Definition save_and_show (fig : Figure) (save_path : option string) (show : bool)
  : M (Figure * option string) :=
  saved_path <- (if truthy save_path then
                   let path := default "" save_path in
                   emit (Makedirs (path_dirname host path)) ;;;
                   lift (makedirs host (path_dirname host path) true) ;;;
                   save_figure fig path ;;;
                   ret (Some path)
                 else ret None) ;;
  (if show then emit ShowFig ;;; lift (show_figure plt) else ret tt) ;;;
  ret (fig, saved_path).

(** Lines 147-151: a string is the path of a CSV file to read. *)
Definition load_source (data : chart_source) : M DataFrame :=
  match data with
  | CsvPath path => emit (ReadCsv path) ;;; lift (read_csv pd path)
  | Frame df => ret df
  end.

(** Lines 156-164. *)
Definition chart_title (title : option string) (df chart_data : DataFrame) : result string :=
  match title with
  | None => default_title df chart_data
  | Some t => Ok t
  end.

(** Lines 166-182: the arguments of the primary renderer. *)
Definition plot_params_of (chart_type : string) (opts : chart_options) (title : string)
  : plot_params :=
  mkParams chart_type (opt_volume opts) (opt_style opts) (opt_figsize opts)
           (if truthy (Some title) then Some title else None)
           (opt_extra opts).

Definition generate_chart (data : chart_source) (chart_type : string)
    (opts : chart_options) (save_path : option string) (show : bool)
  : M (Figure * option string) :=
  df <- load_source data ;;
  chart_data <- lift (prepare_data pd df) ;;
  title <- lift (chart_title (opt_title opts) df chart_data) ;;
  let params := plot_params_of chart_type opts title in
  fig <- lift (plot_with_fallback chart_data params title (opt_volume opts)
                                  (opt_figsize opts)) ;;
  save_and_show fig save_path show.

(** The keywords written out in the call of [generate_chart_from_stock]
    (lines 383-390). *)
Definition stock_call_keywords : list string :=
  ["stock_name"; "stock_code"; "start_date"; "end_date"; "chart_type"; "output_dir";
   "show"].

(** The keywords written out in the call of [generate_chart] (lines
    337-345) that the [**kwargs] of [generate_chart_from_stock] can hold:
    the other six, [chart_type], [title], [volume], [style], [figsize] and
    [show], name parameters of [generate_chart_from_stock] and never reach
    its [**kwargs]. *)
Definition chart_call_keywords : list string := ["data"; "save_path"].

(** The call [generate_chart_from_stock(stock_name=.., stock_code=..,
    start_date=.., end_date=.., chart_type=.., output_dir=.., show=..,
    **kwargs)], as [generate_multiple_charts] writes it, with [opts] for
    [kwargs]. A keyword of [kwargs] that repeats one of the seven written
    out makes the call raise [TypeError] before anything is fetched; so does,
    after the fetch, a keyword repeated in the call of [generate_chart]. *)
Definition generate_chart_from_stock
    (stock_name stock_code start_date end_date : option string)
    (chart_type : string) (opts : chart_options) (output_dir : string) (show : bool)
  : M (option Figure * DataFrame * option string) :=
  if repeats_keyword stock_call_keywords (opt_extra opts) then raise TypeError
  else
    df <- get_stock_data ts pd host stock_name stock_code start_date end_date ;;
    if df_empty df then ret (None, df, None)
    else
      let filename :=
        match opt_filename opts with
        | Some f => f
        | None =>
            (or_str (py_or stock_name stock_code) "unknown" ++ "_" ++ chart_type ++ "_"
             ++ or_str start_date "20100101" ++ "_"
             ++ or_str end_date (now_ymd host) ++ ".png")%string
        end in
      let save_path := path_join host output_dir filename in
      r <- (if repeats_keyword chart_call_keywords (opt_extra opts)
            then raise TypeError
            else generate_chart (Frame df) chart_type opts (Some save_path) show) ;;
      ret (Some (fst r), df, snd r).

(** The body of the inner loop of [generate_multiple_charts]: the entries
    it appends to [results]. The [try] encloses the call, so the [TypeError]
    of a repeated keyword is recorded as any other failure. *)
Definition chart_for (stock_name stock_code start_date end_date : option string)
    (chart_type : string) (opts : chart_options) (output_dir : string)
  : M (list chart_entry) :=
  try_except
    (r <- generate_chart_from_stock stock_name stock_code start_date end_date
                                    chart_type opts output_dir false ;;
     match r with
     | (Some _, df, Some saved_path) =>
         if truthy (Some saved_path)
         then ret [ChartSaved (py_or stock_name stock_code) chart_type
                              (List.length (rows df)) saved_path]
         else ret []
     | _ => ret []
     end)
    (fun e => ret [ChartError (py_or stock_name stock_code) chart_type e]).

Fixpoint charts_for_stock (stock_name stock_code start_date end_date : option string)
    (chart_types : list string) (opts : chart_options) (output_dir : string)
  : M (list chart_entry) :=
  match chart_types with
  | [] => ret []
  | chart_type :: rest =>
      here <- chart_for stock_name stock_code start_date end_date
                        chart_type opts output_dir ;;
      more <- charts_for_stock stock_name stock_code start_date end_date
                               rest opts output_dir ;;
      ret (here ++ more)
  end.

Fixpoint generate_multiple_charts (stock_list : list stock_item)
    (chart_types : list string) (output_dir : string) (opts : chart_options)
  : M (list chart_entry) :=
  match stock_list with
  | [] => ret []
  | stock :: rest =>
      here <- (match stock with
               | StockDict name code start_date end_date =>
                   charts_for_stock name code start_date end_date
                                    chart_types opts output_dir
               | StockName stock_name =>
                   charts_for_stock (Some stock_name) None None None
                                    chart_types opts output_dir
               end) ;;
      more <- generate_multiple_charts rest chart_types output_dir opts ;;
      ret (here ++ more)
  end.

End GenerateChart.

(** ** prepare_data on frame objects

    Python frames are objects: [df.copy()], [set_index], [rename] and
    [sort_index] build a new object, while [data['Date'] = ..] and
    [data.columns = ..] change the object [data] is bound to. The store maps
    object identities to frame contents. *)
Module Objects.

Abbreviation store := (gmap nat DataFrame).

(** A newly built frame object gets an identity that is not in use. *)
Definition new_frame (f : DataFrame) : St store nat :=
  fun h => let l := fresh (dom h) in (Ok l, <[l := f]> h).

Definition read_frame (l : nat) : St store DataFrame :=
  fun h => match h !! l with
           | Some f => (Ok f, h)
           | None => (Raise (ExternalError "no such object"), h)
           end.

(** In-place change of the object [l]. *)
Definition update_frame (l : nat) (g : DataFrame -> DataFrame) : St store unit :=
  fun h => (Ok tt, alter g l h).

Section PrepareData.
Context (pd : Pandas).

(** [data['Date'] = dates; data = data.set_index('Date')] *)
Definition date_to_index (data : nat) (dates : list Z) : St store nat :=
  update_frame data (setitem "Date" (map Timestamp dates)) ;;;
  f <- read_frame data ;;
  g <- lift (set_index "Date" f) ;;
  new_frame g.

(** Lines 85-100 on the object [data]. *)
Definition index_stage (data : nat) : St store nat :=
  cur <- read_frame data ;;
  if has_col "trade_date" cur then
    col <- lift (getitem "trade_date" cur) ;;
    dates <- lift (parse_trade_date pd col) ;;
    date_to_index data dates
  else if has_col "Date" cur then
    col <- lift (getitem "Date" cur) ;;
    dates <- lift (to_datetime pd col) ;;
    date_to_index data dates
  else ret data.

(** Lines 102-125 on the object [data]. *)
Definition columns_stage (data : nat) : St store nat :=
  (* data.columns = data.columns.str.lower() *)
  f <- read_frame data ;;
  lowered <- lift (lower_columns pd f) ;;
  update_frame data (fun _ => lowered) ;;;
  (* data = data.rename(columns=column_mapping) *)
  data <- (f <- read_frame data ;; new_frame (rename column_mapping f)) ;;
  f <- read_frame data ;;
  match missing_columns f with
  | [] => g <- lift (sort_index f) ;; new_frame g
  | missing => raise (SchemaError missing)
  end.

Definition prepare_data (df : nat) : St store nat :=
  (* data = df.copy() *)
  data <- (f <- read_frame df ;; new_frame f) ;;
  data <- index_stage data ;;
  columns_stage data.

End PrepareData.

(** Every object of [h] is in [h'] with the same content. *)
Definition unchanged (h h' : store) : Prop :=
  forall k, is_Some (h !! k) -> h' !! k = h !! k.

(** In [h'] the object [l] holds [f]; it did not exist in [h], whose objects
    [h'] kept. *)
Definition holds_new (h h' : store) (l : nat) (f : DataFrame) : Prop :=
  unchanged h h' /\ h !! l = None /\ h' !! l = Some f.

(** The run [out] started from a state that kept the objects of [h] agrees
    with the result [r] computed on frame values: it leaves the objects of
    [h] as they were, raises what [r] raises, and returns an object that did
    not exist in [h] and holds the frame of [r]. *)
Definition builds (h : store) (r : result DataFrame) (out : result nat * store) : Prop :=
  unchanged h (snd out)
  /\ match r, fst out with
     | Ok g, Ok l => h !! l = None /\ snd out !! l = Some g
     | Raise e, Raise e' => e = e'
     | _, _ => False
     end.

End Objects.

(** ** The wording of the specification, for comparison *)

(** [p] occurs in [s] as a contiguous substring. *)
Fixpoint substringb (p s : string) : bool :=
  (String.prefix p s ||
   match s with
   | EmptyString => false
   | String _ s' => substringb p s'
   end)%bool.

Definition contains_name (query : string) (r : StockBasic) : bool :=
  match name r with
  | Some n => substringb query n
  | None => false
  end.

(** [resolve] as the specification words it: the exact match, else the first
    entry whose name contains the query, else [NotFoundError]. *)
Definition resolve_spec (directory : list StockBasic) (query : string) : result string :=
  match find (name_is query) directory with
  | Some r => Ok (ts_code r)
  | None =>
      match find (contains_name query) directory with
      | Some r => Ok (ts_code r)
      | None => Raise (NotFoundError query)
      end
  end.

(** The characters with a special meaning in a Python regular expression. *)
Definition regex_special (a : ascii) : bool :=
  existsb (Ascii.eqb a) (list_ascii_of_string ".^$*+?{}[]\|()").

Definition regex_free (pat : string) : bool :=
  forallb (fun a => negb (regex_special a)) (list_ascii_of_string pat).

(** What pandas guarantees of [str.contains(pat, na=False)] for a pattern
    without special characters: the literal substring test, false on missing
    names. *)
Definition literal_contains (pd : Pandas) : Prop :=
  forall pat col, regex_free pat = true ->
    str_contains pd pat col
    = Ok (map (fun o => match o with Some s => substringb pat s | None => false end) col).

(** The canonical column names of a chart frame. *)
Definition canonical_columns : list string := ["Open"; "High"; "Low"; "Close"; "Volume"].

(** The capital letters, each with its small letter. *)
Definition letter_cases : list (ascii * ascii) :=
  combine (list_ascii_of_string "ABCDEFGHIJKLMNOPQRSTUVWXYZ")
          (list_ascii_of_string "abcdefghijklmnopqrstuvwxyz").

(** The small letter of a capital letter; any other character is kept. *)
Definition small_letter (a : ascii) : ascii :=
  match find (fun p => Ascii.eqb (fst p) a) letter_cases with
  | Some p => snd p
  | None => a
  end.

(** A column name in lower case: every capital letter replaced by its small
    letter; for a name with characters outside ASCII, what the Unicode
    tables of the runtime give. *)
Definition lower_case (pd : Pandas) (c : string) : string :=
  if is_ascii c
  then string_of_list_ascii (map small_letter (list_ascii_of_string c))
  else str_lower_unicode pd c.

(** The fixed synonym table: the six spellings that stand for a canonical
    name; any other name stands for itself. *)
Definition synonym (l : string) : string :=
  if String.eqb l "open" then "Open"
  else if String.eqb l "high" then "High"
  else if String.eqb l "low" then "Low"
  else if String.eqb l "close" then "Close"
  else if (String.eqb l "vol" || String.eqb l "volume")%bool then "Volume"
  else l.

(** The name under which the specification has a column arrive in the chart
    frame: lower-cased, then remapped through the synonym table. *)
Definition canonical_name (pd : Pandas) (c : string) : string :=
  synonym (lower_case pd c).

(** ** The manual rendering, as the specification words it *)

(** The open, high, low and close of a row, when all four are numbers. *)
Definition prices (cols : list string) (r : Row) : option (Q * Q * Q * Q) :=
  match row_get cols "Open" r, row_get cols "High" r,
        row_get cols "Low" r, row_get cols "Close" r with
  | Ok (Num o), Ok (Num h), Ok (Num l), Ok (Num c) => Some (o, h, l, c)
  | _, _, _, _ => None
  end.

(** One segment per row at position [i]: a thin black line from low to
    high, and a thicker line from open to close, red when the close is not
    below the open and green otherwise. *)
Definition spec_segments (i : nat) (p : Q * Q * Q * Q) : list Line2D :=
  let '(o, h, l, c) := p in
  [mkLine (i, i) (Num l, Num h) "k" (8 # 10);
   mkLine (i, i) (Num o, Num c) (if Qle_bool o c then "r" else "g") (3 # 1)].

Fixpoint spec_drawing (i : nat) (ps : list (Q * Q * Q * Q)) : list Line2D :=
  match ps with
  | [] => []
  | p :: rest => spec_segments i p ++ spec_drawing (S i) rest
  end.

Definition is_timestamp (c : cell) : bool :=
  match c with
  | Timestamp _ => true
  | _ => false
  end.

(** ** Well-formed frames *)

(** Every row has one cell per column. *)
Definition rectangular (df : DataFrame) : bool :=
  forallb (fun r => Nat.eqb (List.length (values r)) (List.length (columns df))) (rows df).

(** The text of a string cell. *)
Definition str_of (c : cell) : string :=
  match c with
  | Str s => s
  | _ => ""
  end.

(** Adjacent elements are in the order decided by [leb]. *)
Definition sorted_by {A} (leb : A -> A -> bool) (l : list A) : Prop :=
  Sorted (fun a b => leb a b = true) l.

(** ** Stand-ins for the external collaborators, for concrete runs *)
Module Stub.

(** Regular expressions made of ordinary characters and [.], which matches
    any character but a newline. This stand-in refuses every other special
    character with the error of [re]; Python does so for a pattern that
    starts with a repetition sign. *)
Inductive atom : Type :=
| Lit (a : ascii)
| AnyChar.

Fixpoint re_compile (pat : string) : result (list atom) :=
  match pat with
  | EmptyString => Ok []
  | String a pat' =>
      if Ascii.eqb a "." then rbind (re_compile pat') (fun r => Ok (AnyChar :: r))
      else if regex_special a then Raise (ExternalError "re.error")
      else rbind (re_compile pat') (fun r => Ok (Lit a :: r))
  end.

Definition atom_matches (x : atom) (c : ascii) : bool :=
  match x with
  | Lit a => Ascii.eqb a c
  | AnyChar => negb (Ascii.eqb c "010")
  end.

Fixpoint match_here (re : list atom) (s : string) : bool :=
  match re, s with
  | [], _ => true
  | x :: re', String c s' => (atom_matches x c && match_here re' s')%bool
  | _ :: _, EmptyString => false
  end.

(** [re.search] *)
Fixpoint re_search (re : list atom) (s : string) : bool :=
  (match_here re s ||
   match s with
   | EmptyString => false
   | String _ s' => re_search re s'
   end)%bool.

Definition str_contains (pat : string) (col : list (option string)) : result (list bool) :=
  rbind (re_compile pat) (fun re =>
  Ok (map (fun o => match o with Some s => re_search re s | None => false end) col)).

Definition digit_of (a : ascii) : option Z :=
  let n := nat_of_ascii a in
  if (Nat.leb 48 n && Nat.leb n 57)%bool then Some (Z.of_nat (n - 48)) else None.

Fixpoint digits (acc : Z) (s : string) : option Z :=
  match s with
  | EmptyString => Some acc
  | String a s' => match digit_of a with
                   | Some d => digits (10 * acc + d) s'
                   | None => None
                   end
  end.

(** A date written [YYYYMMDD] is read as the number [YYYYMMDD], which
    orders dates as the calendar does. *)
Definition to_datetime_str (c : cell) : result Z :=
  match c with
  | Str s => if Nat.eqb (String.length s) 8
             then match digits 0 s with
                  | Some z => Ok z
                  | None => Raise (ExternalError "ValueError")
                  end
             else Raise (ExternalError "ValueError")
  | Timestamp t => Ok t
  | Num _ => Raise (ExternalError "ValueError")
  end.

Definition to_datetime (col : list cell) : result (list Z) :=
  map_result to_datetime_str col.

Definition digit_char (d : Z) : ascii := ascii_of_nat (48 + Z.to_nat (d mod 10)).

Fixpoint decimal (n : nat) (z : Z) (acc : string) : string :=
  match n with
  | O => acc
  | S n' => decimal n' (z / 10) (String (digit_char z) acc)
  end.

(** [YYYY-MM-DD] from the number [YYYYMMDD]. *)
Definition strftime (t : Z) : string :=
  (decimal 4 (t / 10000) "" ++ "-" ++ decimal 2 (t / 100) "" ++ "-" ++ decimal 2 t "")%string.

(** Lower-casing of UTF-8 text for the letters of ASCII and of the Latin-1
    supplement, whose capitals are the two-byte characters [195 128] to
    [195 158] without the multiplication sign [195 151]; every other
    character is kept. *)
Fixpoint lower_latin1 (s : string) : string :=
  match s with
  | EmptyString => EmptyString
  | String a s' =>
      if Nat.eqb (nat_of_ascii a) 195 then
        match s' with
        | EmptyString => String a EmptyString
        | String b s'' =>
            let n := nat_of_ascii b in
            String a (String (if (Nat.leb 128 n && Nat.leb n 158 && negb (Nat.eqb n 151))%bool
                              then ascii_of_nat (n + 32) else b)
                             (lower_latin1 s''))
        end
      else String (lower_ascii a) (lower_latin1 s')
  end.

Definition pandas : Pandas :=
  mkPandas str_contains to_datetime to_datetime to_datetime_str
           (fun _ => Raise (ExternalError "FileNotFoundError"))
           (fun _ _ => Ok tt)
           strftime
           lower_latin1.

Definition py_str (c : cell) : string :=
  match c with
  | Str s => s
  | Timestamp t => strftime t
  | Num q => decimal 8 (Qnum q / Zpos (Qden q)) ""
  end.

Fixpoint drop_last_component (rev_path : list ascii) : list ascii :=
  match rev_path with
  | [] => []
  | a :: t => if Ascii.eqb a "/" then t else drop_last_component t
  end.

Definition path_dirname (p : string) : string :=
  string_of_list_ascii (rev (drop_last_component (rev (list_ascii_of_string p)))).

Definition host : Host :=
  mkHost "20240101" py_str (fun _ => false)
         (fun a b => (a ++ "/" ++ b)%string) path_dirname (fun _ _ => Ok tt).

(** A remote that serves one directory and one table of daily bars per
    code; unknown codes have no bars. *)
Fixpoint bars_of (table : list (string * DataFrame)) (code : string) : DataFrame :=
  match table with
  | [] => empty_frame
  | (c, df) :: t => if String.eqb c code then df else bars_of t code
  end.

Definition tushare (directory : list StockBasic) (table : list (string * DataFrame))
  : Tushare :=
  mkTushare (Ok directory)
            (fun code => Ok (map (fun r => match name r with
                                           | Some n => Str n
                                           | None => Str ""
                                           end)
                                 (List.filter (fun r => String.eqb (ts_code r) code) directory)))
            (fun code _ _ => Ok (bars_of table code)).

(** A renderer that works, and one whose primary path always raises. *)
Definition plotting_ok : Plotting :=
  mkPlotting (fun _ _ => Ok tt) (Ok []) (fun _ _ _ => Ok tt) (Ok tt).

Definition plotting_broken : Plotting :=
  mkPlotting (fun _ _ => Raise (ExternalError "mplfinance"))
             (Ok []) (fun _ _ _ => Ok tt) (Ok tt).

Definition daily_columns : list string :=
  ["ts_code"; "trade_date"; "open"; "high"; "low"; "close"; "vol"].

Definition bar (i : Z) (code date : string) (o h l c v : Z) : Row :=
  mkRow (Num (inject_Z i))
        [Str code; Str date; Num (inject_Z o); Num (inject_Z h); Num (inject_Z l);
         Num (inject_Z c); Num (inject_Z v)].

(** Two trading days, newest first, as the remote returns them. *)
Definition sample_bars : DataFrame :=
  mkFrame daily_columns
          [bar 0 "T1" "20230104" 11 13 10 12 500;
           bar 1 "T1" "20230103" 10 12 9 11 400].

End Stub.

(** ** Kinds of events *)

(** A request to the remote market-data API. *)
Definition is_remote (e : event) : bool :=
  match e with
  | ReqStockBasic | ReqStockBasicName _ | ReqDaily _ _ _ => true
  | _ => false
  end.

(** The download of the whole symbol directory. *)
Definition is_directory_request (e : event) : bool :=
  match e with
  | ReqStockBasic => true
  | _ => false
  end.

(** An effect on the local file system or the screen. *)
Definition is_local (e : event) : bool := negb (is_remote e).

(** Every run of [m] keeps the trace it starts from and appends to it only
    events that satisfy [P]. *)
Definition emits_only {A} (P : event -> bool) (m : M A) : Prop :=
  forall tr, exists delta, snd (m tr) = tr ++ delta /\ forallb P delta = true.


(** ** Keys of batch entries *)

(** The stock an entry is about and its chart type. *)
Definition entry_key (e : chart_entry) : option string * string :=
  match e with
  | ChartSaved stock_name chart_type _ _ => (stock_name, chart_type)
  | ChartError stock_name chart_type _ => (stock_name, chart_type)
  end.

(** The label under which the batch reports an element of [stock_list]. *)
Definition item_label (stock : stock_item) : option string :=
  match stock with
  | StockName stock_name => py_or (Some stock_name) None
  | StockDict name code _ _ => py_or name code
  end.

(** The pairs the batch goes through, in its order: stocks in the outer
    loop, chart types in the inner one. *)
Definition batch_keys (stock_list : list stock_item) (chart_types : list string)
  : list (option string * string) :=
  flat_map (fun stock => map (fun chart_type => (item_label stock, chart_type)) chart_types)
           stock_list.

Definition entry_path (e : chart_entry) : option string :=
  match e with
  | ChartSaved _ _ _ saved_path => Some saved_path
  | ChartError _ _ _ => None
  end.

(** ** StockChartGenerator: fonts

    [__init__] and [_setup_chinese_fonts] configure matplotlib once, through
    its process-wide [rcParams]. *)

(** The part of the host that the font setup looks at. *)
Record FontHost : Type := mkFontHost {
  (* platform.system() *)
  platform_system : string;
  (* fm.findSystemFonts(): paths of font files *)
  findSystemFonts : list string;
  (* fm.FontProperties(fname=path).get_name(), which may raise *)
  font_name : string -> result string;
  (* list(set(names)): each name once, in an order Python does not fix *)
  list_of_set : list string -> list string;
  (* font_name.lower() for a name with a character outside ASCII *)
  name_lower_unicode : string -> string
}.

(** The entries of [plt.rcParams] that the class writes. *)
Record RcParams : Type := mkRcParams {
  font_sans_serif : list string;
  font_family : string;
  axes_unicode_minus : bool
}.

Definition chinese_keywords : list string :=
  ["simhei"; "simsun"; "simkai"; "simfang"; "microsoft"; "wenquan";
   "noto sans cjk"; "noto sans sc"; "noto sans tc"; "source han";
   "noto sans mono cjk"; "pingfang"; "heiti"; "stheiti";
   "思源"; "黑体"; "宋体"; "楷体"; "仿宋"; "微软雅黑"; "苹方"].

(** [any(keyword in font_name.lower() for keyword in [...])] *)
Definition is_chinese_font (fh : FontHost) (name : string) : bool :=
  existsb (fun keyword => substringb keyword (lower (name_lower_unicode fh) name))
          chinese_keywords.

(** The loop over the font files: a file whose name cannot be read is
    skipped. *)
Fixpoint collect_chinese_fonts (fh : FontHost) (fonts : list string) : list string :=
  match fonts with
  | [] => []
  | font :: rest =>
      match font_name fh font with
      | Ok name =>
          if is_chinese_font fh name
          then name :: collect_chinese_fonts fh rest
          else collect_chinese_fonts fh rest
      | Raise _ => collect_chinese_fonts fh rest
      end
  end.

Definition preferred_fonts (system : string) : list string :=
  if String.eqb system "Darwin" then
    ["PingFang SC"; "Heiti SC"; "STHeiti"; "Arial Unicode MS"; "Noto Sans CJK SC"]
  else if String.eqb system "Windows" then
    ["SimHei"; "Microsoft YaHei"; "SimSun"; "Arial Unicode MS"; "Noto Sans CJK SC"]
  else
    ["Noto Sans CJK SC"; "Noto Sans CJK TC"; "WenQuanYi Micro Hei"; "AR PL UMing CN";
     "DejaVu Sans"].

Definition _setup_chinese_fonts (fh : FontHost) (rc : RcParams) : RcParams :=
  let chinese_fonts := collect_chinese_fonts fh (findSystemFonts fh) in
  let preferred := preferred_fonts (platform_system fh) in
  let all_fonts := preferred ++ list_of_set fh chinese_fonts in
  mkRcParams all_fonts "sans-serif" (axes_unicode_minus rc).

(** [StockChartGenerator.__init__] *)
Definition init_generator (fh : FontHost) (rc : RcParams) : RcParams :=
  let rc := _setup_chinese_fonts fh rc in
  mkRcParams (font_sans_serif rc) (font_family rc) false.

(** What Python guarantees of [list(set(l))]. *)
Definition set_semantics (fh : FontHost) : Prop :=
  forall l, NoDup (list_of_set fh l) /\ forall x, In x (list_of_set fh l) <-> In x l.

(** * Properties *)

(** ** Lists and strings *)

Lemma filter_first_is_find {A} (p : A -> bool) (l : list A) :
  hd_error (List.filter p l) = find p l.
Proof.
  induction l as [|a l IH]; simpl; [reflexivity|].
  destruct (p a); simpl; [reflexivity | exact IH].
Qed.

Lemma select_mask_map {A} (p : A -> bool) (l : list A) :
  select_mask (map p l) l = List.filter p l.
Proof.
  unfold select_mask.
  induction l as [|a l IH]; simpl; [reflexivity|].
  destruct (p a); simpl; rewrite IH; reflexivity.
Qed.

Lemma select_mask_map_on {A B} (f : A -> B) (q : B -> bool) (l : list A) :
  select_mask (map q (map f l)) l = List.filter (fun a => q (f a)) l.
Proof. rewrite map_map. apply select_mask_map. Qed.

Lemma prefix_iff (p s : string) :
  String.prefix p s = true <-> exists rest, s = (p ++ rest)%string.
Proof.
  revert s; induction p as [|a p IH]; intros s.
  - split; [intros _; exists s; reflexivity | intros _; destruct s; reflexivity].
  - destruct s as [|b s]; simpl; [split; [discriminate | intros [r Hr]; discriminate]|].
    destruct (ascii_dec a b) as [->|Hab].
    + rewrite IH. split; intros [r Hr]; exists r; [rewrite Hr; reflexivity|].
      inversion Hr; reflexivity.
    + split; [discriminate | intros [r Hr]; inversion Hr; congruence].
Qed.

Lemma substringb_nil (p : string) :
  substringb p "" = String.prefix p "".
Proof. simpl. apply orb_false_r. Qed.

Lemma substringb_cons (p : string) (b : ascii) (s : string) :
  substringb p (String b s) = (String.prefix p (String b s) || substringb p s)%bool.
Proof. reflexivity. Qed.

(** [substringb] decides the substring relation. *)
Lemma substringb_iff (p s : string) :
  substringb p s = true <-> exists before after, s = (before ++ p ++ after)%string.
Proof.
  induction s as [|b s IH].
  - rewrite substringb_nil, prefix_iff. split.
    + intros [r Hr]; exists "", r; exact Hr.
    + intros [x [y H]]. destruct x; [exists y; exact H | discriminate].
  - rewrite substringb_cons, orb_true_iff, prefix_iff, IH. split.
    + intros [[r Hr] | [x [y H]]].
      * exists "", r; exact Hr.
      * exists (String b x), y; simpl; rewrite H; reflexivity.
    + intros [x [y H]]. destruct x as [|c x]; simpl in H.
      * left; exists y; exact H.
      * right; exists x, y; inversion H; reflexivity.
Qed.

(** ** The stand-in pattern matcher is literal on ordinary characters *)

Lemma stub_compile_literal (pat : string) :
  regex_free pat = true ->
  Stub.re_compile pat = Ok (map Stub.Lit (list_ascii_of_string pat)).
Proof.
  unfold regex_free.
  induction pat as [|a pat IH]; simpl; [reflexivity|].
  rewrite andb_true_iff, negb_true_iff. intros [Ha Hrest].
  replace (Ascii.eqb a ".") with false.
  - rewrite Ha, (IH Hrest). reflexivity.
  - symmetry. apply Ascii.eqb_neq. intros ->. vm_compute in Ha. discriminate.
Qed.

Lemma stub_match_here_literal (pat s : string) :
  Stub.match_here (map Stub.Lit (list_ascii_of_string pat)) s = String.prefix pat s.
Proof.
  revert s; induction pat as [|a pat IH]; intros s; [destruct s; reflexivity|].
  destruct s as [|b s]; simpl; [reflexivity|].
  destruct (ascii_dec a b) as [->|Hab].
  - rewrite Ascii.eqb_refl; simpl. apply IH.
  - apply Ascii.eqb_neq in Hab. rewrite Hab. reflexivity.
Qed.

Lemma stub_search_literal (pat s : string) :
  Stub.re_search (map Stub.Lit (list_ascii_of_string pat)) s = substringb pat s.
Proof.
  induction s as [|b s IH].
  - rewrite substringb_nil. simpl. rewrite orb_false_r.
    apply stub_match_here_literal.
  - rewrite substringb_cons, <- IH, <- stub_match_here_literal. reflexivity.
Qed.

Lemma stub_literal_contains : literal_contains Stub.pandas.
Proof.
  intros pat col Hfree. simpl. unfold Stub.str_contains.
  rewrite (stub_compile_literal pat Hfree). simpl. f_equal.
  apply map_ext. intros [s|]; [apply stub_search_literal | reflexivity].
Qed.

(** ** Symbol resolution *)

Lemma get_stock_code_by_name_run (ts : Tushare) (pd : Pandas) (q : string)
    (directory : list StockBasic) (tr : trace) :
  stock_basic ts = Ok directory ->
  get_stock_code_by_name ts pd q tr
  = match List.filter (name_is q) directory with
    | r :: _ => (Ok (ts_code r), tr ++ [ReqStockBasic])
    | [] =>
        match str_contains pd q (map name directory) with
        | Ok mask =>
            match select_mask mask directory with
            | r :: _ => (Ok (ts_code r), tr ++ [ReqStockBasic])
            | [] => (Raise (NotFoundError q), tr ++ [ReqStockBasic])
            end
        | Raise e => (Raise e, tr ++ [ReqStockBasic])
        end
    end.
Proof.
  intros Hdir. unfold get_stock_code_by_name, bind, emit, lift, ret, raise.
  rewrite Hdir.
  destruct (List.filter (name_is q) directory) as [|r rest]; simpl; [|reflexivity].
  destruct (str_contains pd q (map name directory)) as [mask|e]; [|reflexivity].
  destruct (select_mask mask directory); reflexivity.
Qed.

(** Whatever its outcome, a resolution downloads the symbol directory
    exactly once and does nothing else. *)
Lemma get_stock_code_by_name_trace (ts : Tushare) (pd : Pandas) (q : string) (tr : trace) :
  snd (get_stock_code_by_name ts pd q tr) = tr ++ [ReqStockBasic].
Proof.
  unfold get_stock_code_by_name, bind, emit, lift, ret, raise.
  destruct (stock_basic ts) as [directory|e]; [|reflexivity].
  destruct (List.filter (name_is q) directory) as [|r rest]; simpl; [|reflexivity].
  destruct (str_contains pd q (map name directory)) as [mask|e]; [|reflexivity].
  destruct (select_mask mask directory); reflexivity.
Qed.

(** X1. Where the code agrees with the specification of [resolve]:
    [get_stock_code_by_name] returns the code of the first entry whose name
    equals the queried name whenever there is one; and for a queried name
    without regular-expression special characters it is exactly the
    resolution the specification describes: the first exact match, else the
    first entry whose name contains the queried name, else [NotFoundError]. *)
Theorem resolve_exact_then_literal_substring
    (ts : Tushare) (pd : Pandas) (q : string) (directory : list StockBasic) (tr : trace) :
  stock_basic ts = Ok directory ->
  literal_contains pd ->
  (forall r, find (name_is q) directory = Some r ->
             fst (get_stock_code_by_name ts pd q tr) = Ok (ts_code r)) /\
  (regex_free q = true ->
   fst (get_stock_code_by_name ts pd q tr) = resolve_spec directory q).
Proof.
  intros Hdir Hlit.
  rewrite (get_stock_code_by_name_run ts pd q directory tr Hdir).
  pose proof (filter_first_is_find (name_is q) directory) as Hfind.
  split.
  - intros r Hr. rewrite Hr in Hfind.
    destruct (List.filter (name_is q) directory) as [|r' rest]; [discriminate|].
    simpl in Hfind. inversion Hfind. reflexivity.
  - intros Hfree. unfold resolve_spec. rewrite <- Hfind.
    destruct (List.filter (name_is q) directory) as [|r' rest]; [|reflexivity].
    simpl. rewrite (Hlit q (map name directory) Hfree).
    rewrite (select_mask_map_on name
               (fun o => match o with Some s => substringb q s | None => false end)).
    change (fun a : StockBasic => match name a with
                                  | Some s => substringb q s
                                  | None => false
                                  end) with (contains_name q).
    rewrite <- (filter_first_is_find (contains_name q) directory).
    destruct (List.filter (contains_name q) directory); reflexivity.
Qed.

Lemma resolve_exact_then_literal_substring_witness :
  fst (get_stock_code_by_name
         (Stub.tushare [mkStock "T1" (Some "abcd"); mkStock "T2" (Some "bc")] [])
         Stub.pandas "bc" [])
  = Ok "T2"
  /\ fst (get_stock_code_by_name
            (Stub.tushare [mkStock "T1" (Some "abcd"); mkStock "T2" (Some "bcd")] [])
            Stub.pandas "bc" [])
     = Ok "T1".
Proof.
  split.
  - apply (proj1 (resolve_exact_then_literal_substring
                    (Stub.tushare [mkStock "T1" (Some "abcd"); mkStock "T2" (Some "bc")] [])
                    Stub.pandas "bc" _ [] eq_refl stub_literal_contains)
                 (mkStock "T2" (Some "bc"))).
    reflexivity.
  - apply (proj2 (resolve_exact_then_literal_substring
                    (Stub.tushare [mkStock "T1" (Some "abcd"); mkStock "T2" (Some "bcd")] [])
                    Stub.pandas "bc" _ [] eq_refl stub_literal_contains)).
    reflexivity.
Defined.

(** C1 fails on names with special characters: the fallback match reads the
    queried name as a regular expression, not as a literal substring. The
    name [*ST] is contained in the display name [*STAB], so the claim
    promises the ticker [T1]; the code raises the pattern error of [re]. The
    name [a.c] is contained in no display name, so the claim promises
    [NotFoundError]; the code matches [abc] and returns [T1]. *)
Lemma resolve_reads_name_as_pattern :
  (substringb "*ST" "*STAB" = true
   /\ resolve_spec [mkStock "T1" (Some "*STAB")] "*ST" = Ok "T1"
   /\ fst (get_stock_code_by_name (Stub.tushare [mkStock "T1" (Some "*STAB")] [])
                                  Stub.pandas "*ST" [])
      = Raise (ExternalError "re.error"))
  /\ (substringb "a.c" "abc" = false
      /\ resolve_spec [mkStock "T1" (Some "abc")] "a.c" = Raise (NotFoundError "a.c")
      /\ fst (get_stock_code_by_name (Stub.tushare [mkStock "T1" (Some "abc")] [])
                                     Stub.pandas "a.c" [])
         = Ok "T1").
Proof. repeat split. Qed.

(** ** Fetching: arguments *)

(** C7. When neither a stock name nor a stock code is supplied ([None] or
    the empty string), [get_stock_data] raises [InvalidArgument] and the
    trace of external effects is unchanged: no remote request was issued. *)
Theorem fetch_without_identifier_is_rejected
    (ts : Tushare) (pd : Pandas) (host : Host)
    (stock_name stock_code start_date end_date : option string) (tr : trace) :
  truthy stock_name = false ->
  truthy stock_code = false ->
  get_stock_data ts pd host stock_name stock_code start_date end_date tr
  = (Raise InvalidArgument, tr).
Proof.
  intros Hname Hcode. unfold get_stock_data. rewrite Hname, Hcode. reflexivity.
Qed.

Lemma fetch_without_identifier_is_rejected_witness :
  get_stock_data (Stub.tushare [mkStock "T1" (Some "abc")] [("T1", Stub.sample_bars)])
                 Stub.pandas Stub.host None (Some "") (Some "20230101") None []
  = (Raise InvalidArgument, []).
Proof.
  apply fetch_without_identifier_is_rejected; reflexivity.
Defined.

(** ** Fetching: an empty remote result *)

(** C4. When the arguments yield a code and the remote has no rows for it in
    the requested range, [get_stock_data] returns the empty frame and raises
    nothing; [save_to_csv] on that result returns [None] and leaves the trace
    unchanged: no directory is made and no file is written. *)
Theorem fetch_without_rows_is_empty
    (ts : Tushare) (pd : Pandas) (host : Host)
    (stock_name stock_code start_date end_date : option string)
    (tr tr' : trace) (code : string) (df : DataFrame) :
  (truthy stock_name || truthy stock_code)%bool = true ->
  code_of_arguments ts pd stock_name stock_code tr = (Ok code, tr') ->
  daily ts code (or_str start_date "20100101") (or_str end_date (now_ymd host)) = Ok df ->
  df_empty df = true ->
  get_stock_data ts pd host stock_name stock_code start_date end_date tr
  = (Ok empty_frame,
     tr' ++ [ReqDaily code (or_str start_date "20100101") (or_str end_date (now_ymd host))])
  /\ forall filename output_dir tr2,
       save_to_csv pd host empty_frame filename output_dir tr2 = (Ok None, tr2).
Proof.
  intros Hid Hcode Hdaily Hempty. split; [|reflexivity].
  unfold get_stock_data.
  replace (negb (truthy stock_name) && negb (truthy stock_code))%bool with false
    by (destruct (truthy stock_name), (truthy stock_code); simpl in *; congruence).
  unfold bind at 1. rewrite Hcode.
  unfold bind, emit, lift, ret. rewrite Hdaily, Hempty. reflexivity.
Qed.

Lemma fetch_without_rows_is_empty_witness :
  get_stock_data (Stub.tushare [] []) Stub.pandas Stub.host
                 None (Some "000001.SZ") (Some "20230101") (Some "20231231") []
  = (Ok empty_frame, [] ++ [ReqDaily "000001.SZ" "20230101" "20231231"])
  /\ forall filename output_dir tr2,
       save_to_csv Stub.pandas Stub.host empty_frame filename output_dir tr2
       = (Ok None, tr2).
Proof.
  apply (fetch_without_rows_is_empty (Stub.tushare [] []) Stub.pandas Stub.host
           None (Some "000001.SZ") (Some "20230101") (Some "20231231")
           [] [] "000001.SZ" empty_frame); reflexivity.
Defined.

(** ** Sorting *)

Lemma cell_leb_total (a b : cell) : cell_leb a b = false -> cell_leb b a = true.
Proof.
  destruct a as [p|s|t], b as [q|s'|t']; simpl; try discriminate; try reflexivity.
  - intros H. apply Qle_bool_iff. apply Qlt_le_weak. apply Qnot_le_lt.
    intros Hle. apply Qle_bool_iff in Hle. congruence.
  - intros H. destruct (String.leb_total s s') as [H1|H1]; congruence.
  - intros H. apply Z.leb_gt in H. apply Z.leb_le. lia.
Qed.

Lemma insert_by_perm {A} (leb : A -> A -> bool) (x : A) (l : list A) :
  Permutation (insert_by leb x l) (x :: l).
Proof.
  induction l as [|y t IH]; simpl; [apply Permutation_refl|].
  destruct (leb x y); [apply Permutation_refl|].
  apply Permutation_trans with (y :: x :: t); [|apply perm_swap].
  apply perm_skip. exact IH.
Qed.

Lemma sort_by_perm {A} (leb : A -> A -> bool) (l : list A) :
  Permutation (sort_by leb l) l.
Proof.
  induction l as [|x t IH]; simpl; [apply perm_nil|].
  apply Permutation_trans with (x :: sort_by leb t);
    [apply insert_by_perm | apply perm_skip; exact IH].
Qed.

Lemma insert_by_sorted {A} (leb : A -> A -> bool) (x : A) (l : list A) :
  (forall a b, leb a b = false -> leb b a = true) ->
  sorted_by leb l -> sorted_by leb (insert_by leb x l).
Proof.
  intros Htotal. unfold sorted_by.
  induction l as [|y t IH]; intros Hs; simpl.
  - repeat constructor.
  - destruct (leb x y) eqn:Hxy.
    + constructor; [exact Hs | constructor; exact Hxy].
    + inversion Hs as [|? ? Ht Hhd]; subst.
      constructor; [apply IH; exact Ht|].
      destruct t as [|z t']; simpl.
      * constructor. apply Htotal; exact Hxy.
      * destruct (leb x z); constructor.
        -- apply Htotal; exact Hxy.
        -- inversion Hhd; assumption.
Qed.

Lemma sort_by_sorted {A} (leb : A -> A -> bool) (l : list A) :
  (forall a b, leb a b = false -> leb b a = true) ->
  sorted_by leb (sort_by leb l).
Proof.
  intros Htotal. induction l as [|x t IH]; simpl.
  - constructor.
  - apply insert_by_sorted; assumption.
Qed.

(** Sorting a list that is in order changes nothing. *)
Lemma sort_by_sorted_id {A} (leb : A -> A -> bool) (l : list A) :
  sorted_by leb l -> sort_by leb l = l.
Proof.
  unfold sorted_by. induction l as [|x t IH]; intros Hs; simpl; [reflexivity|].
  inversion Hs as [|? ? Ht Hhd]; subst. rewrite (IH Ht).
  destruct t as [|y t']; simpl; [reflexivity|].
  inversion Hhd as [|? ? Hxy]; subst. rewrite Hxy. reflexivity.
Qed.

Lemma sort_by_idempotent {A} (leb : A -> A -> bool) (l : list A) :
  (forall a b, leb a b = false -> leb b a = true) ->
  sort_by leb (sort_by leb l) = sort_by leb l.
Proof. intros Htotal. apply sort_by_sorted_id, sort_by_sorted, Htotal. Qed.

Lemma sorted_by_map {A B} (f : A -> B) (leb : B -> B -> bool) (l : list A) :
  sorted_by (fun a b => leb (f a) (f b)) l -> sorted_by leb (map f l).
Proof.
  unfold sorted_by. induction l as [|x t IH]; intros Hs; simpl; [constructor|].
  inversion Hs as [|? ? Ht Hhd]; subst. constructor; [apply IH; exact Ht|].
  destruct t; simpl; [constructor|]. inversion Hhd; subst. constructor; assumption.
Qed.

Lemma sorted_by_str (l : list string) :
  sorted_by cell_leb (map Str l) -> sorted_by String.leb l.
Proof.
  unfold sorted_by. induction l as [|x t IH]; intros Hs; [constructor|].
  simpl in Hs. inversion Hs as [|? ? Ht Hhd]; subst. constructor; [apply IH; exact Ht|].
  destruct t; [constructor|]. simpl in Hhd. inversion Hhd; subst. constructor; assumption.
Qed.

Lemma string_leb_neq_ltb (a b : string) :
  String.leb a b = true -> a <> b -> String.ltb a b = true.
Proof.
  unfold String.leb, String.ltb. intros Hle Hne.
  destruct (String.compare a b) eqn:Hc; try reflexivity; try discriminate.
  apply String.compare_eq_iff in Hc. contradiction.
Qed.

(** In a list without repetition, ascending order is strict. *)
Lemma sorted_nodup_strict (l : list string) :
  sorted_by String.leb l -> NoDup l -> sorted_by String.ltb l.
Proof.
  unfold sorted_by. induction l as [|x t IH]; intros Hs Hnd; [constructor|].
  inversion Hs as [|? ? Ht Hhd]; subst. inversion Hnd as [|? ? Hnotin Hnd']; subst.
  constructor; [apply IH; assumption|].
  destruct t as [|y t']; [constructor|]. inversion Hhd; subst. constructor.
  apply string_leb_neq_ltb; [assumption|]. intros ->. apply Hnotin. left. reflexivity.
Qed.

(** ** Columns and cells *)

Lemma col_pos_bound (c : string) (cols : list string) (i : nat) :
  col_pos c cols = Some i -> (i < List.length cols)%nat.
Proof.
  revert i; induction cols as [|x xs IH]; intros i; simpl; [discriminate|].
  destruct (String.eqb x c).
  - intros H; inversion H; lia.
  - destruct (col_pos c xs) as [j|]; simpl; [|discriminate].
    intros H; inversion H. specialize (IH j eq_refl). lia.
Qed.

Lemma col_pos_nth (c : string) (cols : list string) (i : nat) :
  col_pos c cols = Some i -> nth_error cols i = Some c.
Proof.
  revert i; induction cols as [|x xs IH]; intros i; simpl; [discriminate|].
  destruct (String.eqb x c) eqn:Hx.
  - intros H; inversion H. apply String.eqb_eq in Hx. subst. reflexivity.
  - destruct (col_pos c xs) as [j|]; simpl; [|discriminate].
    intros H; inversion H. simpl. apply IH. reflexivity.
Qed.

Lemma col_pos_distinct (c c' : string) (cols : list string) (i j : nat) :
  col_pos c cols = Some i -> col_pos c' cols = Some j -> c <> c' -> i <> j.
Proof.
  intros Hi Hj Hne ->. apply col_pos_nth in Hi, Hj. congruence.
Qed.

Lemma col_pos_app (c : string) (cols more : list string) (i : nat) :
  col_pos c cols = Some i -> col_pos c (cols ++ more) = Some i.
Proof.
  revert i; induction cols as [|x xs IH]; intros i; simpl; [discriminate|].
  destruct (String.eqb x c); [trivial|].
  destruct (col_pos c xs) as [j|]; simpl; [|discriminate].
  intros H. rewrite (IH j eq_refl). exact H.
Qed.

Lemma col_pos_appended (c : string) (cols : list string) :
  col_pos c cols = None -> col_pos c (cols ++ [c]) = Some (List.length cols).
Proof.
  induction cols as [|x xs IH]; simpl.
  - intros _. rewrite String.eqb_refl. reflexivity.
  - destruct (String.eqb x c); [discriminate|].
    destruct (col_pos c xs); simpl; [discriminate|].
    intros _. rewrite (IH eq_refl). reflexivity.
Qed.

Lemma has_col_pos (c : string) (df : DataFrame) :
  has_col c df = match col_pos c (columns df) with Some _ => true | None => false end.
Proof.
  unfold has_col. induction (columns df) as [|x xs IH]; simpl; [reflexivity|].
  rewrite (String.eqb_sym c x). destruct (String.eqb x c); simpl; [reflexivity|].
  rewrite IH. destruct (col_pos c xs); reflexivity.
Qed.

Lemma nth_replace_nth_same {A} (i : nat) (v d : A) (l : list A) :
  (i < List.length l)%nat -> nth i (replace_nth i v l) d = v.
Proof.
  unfold replace_nth. revert l; induction i as [|i IH]; intros l Hlt.
  - destruct l; simpl in *; [lia | reflexivity].
  - destruct l as [|a l]; simpl in *; [lia|]. apply IH. lia.
Qed.

Lemma nth_replace_nth_other {A} (i j : nat) (v d : A) (l : list A) :
  i <> j -> nth j (replace_nth i v l) d = nth j l d.
Proof.
  unfold replace_nth. revert j l; induction i as [|i IH]; intros j l Hne.
  - destruct l as [|a l]; simpl; [reflexivity|]. destruct j; [lia | reflexivity].
  - destruct l as [|a l]; simpl; [reflexivity|].
    destruct j; [reflexivity|]. apply IH. lia.
Qed.

Lemma rectangular_row (df : DataFrame) (r : Row) :
  rectangular df = true -> In r (rows df) ->
  List.length (values r) = List.length (columns df).
Proof.
  unfold rectangular. rewrite forallb_forall. intros H Hin.
  apply Nat.eqb_eq. apply H. exact Hin.
Qed.

(** Writing column [c'] leaves every other column of a row as it was. *)
Lemma set_cell_other (cols : list string) (c c' : string) (i : nat) (v : cell) (r : Row) :
  List.length (values r) = List.length cols ->
  col_pos c cols = Some i -> c <> c' ->
  cell_at i (set_cell (col_pos c' cols) v r) = cell_at i r.
Proof.
  intros Hlen Hi Hne. unfold cell_at, set_cell.
  destruct (col_pos c' cols) as [j|] eqn:Hj; simpl.
  - apply nth_replace_nth_other. apply not_eq_sym.
    exact (col_pos_distinct c c' cols i j Hi Hj Hne).
  - apply app_nth1. rewrite Hlen. apply (col_pos_bound c). exact Hi.
Qed.

(** Writing column [c'] puts the value at the position of [c']. *)
Lemma set_cell_same (cols : list string) (c' : string) (i : nat) (v : cell) (r : Row) :
  List.length (values r) = List.length cols ->
  col_pos c' (set_cols c' cols) = Some i ->
  cell_at i (set_cell (col_pos c' cols) v r) = v.
Proof.
  intros Hlen. unfold cell_at, set_cell, set_cols.
  destruct (col_pos c' cols) as [j|] eqn:Hj; simpl; intros Hi.
  - rewrite Hj in Hi. inversion Hi; subst. apply nth_replace_nth_same.
    rewrite Hlen. apply (col_pos_bound c'). exact Hj.
  - rewrite (col_pos_appended c' cols Hj) in Hi. inversion Hi; subst.
    rewrite <- Hlen. rewrite app_nth2, Nat.sub_diag; [reflexivity | lia].
Qed.

Lemma col_pos_set_cols_same (c' : string) (cols : list string) :
  exists i, col_pos c' (set_cols c' cols) = Some i.
Proof.
  unfold set_cols. destruct (col_pos c' cols) as [j|] eqn:Hj.
  - exists j. exact Hj.
  - exists (List.length cols). apply col_pos_appended. exact Hj.
Qed.

Lemma col_pos_set_cols_other (c c' : string) (cols : list string) (i : nat) :
  col_pos c cols = Some i -> col_pos c (set_cols c' cols) = Some i.
Proof.
  intros Hi. unfold set_cols. destruct (col_pos c' cols); [exact Hi|].
  apply col_pos_app. exact Hi.
Qed.

Lemma getitem_setitem_scalar_other (c c' : string) (v : cell) (df : DataFrame)
    (cs : list cell) :
  rectangular df = true -> c <> c' ->
  getitem c df = Ok cs ->
  getitem c (setitem_scalar c' v df) = Ok cs.
Proof.
  intros Hrect Hne. unfold getitem, setitem_scalar; simpl.
  destruct (col_pos c (columns df)) as [i|] eqn:Hi; [|discriminate].
  rewrite (col_pos_set_cols_other c c' _ i Hi).
  intros H; inversion H; subst. f_equal. rewrite map_map.
  apply map_ext_in. intros r Hin.
  apply (set_cell_other (columns df) c c'); auto using rectangular_row.
Qed.

Lemma getitem_setitem_scalar_same (c' : string) (v : cell) (df : DataFrame) :
  rectangular df = true ->
  getitem c' (setitem_scalar c' v df) = Ok (map (fun _ => v) (rows df)).
Proof.
  intros Hrect. unfold getitem, setitem_scalar; simpl.
  destruct (col_pos_set_cols_same c' (columns df)) as [i Hi]. rewrite Hi.
  f_equal. rewrite map_map. apply map_ext_in. intros r Hin.
  apply (set_cell_same (columns df) c'); auto using rectangular_row.
Qed.

(** ** Fetching: sorted and annotated rows *)

Lemma homogeneous_strings (l : list string) : homogeneous (map Str l) = true.
Proof.
  destruct l as [|x t]; simpl; [reflexivity|].
  apply forallb_forall. intros c Hin. apply in_map_iff in Hin.
  destruct Hin as [s [<- _]]. reflexivity.
Qed.

Lemma str_of_Str (l : list string) : map str_of (map Str l) = l.
Proof. rewrite map_map. simpl. apply map_id. Qed.

Lemma Str_str_of (cs : list cell) (l : list string) :
  Permutation cs (map Str l) -> map Str (map str_of cs) = cs.
Proof.
  intros Hperm. rewrite map_map. rewrite <- (map_id cs) at 2.
  apply map_ext_in. intros c Hin.
  apply (Permutation_in _ Hperm) in Hin. apply in_map_iff in Hin.
  destruct Hin as [s [<- _]]. reflexivity.
Qed.

Lemma rectangular_perm (df df' : DataFrame) :
  columns df' = columns df -> Permutation (rows df') (rows df) ->
  rectangular df = true -> rectangular df' = true.
Proof.
  unfold rectangular. intros -> Hperm. rewrite !forallb_forall.
  intros H r Hin. apply H. exact (Permutation_in _ Hperm Hin).
Qed.

(** What [sort_values] returns on a column of strings. *)
Lemma sort_values_strings (c : string) (df : DataFrame) (dates : list string) :
  getitem c df = Ok (map Str dates) ->
  exists sorted,
    sort_values c df = Ok sorted
    /\ columns sorted = columns df
    /\ Permutation (rows sorted) (rows df)
    /\ exists dates',
         getitem c sorted = Ok (map Str dates')
         /\ Permutation dates' dates
         /\ sorted_by String.leb dates'.
Proof.
  unfold getitem, sort_values.
  destruct (col_pos c (columns df)) as [i|] eqn:Hi; [|discriminate].
  intros H; inversion H as [Hcol]. rewrite Hcol, homogeneous_strings.
  set (leb := fun r1 r2 => cell_leb (cell_at i r1) (cell_at i r2)).
  eexists; split; [reflexivity|]. simpl. rewrite Hi.
  pose proof (sort_by_perm leb (rows df)) as Hperm.
  split; [reflexivity|]. split; [exact Hperm|].
  assert (Hcells : Permutation (map (cell_at i) (sort_by leb (rows df))) (map Str dates)).
  { rewrite <- Hcol. apply Permutation_map. exact Hperm. }
  exists (map str_of (map (cell_at i) (sort_by leb (rows df)))).
  split; [f_equal; symmetry; exact (Str_str_of _ dates Hcells)|].
  split.
  - rewrite <- (str_of_Str dates). apply Permutation_map. exact Hcells.
  - apply sorted_by_str. rewrite (Str_str_of _ dates Hcells).
    apply sorted_by_map. apply sort_by_sorted.
    intros a b. apply cell_leb_total.
Qed.

Lemma getitem_perm (c : string) (df df' : DataFrame) (cs : list cell) :
  columns df' = columns df -> Permutation (rows df') (rows df) ->
  getitem c df = Ok cs ->
  exists cs', getitem c df' = Ok cs' /\ Permutation cs' cs.
Proof.
  unfold getitem. intros -> Hperm.
  destruct (col_pos c (columns df)) as [i|]; [|discriminate].
  intros H; inversion H; subst.
  eexists; split; [reflexivity|]. apply Permutation_map. exact Hperm.
Qed.

Lemma annotate_by_code_run (ts : Tushare) (code : string) (df : DataFrame) (tr : trace) :
  annotate_by_code ts code df tr
  = (Ok match stock_basic_name ts code with
        | Ok (n :: _) => setitem_scalar "stock_name" n df
        | Ok [] => df
        | Raise _ => setitem_scalar "stock_name" (Str code) df
        end,
     tr ++ [ReqStockBasicName code]).
Proof.
  unfold annotate_by_code, try_except, bind, emit, lift, ret.
  destruct (stock_basic_name ts code) as [[|n rest]|e]; reflexivity.
Qed.

Lemma get_stock_data_run (ts : Tushare) (pd : Pandas) (host : Host)
    (stock_name stock_code start_date end_date : option string)
    (tr tr' : trace) (code : string) (df sorted : DataFrame) :
  (truthy stock_name || truthy stock_code)%bool = true ->
  code_of_arguments ts pd stock_name stock_code tr = (Ok code, tr') ->
  daily ts code (or_str start_date "20100101") (or_str end_date (now_ymd host)) = Ok df ->
  df_empty df = false ->
  sort_values "trade_date" df = Ok sorted ->
  get_stock_data ts pd host stock_name stock_code start_date end_date tr
  = (if truthy stock_name
     then ret (setitem_scalar "stock_name" (Str (default "" stock_name)) sorted)
     else annotate_by_code ts code sorted)
      (tr' ++ [ReqDaily code (or_str start_date "20100101")
                        (or_str end_date (now_ymd host))]).
Proof.
  intros Hid Hcode Hdaily Hne Hsort. unfold get_stock_data.
  replace (negb (truthy stock_name) && negb (truthy stock_code))%bool with false
    by (destruct (truthy stock_name), (truthy stock_code); simpl in *; congruence).
  unfold bind at 1. rewrite Hcode.
  unfold bind, emit, lift. rewrite Hdaily, Hne, Hsort. reflexivity.
Qed.

Lemma col_pos_set_cols_none (c c' : string) (cols : list string) :
  col_pos c cols = None -> c <> c' -> col_pos c (set_cols c' cols) = None.
Proof.
  intros Hnone Hne. unfold set_cols. destruct (col_pos c' cols); [exact Hnone|].
  induction cols as [|x xs IH]; simpl in *.
  - apply not_eq_sym in Hne. apply String.eqb_neq in Hne. rewrite Hne. reflexivity.
  - destruct (String.eqb x c); [discriminate|].
    destruct (col_pos c xs); simpl in *; [discriminate|].
    rewrite (IH eq_refl). reflexivity.
Qed.

(** Writing column [c'] leaves every other column as it was, and a column
    that was not there is still not there. *)
Lemma getitem_setitem_scalar_ne (c c' : string) (v : cell) (df : DataFrame) :
  rectangular df = true -> c <> c' ->
  getitem c (setitem_scalar c' v df) = getitem c df.
Proof.
  intros Hrect Hne. destruct (getitem c df) as [cs|e] eqn:Hget.
  - apply getitem_setitem_scalar_other; assumption.
  - unfold getitem in *. simpl.
    destruct (col_pos c (columns df)) eqn:Hi; [discriminate|].
    rewrite (col_pos_set_cols_none c c' _ Hi Hne). exact Hget.
Qed.

Lemma labels_setitem_scalar (c : string) (v : cell) (df : DataFrame) :
  map label (rows (setitem_scalar c v df)) = map label (rows df).
Proof.
  unfold setitem_scalar; simpl. rewrite map_map. apply map_ext.
  intros r. unfold set_cell. destruct (col_pos c (columns df)); reflexivity.
Qed.

(** C2, amended. Take a fetch call whose arguments yield a code and whose
    remote result is a non-empty rectangular frame with a [trade_date] column
    of strings. The call returns the remote rows in ascending order of their
    dates, strictly ascending when the remote dates are distinct: there is a
    reordering [sorted] of the remote frame, with the same columns, whose
    dates ascend, and the returned frame has the index labels of [sorted]
    and, for every column other than [stock_name], the cells of [sorted]. So
    every row keeps its ticker, and all rows share the resolved ticker when
    the remote rows do. The column [stock_name] holds in every row the stock
    name the caller supplied; or, when only a code was supplied, the first
    name the directory gives for that code, or the code itself when that
    lookup raises; when the directory gives no row for the code nothing is
    written, and the returned frame is [sorted] itself. *)
Theorem fetched_rows_sorted_and_annotated
    (ts : Tushare) (pd : Pandas) (host : Host)
    (stock_name stock_code start_date end_date : option string)
    (tr tr' : trace) (code : string) (df : DataFrame) (dates : list string) :
  (truthy stock_name || truthy stock_code)%bool = true ->
  code_of_arguments ts pd stock_name stock_code tr = (Ok code, tr') ->
  daily ts code (or_str start_date "20100101") (or_str end_date (now_ymd host)) = Ok df ->
  df_empty df = false ->
  rectangular df = true ->
  getitem "trade_date" df = Ok (map Str dates) ->
  exists out tr'' sorted dates',
    get_stock_data ts pd host stock_name stock_code start_date end_date tr = (Ok out, tr'')
    /\ columns sorted = columns df
    /\ Permutation (rows sorted) (rows df)
    /\ getitem "trade_date" sorted = Ok (map Str dates')
    /\ Permutation dates' dates
    /\ sorted_by String.leb dates'
    /\ (NoDup dates -> sorted_by String.ltb dates')
    /\ map label (rows out) = map label (rows sorted)
    /\ (forall c, c <> "stock_name" -> getitem c out = getitem c sorted)
    /\ (forall codes,
          getitem "ts_code" df = Ok codes -> Forall (eq (Str code)) codes ->
          exists codes', getitem "ts_code" out = Ok codes' /\ Forall (eq (Str code)) codes')
    /\ (truthy stock_name = true ->
          getitem "stock_name" out
          = Ok (map (fun _ => Str (default "" stock_name)) (rows out)))
    /\ (truthy stock_name = false ->
          forall n rest, stock_basic_name ts code = Ok (n :: rest) ->
          getitem "stock_name" out = Ok (map (fun _ => n) (rows out)))
    /\ (truthy stock_name = false ->
          stock_basic_name ts code = Ok [] -> out = sorted)
    /\ (truthy stock_name = false ->
          forall e, stock_basic_name ts code = Raise e ->
          getitem "stock_name" out = Ok (map (fun _ => Str code) (rows out))).
Proof.
  intros Hid Hcode Hdaily Hne Hrect Hdates.
  destruct (sort_values_strings "trade_date" df dates Hdates)
    as [sorted [Hsort [Hcols [Hperm [dates' [Hget' [Hpd Hsorted]]]]]]].
  pose proof (rectangular_perm df sorted Hcols Hperm Hrect) as Hrect'.
  rewrite (get_stock_data_run ts pd host stock_name stock_code start_date end_date
             tr tr' code df sorted Hid Hcode Hdaily Hne Hsort).
  set (v := if truthy stock_name then Str (default "" stock_name)
            else match stock_basic_name ts code with
                 | Ok (n :: _) => n
                 | _ => Str code
                 end).
  assert (Hout : exists out tr'',
             (if truthy stock_name
              then ret (setitem_scalar "stock_name" (Str (default "" stock_name)) sorted)
              else annotate_by_code ts code sorted)
               (tr' ++ [ReqDaily code (or_str start_date "20100101")
                                 (or_str end_date (now_ymd host))])
             = (Ok out, tr'')
             /\ (out = sorted \/ out = setitem_scalar "stock_name" v sorted)
             /\ (truthy stock_name = true
                 \/ (exists n rest, stock_basic_name ts code = Ok (n :: rest))
                 \/ (exists e, stock_basic_name ts code = Raise e) ->
                 out = setitem_scalar "stock_name" v sorted)
             /\ (truthy stock_name = false -> stock_basic_name ts code = Ok [] ->
                 out = sorted)).
  { unfold v. destruct (truthy stock_name) eqn:Hname.
    - eexists; eexists; split; [reflexivity|].
      split; [right; reflexivity | split; [reflexivity | discriminate]].
    - rewrite annotate_by_code_run.
      eexists; eexists; split; [reflexivity|].
      destruct (stock_basic_name ts code) as [[|n rest]|e].
      + split; [left; reflexivity|]. split; [|reflexivity].
        intros [H | [[n [rest H]] | [e H]]]; discriminate.
      + split; [right; reflexivity | split; [reflexivity | discriminate]].
      + split; [right; reflexivity | split; [reflexivity | discriminate]]. }
  destruct Hout as [out [tr'' [Hrun [Hshape [Hannot Hbare]]]]].
  exists out, tr'', sorted, dates'. split; [exact Hrun|].
  assert (Hsame : forall v', out = setitem_scalar "stock_name" v' sorted ->
            getitem "stock_name" out = Ok (map (fun _ => v') (rows out))).
  { intros v' ->. rewrite (getitem_setitem_scalar_same "stock_name" v' sorted Hrect').
    simpl. rewrite map_map. reflexivity. }
  assert (Hother : forall c, c <> "stock_name" -> getitem c out = getitem c sorted).
  { intros c Hc. destruct Hshape as [-> | ->]; [reflexivity|].
    apply getitem_setitem_scalar_ne; assumption. }
  split; [exact Hcols|]. split; [exact Hperm|]. split; [exact Hget'|].
  split; [exact Hpd|]. split; [exact Hsorted|].
  split; [|split; [|split; [exact Hother|split; [|split; [|split; [|split]]]]]].
  - intros Hnd. apply sorted_nodup_strict; [exact Hsorted|].
    apply (Permutation_NoDup (Permutation_sym Hpd)). exact Hnd.
  - destruct Hshape as [-> | ->]; [reflexivity | apply labels_setitem_scalar].
  - intros codes Hcodes Hall.
    destruct (getitem_perm "ts_code" df sorted codes Hcols Hperm Hcodes) as [codes' [Hg Hp]].
    exists codes'. split.
    + rewrite Hother by discriminate. exact Hg.
    + apply (Permutation_Forall (Permutation_sym Hp)). exact Hall.
  - intros Hname. apply Hsame. unfold v in Hannot. rewrite Hname in Hannot.
    apply Hannot. left. reflexivity.
  - intros Hname n rest Hn. apply Hsame. unfold v in Hannot.
    rewrite Hname, Hn in Hannot. apply Hannot. right; left. eauto.
  - exact Hbare.
  - intros Hname e He. apply Hsame. unfold v in Hannot.
    rewrite Hname, He in Hannot. apply Hannot. right; right. eauto.
Qed.

Lemma fetched_rows_sorted_and_annotated_witness :
  let ts := Stub.tushare [mkStock "T1" (Some "abcd")] [("T1", Stub.sample_bars)] in
  exists out tr'' sorted dates',
    get_stock_data ts Stub.pandas Stub.host (Some "abcd") None None None []
    = (Ok out, tr'')
    /\ columns sorted = columns Stub.sample_bars
    /\ Permutation (rows sorted) (rows Stub.sample_bars)
    /\ getitem "trade_date" sorted = Ok (map Str dates')
    /\ Permutation dates' ["20230104"; "20230103"]
    /\ sorted_by String.leb dates'
    /\ (NoDup ["20230104"; "20230103"] -> sorted_by String.ltb dates')
    /\ map label (rows out) = map label (rows sorted)
    /\ (forall c, c <> "stock_name" -> getitem c out = getitem c sorted)
    /\ (forall codes,
          getitem "ts_code" Stub.sample_bars = Ok codes -> Forall (eq (Str "T1")) codes ->
          exists codes', getitem "ts_code" out = Ok codes' /\ Forall (eq (Str "T1")) codes')
    /\ (truthy (Some "abcd") = true ->
          getitem "stock_name" out = Ok (map (fun _ => Str "abcd") (rows out)))
    /\ (truthy (Some "abcd") = false ->
          forall n rest, stock_basic_name ts "T1" = Ok (n :: rest) ->
          getitem "stock_name" out = Ok (map (fun _ => n) (rows out)))
    /\ (truthy (Some "abcd") = false ->
          stock_basic_name ts "T1" = Ok [] -> out = sorted)
    /\ (truthy (Some "abcd") = false ->
          forall e, stock_basic_name ts "T1" = Raise e ->
          getitem "stock_name" out = Ok (map (fun _ => Str "T1") (rows out))).
Proof.
  intros ts.
  apply (fetched_rows_sorted_and_annotated ts Stub.pandas Stub.host
           (Some "abcd") None None None [] [ReqStockBasic] "T1" Stub.sample_bars
           ["20230104"; "20230103"]); reflexivity.
Defined.

(** C2 as stated fails: the rows are annotated with the name the caller
    supplied, not with the display name of the resolved ticker. The query
    [ab] resolves to [T1], whose display name is [abcd], and the rows are
    annotated [ab]. *)
Lemma fetched_annotation_counterexample :
  let ts := Stub.tushare [mkStock "T1" (Some "abcd")] [("T1", Stub.sample_bars)] in
  fst (get_stock_code_by_name ts Stub.pandas "ab" []) = Ok "T1"
  /\ rbind (fst (get_stock_data ts Stub.pandas Stub.host (Some "ab") None None None []))
           (getitem "stock_name")
     = Ok [Str "ab"; Str "ab"].
Proof. split; reflexivity. Qed.

(** ** Fetching: a name and a code *)

Lemma sort_values_ok (c : string) (df : DataFrame) (col : list cell) :
  getitem c df = Ok col -> homogeneous col = true ->
  exists sorted, sort_values c df = Ok sorted.
Proof.
  unfold getitem, sort_values.
  destruct (col_pos c (columns df)) as [i|]; [|discriminate].
  intros H Hhom; inversion H; subst. rewrite Hhom. eexists; reflexivity.
Qed.

(** A fetch by name, step by step: the resolution of the name, then the
    request for the daily bars of the code it gave. *)
Lemma fetch_by_name_run (ts : Tushare) (pd : Pandas) (host : Host)
    (stock_name stock_code start_date end_date : option string) (tr : trace) :
  truthy stock_name = true ->
  get_stock_data ts pd host stock_name stock_code start_date end_date tr
  = match get_stock_code_by_name ts pd (default "" stock_name) tr with
    | (Raise e, tr1) => (Raise e, tr1)
    | (Ok code, tr1) =>
        (match daily ts code (or_str start_date "20100101")
                     (or_str end_date (now_ymd host)) with
         | Raise e => Raise e
         | Ok df =>
             if df_empty df then Ok empty_frame
             else match sort_values "trade_date" df with
                  | Raise e => Raise e
                  | Ok sorted =>
                      Ok (setitem_scalar "stock_name" (Str (default "" stock_name)) sorted)
                  end
         end,
         tr1 ++ [ReqDaily code (or_str start_date "20100101")
                          (or_str end_date (now_ymd host))])
    end.
Proof.
  intros Hname. unfold get_stock_data, code_of_arguments. rewrite Hname.
  change (negb true && negb (truthy stock_code))%bool with false. cbv iota.
  unfold bind at 1.
  destruct (get_stock_code_by_name ts pd (default "" stock_name) tr) as [[code|e] tr1];
    [|reflexivity].
  unfold bind, emit, lift, ret.
  destruct (daily ts code _ _) as [df|e]; [|reflexivity].
  destruct (df_empty df); [reflexivity|].
  destruct (sort_values "trade_date" df); reflexivity.
Qed.

(** C10. When both a stock name and a stock code are supplied, the call is
    not rejected for its arguments: its outcome is not the rejection of a
    call without identifiers, and its first effect is the download of the
    symbol directory. The stock name takes precedence and is resolved
    through the directory: an error of the resolution, such as
    [NotFoundError] for a name that matches no entry, is the outcome of the
    call, and otherwise the one further request is for the daily bars of the
    code the name resolved to. The supplied code is ignored: any other code,
    or none, in its place gives the same run. When the remote answers with
    an empty frame, or with a frame whose [trade_date] column holds values
    of one type, nothing is raised. *)
Theorem fetch_name_takes_precedence
    (ts : Tushare) (pd : Pandas) (host : Host)
    (stock_name stock_code start_date end_date : option string) (tr : trace) :
  truthy stock_name = true ->
  truthy stock_code = true ->
  get_stock_data ts pd host stock_name stock_code start_date end_date tr
  <> (Raise InvalidArgument, tr)
  /\ (exists d,
        snd (get_stock_data ts pd host stock_name stock_code start_date end_date tr)
        = tr ++ ReqStockBasic :: d)
  /\ (forall other_code,
        get_stock_data ts pd host stock_name other_code start_date end_date tr
        = get_stock_data ts pd host stock_name stock_code start_date end_date tr)
  /\ (forall e tr1,
        get_stock_code_by_name ts pd (default "" stock_name) tr = (Raise e, tr1) ->
        get_stock_data ts pd host stock_name stock_code start_date end_date tr
        = (Raise e, tr1))
  /\ (forall directory mask,
        stock_basic ts = Ok directory ->
        List.filter (name_is (default "" stock_name)) directory = [] ->
        str_contains pd (default "" stock_name) (map name directory) = Ok mask ->
        select_mask mask directory = [] ->
        get_stock_data ts pd host stock_name stock_code start_date end_date tr
        = (Raise (NotFoundError (default "" stock_name)), tr ++ [ReqStockBasic]))
  /\ (forall code tr1,
        get_stock_code_by_name ts pd (default "" stock_name) tr = (Ok code, tr1) ->
        snd (get_stock_data ts pd host stock_name stock_code start_date end_date tr)
        = tr ++ [ReqStockBasic;
                 ReqDaily code (or_str start_date "20100101")
                          (or_str end_date (now_ymd host))])
  /\ (forall code tr1 df,
        get_stock_code_by_name ts pd (default "" stock_name) tr = (Ok code, tr1) ->
        daily ts code (or_str start_date "20100101") (or_str end_date (now_ymd host))
        = Ok df ->
        df_empty df = true
        \/ (exists col, getitem "trade_date" df = Ok col /\ homogeneous col = true) ->
        exists out tr2,
          get_stock_data ts pd host stock_name stock_code start_date end_date tr
          = (Ok out, tr2)).
Proof.
  intros Hname _.
  pose proof (get_stock_code_by_name_trace ts pd (default "" stock_name) tr) as Htr.
  assert (Hcode : forall other_code,
            get_stock_data ts pd host stock_name other_code start_date end_date tr
            = get_stock_data ts pd host stock_name stock_code start_date end_date tr).
  { intros other_code. rewrite !fetch_by_name_run by exact Hname. reflexivity. }
  rewrite (fetch_by_name_run ts pd host stock_name stock_code start_date end_date tr Hname)
    in *.
  destruct (get_stock_code_by_name ts pd (default "" stock_name) tr) as [[code|e] tr1]
    eqn:Hres; simpl in Htr; subst tr1.
  - split; [|split; [|split; [exact Hcode|split; [|split; [|split]]]]].
    + intros H. inversion H as [[Hfst Hsnd]].
      apply (f_equal (@List.length event)) in Hsnd.
      rewrite !length_app in Hsnd. simpl in Hsnd. lia.
    + eexists. simpl. rewrite <- app_assoc. reflexivity.
    + intros e tr1 H. discriminate H.
    + intros directory mask Hdir Hexact Hmask Hnone.
      rewrite (get_stock_code_by_name_run ts pd _ directory tr Hdir) in Hres.
      rewrite Hexact, Hmask, Hnone in Hres. discriminate Hres.
    + intros code' tr1 H. inversion H; subst. simpl. rewrite <- app_assoc. reflexivity.
    + intros code' tr1 df H Hdaily Hdf. inversion H; subst. rewrite Hdaily.
      destruct Hdf as [Hempty | [col [Hcol Hhom]]].
      * rewrite Hempty. eexists; eexists; reflexivity.
      * destruct (df_empty df); [eexists; eexists; reflexivity|].
        destruct (sort_values_ok "trade_date" df col Hcol Hhom) as [sorted ->].
        eexists; eexists; reflexivity.
  - split; [|split; [|split; [exact Hcode|split; [|split; [|split]]]]].
    + intros H. inversion H as [[Hfst Hsnd]].
      apply (f_equal (@List.length event)) in Hsnd.
      rewrite !length_app in Hsnd. simpl in Hsnd. lia.
    + exists []. reflexivity.
    + intros e' tr1 H. inversion H; subst. reflexivity.
    + intros directory mask Hdir Hexact Hmask Hnone.
      rewrite (get_stock_code_by_name_run ts pd _ directory tr Hdir) in Hres.
      rewrite Hexact, Hmask, Hnone in Hres. inversion Hres; subst. reflexivity.
    + intros code tr1 H. discriminate H.
    + intros code tr1 df H. discriminate H.
Qed.

Lemma fetch_name_takes_precedence_witness :
  let ts := Stub.tushare [mkStock "T1" (Some "abc"); mkStock "T2" (Some "xyz")]
                         [("T1", Stub.sample_bars); ("T2", Stub.sample_bars)] in
  snd (get_stock_data ts Stub.pandas Stub.host (Some "abc") (Some "T2") None None [])
  = [] ++ [ReqStockBasic; ReqDaily "T1" "20100101" "20240101"]
  /\ get_stock_data ts Stub.pandas Stub.host (Some "abc") None None None []
     = get_stock_data ts Stub.pandas Stub.host (Some "abc") (Some "T2") None None []
  /\ exists out tr2,
       get_stock_data ts Stub.pandas Stub.host (Some "abc") (Some "T2") None None []
       = (Ok out, tr2).
Proof.
  intros ts.
  destruct (fetch_name_takes_precedence ts Stub.pandas Stub.host
              (Some "abc") (Some "T2") None None [] eq_refl eq_refl)
    as [_ [_ [Hcode [_ [_ [Hreq Hok]]]]]].
  split; [exact (Hreq "T1" [ReqStockBasic] eq_refl)|].
  split; [exact (Hcode None)|].
  apply (Hok "T1" [ReqStockBasic] Stub.sample_bars eq_refl eq_refl).
  right. eexists. split; reflexivity.
Defined.

(** ** Normalization: required columns *)

Lemma has_col_In (c : string) (df : DataFrame) :
  has_col c df = true <-> In c (columns df).
Proof.
  unfold has_col. rewrite existsb_exists. split.
  - intros [x [Hin Heq]]. apply String.eqb_eq in Heq. subst. exact Hin.
  - intros Hin. exists c. split; [exact Hin | apply String.eqb_refl].
Qed.

Lemma missing_columns_In (data : DataFrame) (c : string) :
  In c (missing_columns data) <-> In c required_columns /\ ~ In c (columns data).
Proof.
  unfold missing_columns. rewrite filter_In, negb_true_iff.
  rewrite <- has_col_In. destruct (has_col c data); intuition congruence.
Qed.

(** The lower-casing and the renaming of the code give the names the
    specification describes. *)
Lemma lower_ascii_small_letter (a : ascii) : lower_ascii a = small_letter a.
Proof. destruct a as [[] [] [] [] [] [] [] []]; reflexivity. Qed.

Lemma lower_letters_small_letters (s : string) :
  lower_letters s = string_of_list_ascii (map small_letter (list_ascii_of_string s)).
Proof.
  induction s as [|a s IH]; simpl; [reflexivity|].
  rewrite IH, lower_ascii_small_letter. reflexivity.
Qed.

Lemma lower_lower_case (pd : Pandas) (c : string) :
  lower (str_lower_unicode pd) c = lower_case pd c.
Proof.
  unfold lower, lower_case.
  destruct (is_ascii c); [apply lower_letters_small_letters | reflexivity].
Qed.

Lemma remap_synonym (l : string) : remap column_mapping l = synonym l.
Proof.
  unfold synonym. cbv [remap column_mapping].
  rewrite (String.eqb_sym "open" l), (String.eqb_sym "high" l), (String.eqb_sym "low" l),
    (String.eqb_sym "close" l), (String.eqb_sym "vol" l), (String.eqb_sym "volume" l).
  destruct (String.eqb l "open"); [reflexivity|].
  destruct (String.eqb l "high"); [reflexivity|].
  destruct (String.eqb l "low"); [reflexivity|].
  destruct (String.eqb l "close"); [reflexivity|].
  destruct (String.eqb l "vol"); [reflexivity|].
  destruct (String.eqb l "volume"); reflexivity.
Qed.

Lemma remap_lower_canonical_name (pd : Pandas) (c : string) :
  remap column_mapping (lower (str_lower_unicode pd) c) = canonical_name pd c.
Proof. rewrite lower_lower_case. apply remap_synonym. Qed.

Lemma prepare_data_run (pd : Pandas) (df data : DataFrame) :
  index_by_date pd df = Ok data ->
  columns_are_strings data = true ->
  prepare_data pd df
  = match missing_columns (mkFrame (map (canonical_name pd) (columns data)) (rows data)) with
    | [] => sort_index (mkFrame (map (canonical_name pd) (columns data)) (rows data))
    | missing => Raise (SchemaError missing)
    end.
Proof.
  intros H Hstr. unfold prepare_data, lower_columns. rewrite H. simpl. rewrite Hstr. simpl.
  unfold rename. simpl. rewrite map_map.
  rewrite (map_ext _ _ (remap_lower_canonical_name pd)). reflexivity.
Qed.

Lemma prepare_data_not_strings (pd : Pandas) (df data : DataFrame) :
  index_by_date pd df = Ok data ->
  columns_are_strings data = false ->
  prepare_data pd df = Raise AttributeError.
Proof.
  intros H Hstr. unfold prepare_data, lower_columns. rewrite H. simpl. rewrite Hstr.
  reflexivity.
Qed.

Lemma remove_nth_incl {A} (l : list A) (i : nat) (x : A) :
  In x (remove_nth i l) -> In x l.
Proof.
  unfold remove_nth. intros H. apply in_app_or in H.
  rewrite <- (firstn_skipn i l). apply in_or_app.
  destruct H as [H | H]; [left; exact H | right].
  clear -H. revert i H. induction l as [|a l IH]; intros [|i] H; simpl in *;
    try contradiction.
  - right. exact H.
  - destruct l as [|b l]; [destruct i; simpl in H; contradiction|].
    apply (IH i). exact H.
Qed.

Lemma set_index_setitem_incl (c : string) (vals : list cell) (df data : DataFrame) :
  set_index "Date" (setitem "Date" vals df) = Ok data ->
  In c (columns data) -> In c (columns df).
Proof.
  unfold set_index, setitem. simpl.
  destruct (col_pos "Date" (set_cols "Date" (columns df))) as [i|] eqn:Hi; [|discriminate].
  intros H; inversion H; subst; simpl. clear H. intros Hin.
  unfold set_cols in *. destruct (col_pos "Date" (columns df)) eqn:Hd.
  - exact (remove_nth_incl _ _ _ Hin).
  - rewrite (col_pos_appended "Date" _ Hd) in Hi. inversion Hi; subst.
    unfold remove_nth in Hin.
    rewrite firstn_app, Nat.sub_diag, firstn_all, firstn_O, app_nil_r in Hin.
    rewrite skipn_all2 in Hin by (rewrite length_app; simpl; lia).
    rewrite app_nil_r in Hin. exact Hin.
Qed.

(** The frame whose date column became the index has columns of the input,
    and labels that are strings whenever a date column was there. *)
Lemma index_by_date_columns (pd : Pandas) (df data : DataFrame) :
  index_by_date pd df = Ok data ->
  (forall c, In c (columns data) -> In c (columns df))
  /\ (columns_are_strings df = true -> columns_are_strings data = true)
  /\ ((has_col "trade_date" df || has_col "Date" df)%bool = true ->
      columns_are_strings data = true)
  /\ ((has_col "trade_date" df || has_col "Date" df)%bool = false -> data = df).
Proof.
  unfold index_by_date.
  assert (Hset : forall vals,
            set_index "Date" (setitem "Date" vals df) = Ok data ->
            (forall c, In c (columns data) -> In c (columns df))
            /\ columns_are_strings data = true).
  { intros vals H. split; [intros c; exact (set_index_setitem_incl c vals df data H)|].
    unfold set_index in H. destruct (col_pos "Date" _); [|discriminate].
    inversion H. unfold columns_are_strings. simpl.
    destruct (remove_nth _ _); reflexivity. }
  destruct (has_col "trade_date" df).
  - destruct (getitem "trade_date" df) as [col|e]; simpl; [|discriminate].
    destruct (parse_trade_date pd col) as [dates|e]; simpl; [|discriminate].
    intros H. destruct (Hset _ H) as [H1 H2].
    split; [exact H1|]. split; [intros _; exact H2|]. split; [intros _; exact H2|].
    discriminate.
  - destruct (has_col "Date" df).
    + destruct (getitem "Date" df) as [col|e]; simpl; [|discriminate].
      destruct (to_datetime pd col) as [dates|e]; simpl; [|discriminate].
      intros H. destruct (Hset _ H) as [H1 H2].
      split; [exact H1|]. split; [intros _; exact H2|]. split; [intros _; exact H2|].
      discriminate.
    + intros H; inversion H; subst.
      split; [tauto|]. split; [tauto|]. split; [discriminate | reflexivity].
Qed.

Lemma sort_index_columns (df out : DataFrame) :
  sort_index df = Ok out -> columns out = columns df.
Proof.
  unfold sort_index. destruct (homogeneous (map label (rows df))); [|discriminate].
  intros H; inversion H. reflexivity.
Qed.

Lemma remove_nth_keeps {A} (l : list A) :
  forall (i : nat) (c d : A),
    In c l -> nth_error l i = Some d -> c <> d -> In c (remove_nth i l).
Proof.
  unfold remove_nth. induction l as [|x l IH]; intros i c d Hin Hnth Hne; [destruct Hin|].
  destruct i as [|i]; simpl in *.
  - inversion Hnth; subst. destruct Hin as [-> | Hin]; [contradiction | exact Hin].
  - destruct Hin as [-> | Hin]; [left; reflexivity|].
    right. exact (IH i c d Hin Hnth Hne).
Qed.

Lemma set_index_setitem_keeps (c : string) (vals : list cell) (df data : DataFrame) :
  set_index "Date" (setitem "Date" vals df) = Ok data ->
  In c (columns df) -> c <> "Date" -> In c (columns data).
Proof.
  unfold set_index, setitem. simpl.
  destruct (col_pos "Date" (set_cols "Date" (columns df))) as [i|] eqn:Hi; [|discriminate].
  intros H Hin Hne; inversion H; subst; simpl.
  apply (remove_nth_keeps _ i c "Date"); [|apply col_pos_nth; exact Hi | exact Hne].
  unfold set_cols. destruct (col_pos "Date" (columns df)); [exact Hin|].
  apply in_or_app. left. exact Hin.
Qed.

(** Only the date column leaves the columns when it becomes the index. *)
Lemma index_by_date_keeps_columns (pd : Pandas) (df data : DataFrame) (c : string) :
  index_by_date pd df = Ok data ->
  In c (columns df) -> c <> "Date" -> In c (columns data).
Proof.
  unfold index_by_date.
  destruct (has_col "trade_date" df).
  - destruct (getitem "trade_date" df) as [col|e]; simpl; [|discriminate].
    destruct (parse_trade_date pd col) as [dates|e]; simpl; [|discriminate].
    apply set_index_setitem_keeps.
  - destruct (has_col "Date" df).
    + destruct (getitem "Date" df) as [col|e]; simpl; [|discriminate].
      destruct (to_datetime pd col) as [dates|e]; simpl; [|discriminate].
      apply set_index_setitem_keeps.
    + intros H; inversion H; subst. tauto.
Qed.

(** When the date column has become the index, the labels are strings
    exactly when those of the input are. *)
Lemma index_by_date_strings (pd : Pandas) (df data : DataFrame) :
  index_by_date pd df = Ok data ->
  columns_are_strings data = columns_are_strings df.
Proof.
  intros Hidx.
  destruct (index_by_date_columns pd df data Hidx) as [_ [_ [Hdate Hsame]]].
  destruct (has_col "trade_date" df || has_col "Date" df)%bool eqn:Hcol.
  - rewrite (Hdate eq_refl). symmetry.
    assert (Hin : exists c, In c (columns df)).
    { apply orb_true_iff in Hcol.
      destruct Hcol as [H | H]; apply has_col_In in H; eauto. }
    destruct Hin as [c Hin]. unfold columns_are_strings.
    destruct (columns df); [destruct Hin | reflexivity].
  - rewrite (Hsame eq_refl). reflexivity.
Qed.

(** A required column is among the names of the frame whose date column
    became the index exactly when it is among the names of the input: the
    column [Date], which goes away, is none of them under any spelling of
    theirs. *)
Lemma required_among_names (pd : Pandas) (df data : DataFrame) (c : string) :
  index_by_date pd df = Ok data ->
  In c required_columns ->
  In c (map (canonical_name pd) (columns data))
  <-> In c (map (canonical_name pd) (columns df)).
Proof.
  intros Hidx Hreq.
  destruct (index_by_date_columns pd df data Hidx) as [Hincl _].
  rewrite !in_map_iff. split; intros [c0 [Hc0 Hin]].
  - exists c0. split; [exact Hc0 | exact (Hincl c0 Hin)].
  - exists c0. split; [exact Hc0|].
    apply (index_by_date_keeps_columns pd df data c0 Hidx Hin).
    intros ->. subst c. simpl in Hreq.
    destruct Hreq as [H | [H | [H | [H | []]]]]; discriminate H.
Qed.

(** C3, amended. What [prepare_data] does with the column names of every
    input table. An error raised while the date column is converted is the
    outcome. Otherwise, if the column labels are not strings, as in
    [pd.DataFrame()], the lower-casing raises [AttributeError]. If they are,
    the names are lower-cased and remapped through the synonym table, which
    gives [canonical_name], and then: when one of [Open], [High], [Low],
    [Close] is not among the resulting names, [SchemaError] is raised,
    naming exactly the required columns that are absent; when all four are
    present, no [SchemaError] is raised, and a frame that is returned has
    for its columns the resulting names of the input columns, without the
    column [Date] that became the index. In particular an input none of
    whose columns lower-cases and remaps to [Close] raises [SchemaError]. A
    table with neither a [trade_date] nor a [Date] column has no date column
    to convert. *)
Theorem normalize_requires_price_columns (pd : Pandas) (df : DataFrame) :
  (forall e, index_by_date pd df = Raise e -> prepare_data pd df = Raise e)
  /\ (forall data,
        index_by_date pd df = Ok data ->
        (columns_are_strings df = false -> prepare_data pd df = Raise AttributeError)
        /\ (columns_are_strings df = true ->
            (forall c, In c required_columns ->
               ~ In c (map (canonical_name pd) (columns df)) ->
               exists missing,
                 prepare_data pd df = Raise (SchemaError missing)
                 /\ In c missing
                 /\ forall c', In c' missing <->
                      In c' required_columns
                      /\ ~ In c' (map (canonical_name pd) (columns df)))
            /\ ((forall c, In c required_columns ->
                   In c (map (canonical_name pd) (columns df))) ->
                (forall missing, prepare_data pd df <> Raise (SchemaError missing))
                /\ (forall out, prepare_data pd df = Ok out ->
                      columns out = map (canonical_name pd) (columns data)
                      /\ (forall c, In c (columns data) -> In c (columns df))
                      /\ (forall c, In c (columns df) -> c <> "Date" ->
                            In c (columns data))))
            /\ ((forall c, In c (columns df) -> canonical_name pd c <> "Close") ->
                exists missing,
                  prepare_data pd df = Raise (SchemaError missing) /\ In "Close" missing)))
  /\ ((has_col "trade_date" df || has_col "Date" df)%bool = false ->
      index_by_date pd df = Ok df).
Proof.
  split; [|split].
  - intros e H. unfold prepare_data. rewrite H. reflexivity.
  - intros data Hidx.
    destruct (index_by_date_columns pd df data Hidx) as [Hincl _].
    pose proof (index_by_date_strings pd df data Hidx) as Hstr.
    split;
      [intros H; rewrite <- Hstr in H; exact (prepare_data_not_strings pd df data Hidx H)|].
    intros Hstrings. rewrite <- Hstr in Hstrings.
    rewrite (prepare_data_run pd df data Hidx Hstrings).
    set (names := map (canonical_name pd) (columns df)).
    set (renamed := mkFrame (map (canonical_name pd) (columns data)) (rows data)).
    assert (Hmiss : forall c, In c (missing_columns renamed)
                              <-> In c required_columns /\ ~ In c names).
    { intros c. rewrite missing_columns_In. simpl. unfold names. split.
      - intros [Hreq Hnot]. split; [exact Hreq|].
        rewrite <- (required_among_names pd df data c Hidx Hreq). exact Hnot.
      - intros [Hreq Hnot]. split; [exact Hreq|].
        rewrite (required_among_names pd df data c Hidx Hreq). exact Hnot. }
    assert (Habsent : forall c, In c required_columns -> ~ In c names ->
              exists missing,
                match missing_columns renamed with
                | [] => sort_index renamed
                | m => Raise (SchemaError m)
                end = Raise (SchemaError missing)
                /\ In c missing
                /\ forall c', In c' missing <-> In c' required_columns /\ ~ In c' names).
    { intros c Hreq Hnot.
      assert (Hin : In c (missing_columns renamed)) by (apply Hmiss; split; assumption).
      exists (missing_columns renamed).
      split; [|split; [exact Hin | exact Hmiss]].
      destruct (missing_columns renamed); [destruct Hin | reflexivity]. }
    split; [exact Habsent|]. split.
    + intros Hall.
      destruct (missing_columns renamed) as [|c rest] eqn:Hm.
      * split.
        -- intros missing H. unfold sort_index in H.
           destruct (homogeneous _); discriminate.
        -- intros out H. apply sort_index_columns in H.
           split; [exact H|]. split; [exact Hincl|].
           intros c Hin Hne. exact (index_by_date_keeps_columns pd df data c Hidx Hin Hne).
      * destruct (proj1 (Hmiss c) (or_introl eq_refl)) as [Hreq Hnot].
        exfalso. apply Hnot. apply Hall. exact Hreq.
    + intros Hnone.
      destruct (Habsent "Close") as [missing [Hraise [Hin _]]]; [simpl; tauto | |].
      * unfold names. intros Hin. apply in_map_iff in Hin.
        destruct Hin as [c [Hc Hcin]]. exact (Hnone c Hcin Hc).
      * exists missing. split; assumption.
  - intros Hcol. apply orb_false_iff in Hcol. destruct Hcol as [H1 H2].
    unfold index_by_date. rewrite H1, H2. reflexivity.
Qed.

Lemma normalize_requires_price_columns_witness :
  exists missing,
    prepare_data Stub.pandas
      (mkFrame ["trade_date"; "open"; "high"; "low"]
               [mkRow (Num 0) [Str "20230103"; Num 10; Num 12; Num 9]])
    = Raise (SchemaError missing)
    /\ In "Close" missing.
Proof.
  destruct (proj1 (proj2 (normalize_requires_price_columns Stub.pandas
              (mkFrame ["trade_date"; "open"; "high"; "low"]
                       [mkRow (Num 0) [Str "20230103"; Num 10; Num 12; Num 9]])))
              (mkFrame ["trade_date"; "open"; "high"; "low"]
                       [mkRow (Timestamp 20230103) [Str "20230103"; Num 10; Num 12; Num 9]])
              eq_refl)
    as [_ H].
  destruct (H eq_refl) as [_ [_ HClose]].
  apply HClose.
  simpl. intros c [<- | [<- | [<- | [<- | []]]]]; discriminate.
Defined.

(** C3 as stated fails: not every input table without a [Close] column
    raises [SchemaError]. The table [pd.DataFrame()] has no columns at all,
    and its column index has no [.str] accessor: [prepare_data] raises
    [AttributeError] at the lower-casing, before it looks for the required
    columns. *)
Lemma normalize_empty_frame_counterexample :
  ~ In "Close" (columns empty_frame)
  /\ prepare_data Stub.pandas empty_frame = Raise AttributeError
  /\ forall missing, prepare_data Stub.pandas empty_frame <> Raise (SchemaError missing).
Proof.
  split; [intros []|]. split; [reflexivity | discriminate].
Qed.

(** ** Normalization: idempotence on canonical frames *)

Lemma canonical_name_canonical (pd : Pandas) (c : string) :
  In c canonical_columns -> canonical_name pd c = c.
Proof.
  simpl. intros [<- | [<- | [<- | [<- | [<- | []]]]]]; reflexivity.
Qed.

Lemma canonical_names_canonical (pd : Pandas) (df : DataFrame) :
  Forall (fun c => In c canonical_columns) (columns df) ->
  map (canonical_name pd) (columns df) = columns df.
Proof.
  intros Hall. rewrite <- (map_id (columns df)) at 2. apply map_ext_in.
  intros c Hin. apply canonical_name_canonical.
  rewrite Forall_forall in Hall. apply Hall. exact Hin.
Qed.

Lemma canonical_has_no_date_column (df : DataFrame) :
  Forall (fun c => In c canonical_columns) (columns df) ->
  has_col "trade_date" df = false /\ has_col "Date" df = false.
Proof.
  intros Hall. rewrite Forall_forall in Hall.
  split; apply not_true_is_false; intros H; apply has_col_In in H;
    apply Hall in H; simpl in H;
    destruct H as [H | [H | [H | [H | [H | []]]]]]; discriminate.
Qed.

Lemma index_by_date_canonical (pd : Pandas) (df : DataFrame) :
  Forall (fun c => In c canonical_columns) (columns df) ->
  index_by_date pd df = Ok df.
Proof.
  intros Hall. destruct (canonical_has_no_date_column df Hall) as [H1 H2].
  unfold index_by_date. rewrite H1, H2. reflexivity.
Qed.

Lemma same_type_trans (a b c : cell) :
  same_type a b = true -> same_type a c = true -> same_type b c = true.
Proof.
  unfold same_type. rewrite !Nat.eqb_eq. congruence.
Qed.

Lemma homogeneous_pairs (cs : list cell) :
  homogeneous cs = true <-> forall a b, In a cs -> In b cs -> same_type a b = true.
Proof.
  destruct cs as [|c t]; simpl.
  - split; [intros _ a b [] | reflexivity].
  - rewrite forallb_forall. split.
    + intros H a b Ha Hb.
      assert (Hc : forall x, c = x \/ In x t -> same_type c x = true).
      { intros x [<- | Hx]; [apply Nat.eqb_refl | apply H; exact Hx]. }
      apply (same_type_trans c); apply Hc; assumption.
    + intros H x Hx. apply H; [left; reflexivity | right; exact Hx].
Qed.

Lemma homogeneous_perm (cs cs' : list cell) :
  Permutation cs' cs -> homogeneous cs = true -> homogeneous cs' = true.
Proof.
  intros Hperm. rewrite !homogeneous_pairs. intros H a b Ha Hb.
  apply H; apply (Permutation_in _ Hperm); assumption.
Qed.

Lemma label_leb_total (a b : Row) : label_leb a b = false -> label_leb b a = true.
Proof. apply cell_leb_total. Qed.

(** Sorting by index twice is sorting once. *)
Lemma sort_index_idempotent (df out : DataFrame) :
  sort_index df = Ok out -> sort_index out = Ok out.
Proof.
  unfold sort_index.
  destruct (homogeneous (map label (rows df))) eqn:Hh; [|discriminate].
  intros H; inversion H; subst; clear H. simpl.
  rewrite (homogeneous_perm (map label (rows df))); [|
    apply Permutation_map, sort_by_perm | exact Hh].
  rewrite sort_by_idempotent; [reflexivity | apply label_leb_total].
Qed.

Lemma prepare_data_canonical (pd : Pandas) (df : DataFrame) :
  Forall (fun c => In c canonical_columns) (columns df) ->
  columns_are_strings df = true ->
  prepare_data pd df
  = match missing_columns df with
    | [] => sort_index (mkFrame (columns df) (rows df))
    | missing => Raise (SchemaError missing)
    end.
Proof.
  intros Hall Hstr.
  rewrite (prepare_data_run pd df df (index_by_date_canonical pd df Hall) Hstr).
  rewrite (canonical_names_canonical pd df Hall). reflexivity.
Qed.

(** C6. On a frame whose column names are all among [Open], [High], [Low],
    [Close] and [Volume], normalizing the result of [prepare_data] again
    changes nothing: two applications give what one gives, and a frame
    returned by [prepare_data] is returned unchanged by a second call. Such
    a frame is normalized without error when the four price columns are
    present and the index labels are of one type. *)
Theorem normalize_idempotent_on_canonical (pd : Pandas) (df : DataFrame) :
  Forall (fun c => In c canonical_columns) (columns df) ->
  rbind (prepare_data pd df) (prepare_data pd) = prepare_data pd df
  /\ (forall out, prepare_data pd df = Ok out -> prepare_data pd out = Ok out)
  /\ ((forall c, In c required_columns -> In c (columns df)) ->
      homogeneous (map label (rows df)) = true ->
      exists out, prepare_data pd df = Ok out).
Proof.
  intros Hall.
  destruct (columns_are_strings df) eqn:Hstr.
  2: { pose proof (prepare_data_not_strings pd df df (index_by_date_canonical pd df Hall)
                     Hstr) as Hraise.
       rewrite Hraise. split; [reflexivity|]. split; [discriminate|].
       intros Hreq _. exfalso. unfold columns_are_strings in Hstr.
       destruct (columns df) as [|c cs]; [|discriminate].
       apply (Hreq "Open"). simpl. tauto. }
  assert (Hsecond : forall out, prepare_data pd df = Ok out -> prepare_data pd out = Ok out).
  { intros out. rewrite (prepare_data_canonical pd df Hall Hstr).
    destruct (missing_columns df) eqn:Hm; [|discriminate].
    intros Hsort.
    assert (Hout : columns out = columns df /\ str_index out = true).
    { unfold sort_index in Hsort. simpl in Hsort.
      destruct (homogeneous (map label (rows df))); [|discriminate].
      inversion Hsort; split; reflexivity. }
    destruct Hout as [Hcols Hidx].
    assert (Hstr' : columns_are_strings out = true)
      by (unfold columns_are_strings; rewrite Hidx; destruct (columns out); reflexivity).
    rewrite (prepare_data_canonical pd out) by (rewrite ?Hcols; assumption).
    unfold missing_columns, has_col in *. rewrite Hcols, Hm.
    replace (mkFrame (columns df) (rows out)) with out
      by (destruct out; simpl in *; subst; reflexivity).
    apply (sort_index_idempotent (mkFrame (columns df) (rows df))). exact Hsort. }
  split; [|split; [exact Hsecond|]].
  - destruct (prepare_data pd df) as [out|e] eqn:Hfirst; simpl; [|reflexivity].
    apply Hsecond. reflexivity.
  - intros Hreq Hhom. rewrite (prepare_data_canonical pd df Hall Hstr).
    destruct (missing_columns df) as [|c rest] eqn:Hm.
    + unfold sort_index. simpl. rewrite Hhom. eexists; reflexivity.
    + assert (Hin : In c (missing_columns df)) by (rewrite Hm; left; reflexivity).
      apply missing_columns_In in Hin. destruct Hin as [Hr Hnot].
      exfalso. apply Hnot, Hreq, Hr.
Qed.

Lemma normalize_idempotent_on_canonical_witness :
  let df := mkFrame ["Open"; "High"; "Low"; "Close"; "Volume"]
              [mkRow (Timestamp 20230104) [Num 11; Num 13; Num 10; Num 12; Num 500];
               mkRow (Timestamp 20230103) [Num 10; Num 12; Num 9; Num 11; Num 400]] in
  rbind (prepare_data Stub.pandas df) (prepare_data Stub.pandas)
  = prepare_data Stub.pandas df
  /\ exists out, prepare_data Stub.pandas df = Ok out.
Proof.
  intros df.
  assert (Hcanon : Forall (fun c => In c canonical_columns) (columns df))
    by (repeat constructor; simpl; tauto).
  destruct (normalize_idempotent_on_canonical Stub.pandas df Hcanon) as [H1 [_ H3]].
  split; [exact H1|]. apply H3; [|reflexivity].
  simpl. tauto.
Defined.

(** ** Normalization: the caller's frame is left alone *)

Lemma unchanged_refl (h : Objects.store) : Objects.unchanged h h.
Proof. intros k _. reflexivity. Qed.

Lemma unchanged_fresh (h h' : Objects.store) (f : DataFrame) :
  Objects.unchanged h h' ->
  Objects.unchanged h (<[fresh (dom h') := f]> h')
  /\ h !! fresh (dom h') = None.
Proof.
  intros Hun.
  assert (Hnone' : h' !! fresh (dom h') = None)
    by (apply not_elem_of_dom, is_fresh).
  assert (Hnone : h !! fresh (dom h') = None).
  { destruct (h !! fresh (dom h')) eqn:Hl; [|reflexivity].
    rewrite <- (Hun (fresh (dom h'))) in Hl by (rewrite Hl; eauto). congruence. }
  split; [|exact Hnone].
  intros k Hk. rewrite lookup_insert_ne; [apply Hun; exact Hk|].
  intros <-. rewrite Hnone in Hk. destruct Hk; discriminate.
Qed.

Lemma unchanged_alter (h h' : Objects.store) (l : nat) (g : DataFrame -> DataFrame) :
  Objects.unchanged h h' -> h !! l = None ->
  Objects.unchanged h (alter g l h').
Proof.
  intros Hun Hnone k Hk. rewrite lookup_alter_ne; [apply Hun; exact Hk|].
  intros <-. rewrite Hnone in Hk. destruct Hk; discriminate.
Qed.

Lemma new_frame_holds_new (h h' : Objects.store) (f : DataFrame) :
  Objects.unchanged h h' ->
  exists l h'', Objects.new_frame f h' = (Ok l, h'') /\ Objects.holds_new h h'' l f.
Proof.
  intros Hun. unfold Objects.new_frame. eexists; eexists; split; [reflexivity|].
  destruct (unchanged_fresh h h' f Hun) as [Hun' Hnone].
  split; [exact Hun' | split; [exact Hnone | apply lookup_insert_eq]].
Qed.

Lemma holds_new_builds (h h' : Objects.store) (l : nat) (f : DataFrame) :
  Objects.holds_new h h' l f -> Objects.builds h (Ok f) (Ok l, h').
Proof. intros [Hun [Hnone Hl]]. split; [exact Hun | split; assumption]. Qed.

Lemma lift_new_frame_builds (h h' : Objects.store) (r : result DataFrame) :
  Objects.unchanged h h' ->
  Objects.builds h r (bind (lift r) Objects.new_frame h').
Proof.
  intros Hun. unfold bind, lift. destruct r as [g|e].
  - destruct (new_frame_holds_new h h' g Hun) as [l [h'' [-> Hnew]]].
    apply holds_new_builds. exact Hnew.
  - split; [exact Hun | reflexivity].
Qed.

Lemma date_to_index_builds (h h1 : Objects.store) (l1 : nat) (cur : DataFrame)
    (dates : list Z) :
  Objects.holds_new h h1 l1 cur ->
  Objects.builds h (set_index "Date" (setitem "Date" (map Timestamp dates) cur))
                 (Objects.date_to_index l1 dates h1).
Proof.
  intros [Hun [Hnone Hl]].
  unfold Objects.date_to_index, Objects.update_frame, Objects.read_frame.
  unfold bind at 1 2. rewrite lookup_alter_eq, Hl. simpl.
  apply lift_new_frame_builds. apply unchanged_alter; assumption.
Qed.

Lemma index_stage_builds (pd : Pandas) (h h1 : Objects.store) (l1 : nat) (f : DataFrame) :
  Objects.holds_new h h1 l1 f ->
  Objects.builds h (index_by_date pd f) (Objects.index_stage pd l1 h1).
Proof.
  intros Hnew. pose proof Hnew as [Hun [Hnone Hl]].
  unfold Objects.index_stage, index_by_date, Objects.read_frame.
  unfold bind at 1. rewrite Hl.
  destruct (has_col "trade_date" f).
  - unfold bind, lift.
    destruct (getitem "trade_date" f) as [col|e]; simpl; [|split; [exact Hun | reflexivity]].
    destruct (parse_trade_date pd col) as [dates|e]; simpl;
      [|split; [exact Hun | reflexivity]].
    apply date_to_index_builds. exact Hnew.
  - destruct (has_col "Date" f).
    + unfold bind, lift.
      destruct (getitem "Date" f) as [col|e]; simpl; [|split; [exact Hun | reflexivity]].
      destruct (to_datetime pd col) as [dates|e]; simpl;
        [|split; [exact Hun | reflexivity]].
      apply date_to_index_builds. exact Hnew.
    + apply holds_new_builds. exact Hnew.
Qed.

Lemma columns_stage_builds (pd : Pandas) (h h2 : Objects.store) (l2 : nat)
    (data : DataFrame) :
  Objects.holds_new h h2 l2 data ->
  Objects.builds h
    (rbind (lower_columns pd data) (fun lowered =>
     match missing_columns (rename column_mapping lowered) with
     | [] => sort_index (rename column_mapping lowered)
     | missing => Raise (SchemaError missing)
     end))
    (Objects.columns_stage pd l2 h2).
Proof.
  intros [Hun [Hnone Hl]].
  unfold Objects.columns_stage, Objects.update_frame, Objects.read_frame.
  unfold bind at 1. rewrite Hl.
  unfold bind at 1. unfold lift at 1.
  destruct (lower_columns pd data) as [lowered|e]; simpl;
    [|split; [exact Hun | reflexivity]].
  unfold bind at 1 2 3. rewrite lookup_alter_eq, Hl. simpl.
  assert (Hun' : Objects.unchanged h (alter (fun _ => lowered) l2 h2))
    by (apply unchanged_alter; assumption).
  destruct (unchanged_fresh h _ (rename column_mapping lowered) Hun')
    as [Hun3 Hnone3].
  unfold bind at 1. rewrite lookup_insert_eq.
  destruct (missing_columns (rename column_mapping lowered)).
  - apply lift_new_frame_builds. exact Hun3.
  - split; [exact Hun3 | reflexivity].
Qed.

(** C9. [prepare_data] works on a copy: run on the frame object [df], it
    leaves every object that existed before the call, [df] among them, with
    the content it had; the frame it returns is an object that did not exist
    before the call, holding the normalized content of [df]; and it raises
    exactly when normalizing the content of [df] raises. *)
Theorem normalize_leaves_input_unchanged
    (pd : Pandas) (h : Objects.store) (df : nat) (f : DataFrame) :
  h !! df = Some f ->
  Objects.builds h (prepare_data pd f) (Objects.prepare_data pd df h)
  /\ snd (Objects.prepare_data pd df h) !! df = Some f
  /\ forall data, fst (Objects.prepare_data pd df h) = Ok data -> data <> df.
Proof.
  intros Hdf.
  assert (Hbuilds : Objects.builds h (prepare_data pd f) (Objects.prepare_data pd df h)).
  { unfold Objects.prepare_data, Objects.read_frame.
    unfold bind at 1 2. rewrite Hdf.
    destruct (new_frame_holds_new h h f (unchanged_refl h)) as [l1 [h1 [-> Hnew1]]].
    pose proof (index_stage_builds pd h h1 l1 f Hnew1) as [Hun2 Hres2].
    unfold prepare_data. unfold bind.
    destruct (Objects.index_stage pd l1 h1) as [[l2|e2] h2]; simpl in *;
      destruct (index_by_date pd f) as [data|e]; simpl; try contradiction.
    - apply columns_stage_builds. destruct Hres2 as [Hnone2 Hl2].
      split; [exact Hun2 | split; assumption].
    - split; [exact Hun2 | exact Hres2]. }
  split; [exact Hbuilds|].
  destruct Hbuilds as [Hun Hres]. split.
  - rewrite Hun; [exact Hdf | rewrite Hdf; eauto].
  - intros data Hdata ->. rewrite Hdata in Hres.
    destruct (prepare_data pd f); [|contradiction].
    destruct Hres as [Hnone _]. congruence.
Qed.

Lemma normalize_leaves_input_unchanged_witness :
  snd (Objects.prepare_data Stub.pandas 0 (<[0%nat := Stub.sample_bars]> ∅)) !! 0%nat
  = Some Stub.sample_bars
  /\ forall data,
       fst (Objects.prepare_data Stub.pandas 0 (<[0%nat := Stub.sample_bars]> ∅)) = Ok data ->
       data <> 0%nat.
Proof.
  apply (proj2 (normalize_leaves_input_unchanged Stub.pandas
                  (<[0%nat := Stub.sample_bars]> ∅) 0 Stub.sample_bars
                  (lookup_insert_eq _ _ _))).
Defined.

(** ** Rendering: the manual fallback *)

Lemma candle_spec (cols : list string) (i : nat) (r : Row) (p : Q * Q * Q * Q) :
  prices cols r = Some p -> candle cols i r = Ok (spec_segments i p).
Proof.
  unfold prices, candle.
  destruct (row_get cols "Open" r) as [[o| |]|]; try discriminate.
  destruct (row_get cols "High" r) as [[hi| |]|]; try discriminate.
  destruct (row_get cols "Low" r) as [[lo| |]|]; try discriminate.
  destruct (row_get cols "Close" r) as [[c| |]|]; try discriminate.
  intros H; inversion H; subst. reflexivity.
Qed.

Lemma candles_spec (cols : list string) (rs : list Row) :
  forall (i : nat) (ps : list (Q * Q * Q * Q)),
    map (prices cols) rs = map Some ps ->
    candles cols i rs = Ok (spec_drawing i ps).
Proof.
  induction rs as [|r rs IH]; intros i ps Hps.
  - destruct ps; [reflexivity | discriminate].
  - destruct ps as [|p ps]; [discriminate|]. simpl in Hps. inversion Hps as [[Hp Hrest]].
    simpl. rewrite (candle_spec cols i r p Hp). simpl.
    rewrite (IH (S i) ps Hrest). reflexivity.
Qed.

Lemma range_step_lt (fuel start stop step x : nat) :
  In x (range_step fuel start stop step) -> (x < stop)%nat.
Proof.
  revert start; induction fuel as [|fuel IH]; intros start; simpl; [intros []|].
  destruct (Nat.ltb start stop) eqn:Hlt; [|intros []].
  intros [<- | Hin]; [apply Nat.ltb_lt; exact Hlt | exact (IH _ Hin)].
Qed.

Lemma map_result_ok {A B} (f : A -> result B) (l : list A) :
  (forall x, In x l -> exists y, f x = Ok y) ->
  exists ys, map_result f l = Ok ys.
Proof.
  induction l as [|a t IH]; intros H; simpl.
  - eexists; reflexivity.
  - destruct (H a) as [b Hb]; [left; reflexivity|].
    destruct IH as [bs Hbs]; [intros x Hx; apply H; right; exact Hx|].
    rewrite Hb, Hbs. simpl. eexists; reflexivity.
Qed.

Lemma label_strftime_ok (pd : Pandas) (data : DataFrame) (i : nat) :
  forallb (fun r => is_timestamp (label r)) (rows data) = true ->
  (i < List.length (rows data))%nat ->
  exists s, label_strftime pd data i = Ok s.
Proof.
  intros Hall Hlt. unfold label_strftime.
  destruct (nth_error (rows data) i) as [r|] eqn:Hr.
  - rewrite forallb_forall in Hall. specialize (Hall r (nth_error_In _ _ Hr)).
    destruct (label r); try discriminate. eexists; reflexivity.
  - apply nth_error_None in Hr. lia.
Qed.

Lemma tick_labels_ok (pd : Pandas) (data : DataFrame) :
  forallb (fun r => is_timestamp (label r)) (rows data) = true ->
  exists labels,
    map_result (label_strftime pd data) (tick_positions (List.length (rows data)))
    = Ok labels.
Proof.
  intros Hall. apply map_result_ok. intros x Hx.
  apply label_strftime_ok; [exact Hall|].
  unfold tick_positions in Hx. exact (range_step_lt _ _ _ _ _ Hx).
Qed.

(** What [_fallback_plot] draws on a frame it can draw. *)
Lemma fallback_plot_spec (pd : Pandas) (data : DataFrame) (title : string)
    (volume : bool) (figsize : Q * Q) (ps : list (Q * Q * Q * Q)) :
  map (prices (columns data)) (rows data) = map Some ps ->
  forallb (fun r => is_timestamp (label r)) (rows data) = true ->
  (volume = true -> has_col "Volume" data = true) ->
  exists fig,
    _fallback_plot pd data title volume figsize = Ok fig
    /\ lines (price_axes fig) = spec_drawing 0 ps
    /\ ax_title (price_axes fig) = title
    /\ (volume = false -> volume_axes fig = None)
    /\ (volume = true ->
        exists axes vols,
          volume_axes fig = Some axes
          /\ getitem "Volume" data = Ok vols
          /\ bars axes = combine (seq 0 (List.length (rows data))) vols).
Proof.
  intros Hps Hlabels Hvol. unfold _fallback_plot.
  rewrite (candles_spec _ _ 0%nat ps Hps). simpl.
  destruct (tick_labels_ok pd data Hlabels) as [labels Hticks]. rewrite Hticks. simpl.
  destruct volume.
  - specialize (Hvol eq_refl). rewrite has_col_pos in Hvol. unfold getitem.
    destruct (col_pos "Volume" (columns data)) as [j|]; [|discriminate]. simpl.
    eexists; split; [reflexivity|]. simpl.
    split; [reflexivity|]. split; [reflexivity|]. split; [discriminate|].
    intros _. eexists; eexists; split; [reflexivity|]. split; reflexivity.
  - eexists; split; [reflexivity|]. simpl.
    split; [reflexivity|]. split; [reflexivity|]. split; [reflexivity | discriminate].
Qed.

(** C8, amended. Take a render call whose primary renderer raises, on a
    normalized frame that the manual rendering can draw: distinct column
    labels, numeric open, high, low and close in every row, timestamps as
    index labels, and a [Volume] column whenever the volume subplot is
    requested. The error of the primary renderer is not propagated: the call
    continues, through the saving and showing steps, with the figure of
    [_fallback_plot], which draws for each row, at the row's position, a thin
    line from low to high and a thicker line from open to close coloured by
    direction, and which has a volume subplot with one bar per row exactly
    when the volume is requested. Without a path to save to and without
    showing, the call returns that figure. *)
Theorem render_falls_back_to_manual_plot
    (pd : Pandas) (host : Host) (plt : Plotting)
    (data : chart_source) (chart_type : string) (opts : chart_options)
    (save_path : option string) (show : bool) (tr tr1 : trace)
    (df chart_data : DataFrame) (title : string) (e : exn)
    (ps : list (Q * Q * Q * Q)) :
  load_source pd data tr = (Ok df, tr1) ->
  prepare_data pd df = Ok chart_data ->
  chart_title pd host (opt_title opts) df chart_data = Ok title ->
  mpf_plot plt chart_data (plot_params_of chart_type opts title) = Raise e ->
  NoDup (columns chart_data) ->
  map (prices (columns chart_data)) (rows chart_data) = map Some ps ->
  forallb (fun r => is_timestamp (label r)) (rows chart_data) = true ->
  (opt_volume opts = true -> has_col "Volume" chart_data = true) ->
  exists fig,
    _fallback_plot pd chart_data title (opt_volume opts) (opt_figsize opts) = Ok fig
    /\ generate_chart pd host plt data chart_type opts save_path show tr
       = save_and_show host plt (FallbackFigure fig) save_path show tr1
    /\ (save_path = None -> show = false ->
        generate_chart pd host plt data chart_type opts save_path show tr
        = (Ok (FallbackFigure fig, None), tr1))
    /\ lines (price_axes fig) = spec_drawing 0 ps
    /\ (opt_volume opts = false -> volume_axes fig = None)
    /\ (opt_volume opts = true ->
        exists axes vols,
          volume_axes fig = Some axes
          /\ getitem "Volume" chart_data = Ok vols
          /\ bars axes = combine (seq 0 (List.length (rows chart_data))) vols).
Proof.
  intros Hload Hprep Htitle Hmpf _ Hps Hlabels Hvol.
  destruct (fallback_plot_spec pd chart_data title (opt_volume opts) (opt_figsize opts)
              ps Hps Hlabels Hvol) as [fig [Hfig [Hlines [_ [Hnovol Hbars]]]]].
  exists fig.
  assert (Hrun : generate_chart pd host plt data chart_type opts save_path show tr
                 = save_and_show host plt (FallbackFigure fig) save_path show tr1).
  { unfold generate_chart. unfold bind at 1. rewrite Hload.
    unfold bind at 1. unfold lift at 1. rewrite Hprep.
    unfold bind at 1. unfold lift at 1. rewrite Htitle.
    unfold bind at 1. unfold lift at 1. unfold plot_with_fallback.
    destruct (repeats_keyword _ _); rewrite ?Hmpf, Hfig; reflexivity. }
  split; [exact Hfig|]. split; [exact Hrun|].
  split; [|split; [exact Hlines | split; assumption]].
  intros -> ->. rewrite Hrun. reflexivity.
Qed.

Lemma render_falls_back_to_manual_plot_witness :
  exists fig,
    generate_chart Stub.pandas Stub.host Stub.plotting_broken
                   (Frame Stub.sample_bars) "candle" default_options None false []
    = (Ok (FallbackFigure fig, None), [])
    /\ lines (price_axes fig)
       = spec_drawing 0 [(inject_Z 10, inject_Z 12, inject_Z 9, inject_Z 11);
                         (inject_Z 11, inject_Z 13, inject_Z 10, inject_Z 12)].
Proof.
  destruct (render_falls_back_to_manual_plot Stub.pandas Stub.host
              Stub.plotting_broken (Frame Stub.sample_bars) "candle" default_options
              None false [] [] Stub.sample_bars
              (mkFrame ["ts_code"; "trade_date"; "Open"; "High"; "Low"; "Close"; "Volume"]
                 [mkRow (Timestamp 20230103)
                        [Str "T1"; Str "20230103"; Num (inject_Z 10); Num (inject_Z 12);
                         Num (inject_Z 9); Num (inject_Z 11); Num (inject_Z 400)];
                  mkRow (Timestamp 20230104)
                        [Str "T1"; Str "20230104"; Num (inject_Z 11); Num (inject_Z 13);
                         Num (inject_Z 10); Num (inject_Z 12); Num (inject_Z 500)]])
              "K线图" (ExternalError "mplfinance")
              [(inject_Z 10, inject_Z 12, inject_Z 9, inject_Z 11);
               (inject_Z 11, inject_Z 13, inject_Z 10, inject_Z 12)]
              eq_refl eq_refl eq_refl eq_refl)
    as [fig [_ [_ [Hret [Hlines _]]]]].
  - repeat constructor; simpl; intuition discriminate.
  - reflexivity.
  - reflexivity.
  - reflexivity.
  - exists fig. split; [apply Hret; reflexivity | exact Hlines].
Defined.

(** C8 as stated fails: when the volume subplot is requested, as it is by
    default, and the normalized frame has no [Volume] column, the manual
    rendering raises [KeyError] and the render call raises with it. *)
Lemma render_without_volume_column_counterexample :
  generate_chart Stub.pandas Stub.host Stub.plotting_broken
    (Frame (mkFrame ["trade_date"; "open"; "high"; "low"; "close"]
                    [mkRow (Num 0) [Str "20230103"; Num 10; Num 12; Num 9; Num 11]]))
    "candle" default_options None false []
  = (Raise (KeyError "Volume"), []).
Proof. reflexivity. Qed.

(** ** Batch rendering *)

Section Batch.
Context (ts : Tushare) (pd : Pandas) (host : Host) (plt : Plotting).

Lemma chart_for_saved (stock_name stock_code start_date end_date : option string)
    (chart_type : string) (opts : chart_options) (output_dir : string)
    (tr tr1 : trace) (fig : Figure) (df : DataFrame) (path : string) :
  generate_chart_from_stock ts pd host plt stock_name stock_code start_date end_date
                            chart_type opts output_dir false tr
  = (Ok (Some fig, df, Some path), tr1) ->
  path <> "" ->
  chart_for ts pd host plt stock_name stock_code start_date end_date
            chart_type opts output_dir tr
  = (Ok [ChartSaved (py_or stock_name stock_code) chart_type
                    (List.length (rows df)) path], tr1).
Proof.
  intros Hrun Hpath. unfold chart_for, try_except, bind. rewrite Hrun.
  simpl. apply String.eqb_neq in Hpath. rewrite Hpath. reflexivity.
Qed.

Lemma chart_for_error (stock_name stock_code start_date end_date : option string)
    (chart_type : string) (opts : chart_options) (output_dir : string)
    (tr tr1 : trace) (e : exn) :
  generate_chart_from_stock ts pd host plt stock_name stock_code start_date end_date
                            chart_type opts output_dir false tr
  = (Raise e, tr1) ->
  chart_for ts pd host plt stock_name stock_code start_date end_date
            chart_type opts output_dir tr
  = (Ok [ChartError (py_or stock_name stock_code) chart_type e], tr1).
Proof.
  intros Hrun. unfold chart_for, try_except, bind. rewrite Hrun. reflexivity.
Qed.

(** A failure of one chart is recorded, never raised. *)
Lemma chart_for_returns (stock_name stock_code start_date end_date : option string)
    (chart_type : string) (opts : chart_options) (output_dir : string) (tr : trace) :
  exists entries tr',
    chart_for ts pd host plt stock_name stock_code start_date end_date
              chart_type opts output_dir tr
    = (Ok entries, tr').
Proof.
  unfold chart_for, try_except, bind.
  destruct (generate_chart_from_stock ts pd host plt stock_name stock_code start_date
              end_date chart_type opts output_dir false tr) as [[[[fig df] path]|e] tr1].
  - destruct fig as [fig|]; [|eexists; eexists; reflexivity].
    destruct path as [path|]; [|eexists; eexists; reflexivity].
    destruct (truthy (Some path)); eexists; eexists; reflexivity.
  - eexists; eexists; reflexivity.
Qed.

Lemma charts_for_stock_returns (stock_name stock_code start_date end_date : option string)
    (chart_types : list string) (opts : chart_options) (output_dir : string) :
  forall tr, exists entries tr',
    charts_for_stock ts pd host plt stock_name stock_code start_date end_date
                     chart_types opts output_dir tr
    = (Ok entries, tr').
Proof.
  induction chart_types as [|chart_type rest IH]; intros tr; simpl.
  - eexists; eexists; reflexivity.
  - unfold bind at 1.
    destruct (chart_for_returns stock_name stock_code start_date end_date chart_type
                opts output_dir tr) as [here [tr1 ->]].
    unfold bind at 1. destruct (IH tr1) as [more [tr2 ->]].
    eexists; eexists; reflexivity.
Qed.

Lemma generate_multiple_charts_returns (stock_list : list stock_item)
    (chart_types : list string) (output_dir : string) (opts : chart_options) :
  forall tr, exists entries tr',
    generate_multiple_charts ts pd host plt stock_list chart_types output_dir opts tr
    = (Ok entries, tr').
Proof.
  induction stock_list as [|stock rest IH]; intros tr; simpl.
  - eexists; eexists; reflexivity.
  - unfold bind at 1.
    assert (Hhere : exists here tr1,
              match stock with
              | StockName stock_name =>
                  charts_for_stock ts pd host plt (Some stock_name) None None None
                                   chart_types opts output_dir
              | StockDict name code start_date end_date =>
                  charts_for_stock ts pd host plt name code start_date end_date
                                   chart_types opts output_dir
              end tr = (Ok here, tr1))
      by (destruct stock; apply charts_for_stock_returns).
    destruct Hhere as [here [tr1 ->]].
    unfold bind at 1. destruct (IH tr1) as [more [tr2 ->]].
    eexists; eexists; reflexivity.
Qed.

(** A keyword repeated in the call makes it raise at once. *)
Lemma repeated_keyword_raises (stock_name stock_code start_date end_date : option string)
    (chart_type : string) (opts : chart_options) (output_dir : string) (show : bool)
    (tr : trace) :
  repeats_keyword stock_call_keywords (opt_extra opts) = true ->
  generate_chart_from_stock ts pd host plt stock_name stock_code start_date end_date
                            chart_type opts output_dir show tr
  = (Raise TypeError, tr).
Proof. intros H. unfold generate_chart_from_stock. rewrite H. reflexivity. Qed.

(** A call that returns had no keyword repeated. *)
Lemma returned_without_repeated_keyword
    (stock_name stock_code start_date end_date : option string)
    (chart_type : string) (opts : chart_options) (output_dir : string) (show : bool)
    (tr tr1 : trace) (r : option Figure * DataFrame * option string) :
  generate_chart_from_stock ts pd host plt stock_name stock_code start_date end_date
                            chart_type opts output_dir show tr
  = (Ok r, tr1) ->
  repeats_keyword stock_call_keywords (opt_extra opts) = false.
Proof.
  destruct (repeats_keyword stock_call_keywords (opt_extra opts)) eqn:H; [|reflexivity].
  rewrite (repeated_keyword_raises _ _ _ _ _ _ _ _ _ H). discriminate.
Qed.

(** A name that does not resolve makes the whole chart call raise. *)
Lemma unresolved_name_raises (stock_name chart_type : string) (opts : chart_options)
    (output_dir : string) (e : exn) (tr : trace) :
  repeats_keyword stock_call_keywords (opt_extra opts) = false ->
  stock_name <> "" ->
  fst (get_stock_code_by_name ts pd stock_name tr) = Raise e ->
  exists tr1,
    generate_chart_from_stock ts pd host plt (Some stock_name) None None None
                              chart_type opts output_dir false tr
    = (Raise e, tr1).
Proof.
  intros Hkw Hne Hraise.
  unfold generate_chart_from_stock. rewrite Hkw.
  unfold get_stock_data, code_of_arguments. simpl.
  apply String.eqb_neq in Hne. rewrite Hne. simpl. unfold bind.
  destruct (get_stock_code_by_name ts pd stock_name tr) as [[code|e'] tr1];
    simpl in Hraise; [discriminate|].
  inversion Hraise; subst. eexists; reflexivity.
Qed.

End Batch.

(** C5. In the batch call on the names [A] and [B] with the chart types
    [candle] and [line], where [B] does not resolve and the charts of [A]
    are produced and saved, the returned list is, in input order, the two
    saved entries of [A] followed by the two error entries of [B], one per
    chart type, each holding the name, the chart type and the error. And on
    every input the batch returns a list: a failure of one item is never
    raised out of the batch. *)
Theorem batch_records_failures_in_order
    (ts : Tushare) (pd : Pandas) (host : Host) (plt : Plotting)
    (output_dir : string) (opts : chart_options) (tr : trace) :
  (forall tr0, fst (get_stock_code_by_name ts pd "B" tr0) = Raise (NotFoundError "B")) ->
  (forall chart_type tr0, In chart_type ["candle"; "line"] ->
     exists fig df path tr1,
       generate_chart_from_stock ts pd host plt (Some "A") None None None
                                 chart_type opts output_dir false tr0
       = (Ok (Some fig, df, Some path), tr1)
       /\ path <> "") ->
  (exists rows1 path1 rows2 path2 tr',
     generate_multiple_charts ts pd host plt [StockName "A"; StockName "B"]
                              ["candle"; "line"] output_dir opts tr
     = (Ok [ChartSaved (Some "A") "candle" rows1 path1;
            ChartSaved (Some "A") "line" rows2 path2;
            ChartError (Some "B") "candle" (NotFoundError "B");
            ChartError (Some "B") "line" (NotFoundError "B")],
        tr'))
  /\ (forall stock_list chart_types tr0,
        exists entries tr',
          generate_multiple_charts ts pd host plt stock_list chart_types output_dir opts tr0
          = (Ok entries, tr')).
Proof.
  intros HB HA. split; [|intros; apply generate_multiple_charts_returns].
  destruct (HA "candle" tr) as [fig1 [df1 [path1 [tr1 [Hrun1 Hp1]]]]]; [simpl; tauto|].
  destruct (HA "line" tr1) as [fig2 [df2 [path2 [tr2 [Hrun2 Hp2]]]]]; [simpl; tauto|].
  assert (HnameB : "B" <> "") by discriminate.
  pose proof (returned_without_repeated_keyword ts pd host plt _ _ _ _ _ _ _ _ _ _ _ Hrun1)
    as Hkw.
  destruct (unresolved_name_raises ts pd host plt "B" "candle" opts output_dir
              (NotFoundError "B") tr2 Hkw HnameB (HB tr2)) as [tr3 Hrun3].
  destruct (unresolved_name_raises ts pd host plt "B" "line" opts output_dir
              (NotFoundError "B") tr3 Hkw HnameB (HB tr3)) as [tr4 Hrun4].
  exists (List.length (rows df1)), path1, (List.length (rows df2)), path2, tr4.
  pose proof (chart_for_saved ts pd host plt _ _ _ _ _ _ _ _ _ _ _ _ Hrun1 Hp1) as H1.
  pose proof (chart_for_saved ts pd host plt _ _ _ _ _ _ _ _ _ _ _ _ Hrun2 Hp2) as H2.
  pose proof (chart_for_error ts pd host plt _ _ _ _ _ _ _ _ _ _ Hrun3) as H3.
  pose proof (chart_for_error ts pd host plt _ _ _ _ _ _ _ _ _ _ Hrun4) as H4.
  cbn [generate_multiple_charts charts_for_stock]. unfold bind, ret.
  rewrite H1. cbv beta iota. rewrite H2. cbv beta iota.
  rewrite H3. cbv beta iota. rewrite H4. reflexivity.
Qed.

Lemma batch_records_failures_in_order_witness :
  exists rows1 path1 rows2 path2 tr',
    generate_multiple_charts
      (Stub.tushare [mkStock "T1" (Some "A")] [("T1", Stub.sample_bars)])
      Stub.pandas Stub.host Stub.plotting_ok
      [StockName "A"; StockName "B"] ["candle"; "line"] "stock_charts" default_options []
    = (Ok [ChartSaved (Some "A") "candle" rows1 path1;
           ChartSaved (Some "A") "line" rows2 path2;
           ChartError (Some "B") "candle" (NotFoundError "B");
           ChartError (Some "B") "line" (NotFoundError "B")],
       tr').
Proof.
  apply (batch_records_failures_in_order
           (Stub.tushare [mkStock "T1" (Some "A")] [("T1", Stub.sample_bars)])
           Stub.pandas Stub.host Stub.plotting_ok
           "stock_charts" default_options []).
  - intros tr0. reflexivity.
  - intros chart_type tr0 [<- | [<- | []]];
      eexists; eexists; eexists; eexists; (split; [lazy; reflexivity | discriminate]).
Defined.

(** ** Which effects a method can have *)

Lemma emits_only_ret {A} (P : event -> bool) (a : A) : emits_only P (ret a).
Proof. intros tr. exists []. split; [symmetry; apply app_nil_r | reflexivity]. Qed.

Lemma emits_only_raise {A} (P : event -> bool) (e : exn) : emits_only P (@raise trace A e).
Proof. intros tr. exists []. split; [symmetry; apply app_nil_r | reflexivity]. Qed.

Lemma emits_only_lift {A} (P : event -> bool) (r : result A) : emits_only P (lift r).
Proof. intros tr. exists []. split; [symmetry; apply app_nil_r | reflexivity]. Qed.

Lemma emits_only_emit (P : event -> bool) (e : event) :
  P e = true -> emits_only P (emit e).
Proof. intros He tr. exists [e]. split; [reflexivity | simpl; rewrite He; reflexivity]. Qed.

Lemma emits_only_bind {A B} (P : event -> bool) (m : M A) (k : A -> M B) :
  emits_only P m -> (forall a, emits_only P (k a)) -> emits_only P (bind m k).
Proof.
  intros Hm Hk tr. unfold bind. destruct (Hm tr) as [d1 [H1 Hd1]].
  destruct (m tr) as [[a|e] tr1]; simpl in H1; subst tr1.
  - destruct (Hk a (tr ++ d1)) as [d2 [H2 Hd2]]. exists (d1 ++ d2).
    rewrite H2, app_assoc, forallb_app, Hd1, Hd2. split; reflexivity.
  - exists d1. split; [reflexivity | exact Hd1].
Qed.

Lemma emits_only_try_except {A} (P : event -> bool) (m : M A) (h : exn -> M A) :
  emits_only P m -> (forall e, emits_only P (h e)) -> emits_only P (try_except m h).
Proof.
  intros Hm Hh tr. unfold try_except. destruct (Hm tr) as [d1 [H1 Hd1]].
  destruct (m tr) as [[a|e] tr1]; simpl in H1; subst tr1.
  - exists d1. split; [reflexivity | exact Hd1].
  - destruct (Hh e (tr ++ d1)) as [d2 [H2 Hd2]]. exists (d1 ++ d2).
    rewrite H2, app_assoc, forallb_app, Hd1, Hd2. split; reflexivity.
Qed.


Ltac emits :=
  repeat first
    [ apply emits_only_ret | apply emits_only_raise | apply emits_only_lift
    | apply emits_only_emit; reflexivity
    | apply emits_only_bind; [|intros ?]
    | apply emits_only_try_except; [|intros ?]
    | match goal with
      | |- emits_only _ (if ?c then _ else _) => destruct c
      | |- emits_only _ (match ?x with _ => _ end) => destruct x
      end ].

(** ** Fetching: requests and failures *)

Lemma get_stock_code_by_name_emits (ts : Tushare) (pd : Pandas) (q : string) :
  emits_only is_remote (get_stock_code_by_name ts pd q).
Proof.
  intros tr. exists [ReqStockBasic].
  split; [apply get_stock_code_by_name_trace | reflexivity].
Qed.

(** X2. A fetch has no effect other than requests to the remote API: it
    creates no directory, writes and reads no file and shows nothing. When no
    stock name is given it does not download the symbol directory either. *)
Theorem fetch_only_talks_to_remote
    (ts : Tushare) (pd : Pandas) (host : Host)
    (stock_name stock_code start_date end_date : option string) :
  emits_only is_remote
    (get_stock_data ts pd host stock_name stock_code start_date end_date)
  /\ (truthy stock_name = false ->
      emits_only (fun e => is_remote e && negb (is_directory_request e))%bool
        (get_stock_data ts pd host stock_name stock_code start_date end_date)).
Proof.
  split.
  - unfold get_stock_data, code_of_arguments, annotate_by_code.
    destruct (negb (truthy stock_name) && negb (truthy stock_code))%bool;
      [apply emits_only_raise|].
    apply emits_only_bind.
    + destruct (truthy stock_name);
        [apply get_stock_code_by_name_emits | apply emits_only_ret].
    + intros code. emits.
  - intros Hname. unfold get_stock_data, code_of_arguments, annotate_by_code.
    rewrite Hname. emits.
Qed.

Lemma fetch_only_talks_to_remote_witness :
  emits_only (fun e => is_remote e && negb (is_directory_request e))%bool
    (get_stock_data (Stub.tushare [mkStock "T1" (Some "abc")] [("T1", Stub.sample_bars)])
                    Stub.pandas Stub.host None (Some "T1") None None).
Proof.
  apply (proj2 (fetch_only_talks_to_remote
                  (Stub.tushare [mkStock "T1" (Some "abc")] [("T1", Stub.sample_bars)])
                  Stub.pandas Stub.host None (Some "T1") None None)).
  reflexivity.
Defined.

(** X3. Failures of the remote API reach the caller unchanged. When the
    download of the symbol directory raises, a fetch by name raises the same
    error and requests no prices; when the price request raises, the fetch
    raises the same error. *)
Theorem fetch_propagates_remote_errors
    (ts : Tushare) (pd : Pandas) (host : Host)
    (stock_name stock_code start_date end_date : option string) (tr : trace) (e : exn) :
  (truthy stock_name = true -> stock_basic ts = Raise e ->
   get_stock_data ts pd host stock_name stock_code start_date end_date tr
   = (Raise e, tr ++ [ReqStockBasic]))
  /\ (forall code tr',
        (truthy stock_name || truthy stock_code)%bool = true ->
        code_of_arguments ts pd stock_name stock_code tr = (Ok code, tr') ->
        daily ts code (or_str start_date "20100101") (or_str end_date (now_ymd host))
        = Raise e ->
        get_stock_data ts pd host stock_name stock_code start_date end_date tr
        = (Raise e,
           tr' ++ [ReqDaily code (or_str start_date "20100101")
                            (or_str end_date (now_ymd host))])).
Proof.
  split.
  - intros Hname Hdir. unfold get_stock_data, code_of_arguments.
    rewrite Hname. simpl. unfold bind at 1.
    unfold get_stock_code_by_name, bind, emit, lift. rewrite Hdir. reflexivity.
  - intros code tr' Hid Hcode Hdaily. unfold get_stock_data.
    replace (negb (truthy stock_name) && negb (truthy stock_code))%bool with false
      by (destruct (truthy stock_name), (truthy stock_code); simpl in *; congruence).
    unfold bind at 1. rewrite Hcode.
    unfold bind, emit, lift. rewrite Hdaily. reflexivity.
Qed.

Lemma fetch_propagates_remote_errors_witness :
  get_stock_data (mkTushare (Raise (ExternalError "timeout")) (fun _ => Ok [])
                            (fun _ _ _ => Ok empty_frame))
                 Stub.pandas Stub.host (Some "abc") None None None []
  = (Raise (ExternalError "timeout"), [] ++ [ReqStockBasic])
  /\ get_stock_data (mkTushare (Ok []) (fun _ => Ok [])
                               (fun _ _ _ => Raise (ExternalError "timeout")))
                    Stub.pandas Stub.host None (Some "T1") None (Some "20231231") []
     = (Raise (ExternalError "timeout"), [] ++ [ReqDaily "T1" "20100101" "20231231"]).
Proof.
  split.
  - apply (proj1 (fetch_propagates_remote_errors
                    (mkTushare (Raise (ExternalError "timeout")) (fun _ => Ok [])
                               (fun _ _ _ => Ok empty_frame))
                    Stub.pandas Stub.host (Some "abc") None None None []
                    (ExternalError "timeout")));
      reflexivity.
  - apply (proj2 (fetch_propagates_remote_errors
                    (mkTushare (Ok []) (fun _ => Ok [])
                               (fun _ _ _ => Raise (ExternalError "timeout")))
                    Stub.pandas Stub.host None (Some "T1") None (Some "20231231") []
                    (ExternalError "timeout")) "T1" []);
      reflexivity.
Defined.

(** ** Suffixes of strings *)







(** ** Saving a frame *)





(** ** Order of cells of one type *)

Lemma string_compare_trans_le (a : string) :
  forall b c, String.compare a b <> Gt -> String.compare b c <> Gt ->
              String.compare a c <> Gt.
Proof.
  induction a as [|x a IH]; intros [|y b] [|z c]; simpl; try congruence.
  unfold Ascii.compare.
  destruct (N.compare_spec (N_of_ascii x) (N_of_ascii y)) as [Hxy|Hxy|Hxy];
    destruct (N.compare_spec (N_of_ascii y) (N_of_ascii z)) as [Hyz|Hyz|Hyz];
    destruct (N.compare_spec (N_of_ascii x) (N_of_ascii z)) as [Hxz|Hxz|Hxz];
    try congruence; try lia.
  apply IH.
Qed.

Lemma string_leb_trans (a b c : string) :
  String.leb a b = true -> String.leb b c = true -> String.leb a c = true.
Proof.
  unfold String.leb. intros Hab Hbc.
  pose proof (string_compare_trans_le a b c) as H.
  destruct (String.compare a b); try discriminate;
    destruct (String.compare b c); try discriminate;
    destruct (String.compare a c); try reflexivity;
    exfalso; apply H; congruence.
Qed.

Lemma cell_leb_refl (a : cell) : cell_leb a a = true.
Proof.
  destruct (cell_leb a a) eqn:H; [reflexivity|].
  pose proof (cell_leb_total a a H). congruence.
Qed.

Lemma cell_leb_trans (a b c : cell) :
  same_type a b = true -> same_type b c = true ->
  cell_leb a b = true -> cell_leb b c = true -> cell_leb a c = true.
Proof.
  destruct a as [p|s|t], b as [q|s'|t'], c as [r|s''|t'']; simpl; try discriminate;
    intros _ _.
  - rewrite !Qle_bool_iff. apply Qle_trans.
  - apply string_leb_trans.
  - rewrite !Z.leb_le. lia.
Qed.

Lemma same_type_refl (a : cell) : same_type a a = true.
Proof. apply Nat.eqb_refl. Qed.

Lemma same_type_sym (a b : cell) : same_type a b = same_type b a.
Proof. apply Nat.eqb_sym. Qed.

(** The cell that [fold_left pick] selects from a column of one type, for a
    [pick] that returns one of its arguments, below both in the order
    [le]. *)
Lemma fold_pick_extreme (le : cell -> cell -> bool) (pick : cell -> cell -> cell) :
  (forall a b, pick a b = a \/ pick a b = b) ->
  (forall a b, le (pick a b) a = true /\ le (pick a b) b = true) ->
  (forall a b c, same_type a b = true -> same_type b c = true ->
                 le a b = true -> le b c = true -> le a c = true) ->
  forall t c,
    homogeneous (c :: t) = true ->
    In (fold_left pick t c) (c :: t)
    /\ forall x, In x (c :: t) -> le (fold_left pick t c) x = true.
Proof.
  intros Hpick Hle Htrans. induction t as [|y t IH]; intros c Hhom.
  - simpl. split; [left; reflexivity|].
    intros x [<- | []]. destruct (Hle c c) as [H _].
    destruct (Hpick c c) as [E | E]; rewrite E in H; exact H.
  - pose proof (proj1 (homogeneous_pairs (c :: y :: t)) Hhom) as Hpairs.
    assert (Hin' : In (pick c y) (c :: y :: t))
      by (destruct (Hpick c y) as [-> | ->]; simpl; tauto).
    assert (Hhom' : homogeneous (pick c y :: t) = true).
    { apply homogeneous_pairs. intros a b Ha Hb. apply Hpairs.
      - destruct Ha as [<- | Ha]; [exact Hin' | right; right; exact Ha].
      - destruct Hb as [<- | Hb]; [exact Hin' | right; right; exact Hb]. }
    destruct (IH (pick c y) Hhom') as [Hmem Hlow]. simpl fold_left.
    assert (Hm : In (fold_left pick t (pick c y)) (c :: y :: t)).
    { destruct Hmem as [<- | Hmem]; [exact Hin' | right; right; exact Hmem]. }
    split; [exact Hm|].
    assert (Hbase : le (fold_left pick t (pick c y)) (pick c y) = true)
      by (apply Hlow; left; reflexivity).
    intros x [<- | [<- | Hx]].
    + apply (Htrans _ (pick c y)); [apply Hpairs; assumption | apply Hpairs; simpl; tauto
                                    | exact Hbase | exact (proj1 (Hle c y))].
    + apply (Htrans _ (pick c y)); [apply Hpairs; assumption | apply Hpairs; simpl; tauto
                                    | exact Hbase | exact (proj2 (Hle c y))].
    + apply Hlow. right. exact Hx.
Qed.

Lemma col_extreme_min (cs : list cell) (m : cell) :
  col_extreme cell_min cs = Ok m ->
  In m cs /\ forall x, In x cs -> cell_leb m x = true.
Proof.
  unfold col_extreme. destruct cs as [|c t]; [discriminate|].
  destruct (homogeneous (c :: t)) eqn:Hhom; [|discriminate].
  intros H; inversion H; subst.
  apply (fold_pick_extreme cell_leb cell_min); try exact Hhom.
  - intros a b. unfold cell_min. destruct (cell_leb a b); tauto.
  - intros a b. unfold cell_min. destruct (cell_leb a b) eqn:E.
    + split; [apply cell_leb_refl | exact E].
    + split; [apply cell_leb_total; exact E | apply cell_leb_refl].
  - apply cell_leb_trans.
Qed.

Lemma col_extreme_max (cs : list cell) (m : cell) :
  col_extreme cell_max cs = Ok m ->
  In m cs /\ forall x, In x cs -> cell_leb x m = true.
Proof.
  unfold col_extreme. destruct cs as [|c t]; [discriminate|].
  destruct (homogeneous (c :: t)) eqn:Hhom; [|discriminate].
  intros H; inversion H; subst.
  apply (fold_pick_extreme (fun a b => cell_leb b a) cell_max); try exact Hhom.
  - intros a b. unfold cell_max. destruct (cell_leb a b); tauto.
  - intros a b. unfold cell_max. destruct (cell_leb a b) eqn:E.
    + split; [exact E | apply cell_leb_refl].
    + split; [apply cell_leb_refl | apply cell_leb_total; exact E].
  - intros a b d Hab Hbc H1 H2. apply (cell_leb_trans d b a); try assumption.
    + rewrite same_type_sym. exact Hbc.
    + rewrite same_type_sym. exact Hab.
Qed.

(** X5. The file name derived from a frame with a non-empty [trade_date]
    column of strings is [label_first_last.csv], where [first] is the
    earliest and [last] the latest date of the column, whatever the order of
    the rows, and [label] is the [stock_name] of the first row, or [unknown]
    when the frame has no such column. *)
Theorem auto_filename_spans_dates
    (host : Host) (df : DataFrame) (label : string) (d : string) (ds : list string) :
  (if has_col "stock_name" df
   then rbind (getitem "stock_name" df)
              (fun col => rbind (iloc0 col) (fun c => Ok (py_str host c)))
   else Ok "unknown") = Ok label ->
  getitem "trade_date" df = Ok (map Str (d :: ds)) ->
  exists first last,
    In first (d :: ds) /\ In last (d :: ds)
    /\ (forall x, In x (d :: ds) ->
          String.leb first x = true /\ String.leb x last = true)
    /\ auto_filename host df
       = Ok (label ++ "_" ++ py_str host (Str first) ++ "_"
                   ++ py_str host (Str last) ++ ".csv")%string
    /\ (has_col "stock_name" df = false -> label = "unknown").
Proof.
  intros Hlabel Hdates. unfold auto_filename. rewrite Hlabel, Hdates.
  cbn [rbind].
  assert (Hhom : homogeneous (map Str (d :: ds)) = true) by apply homogeneous_strings.
  destruct (col_extreme cell_min (map Str (d :: ds))) as [lo|e] eqn:Hlo;
    [|simpl in Hlo; simpl in Hhom; rewrite Hhom in Hlo; discriminate].
  destruct (col_extreme cell_max (map Str (d :: ds))) as [hi|e] eqn:Hhi;
    [|simpl in Hhi; simpl in Hhom; rewrite Hhom in Hhi; discriminate].
  destruct (col_extreme_min _ _ Hlo) as [Hlo_in Hlo_le].
  destruct (col_extreme_max _ _ Hhi) as [Hhi_in Hhi_le].
  apply in_map_iff in Hlo_in. destruct Hlo_in as [first [<- Hfirst]].
  apply in_map_iff in Hhi_in. destruct Hhi_in as [last [<- Hlast]].
  exists first, last. split; [exact Hfirst|]. split; [exact Hlast|].
  split; [|split; [reflexivity|]].
  - intros x Hx. split.
    + apply (Hlo_le (Str x)). apply in_map. exact Hx.
    + apply (Hhi_le (Str x)). apply in_map. exact Hx.
  - intros Hno. rewrite Hno in Hlabel. inversion Hlabel. reflexivity.
Qed.

Lemma auto_filename_spans_dates_witness :
  exists first last,
    (forall x, In x ["20230104"; "20230103"] ->
       String.leb first x = true /\ String.leb x last = true)
    /\ auto_filename Stub.host Stub.sample_bars
       = Ok ("unknown" ++ "_" ++ py_str Stub.host (Str first) ++ "_"
                       ++ py_str Stub.host (Str last) ++ ".csv")%string.
Proof.
  destruct (auto_filename_spans_dates Stub.host Stub.sample_bars "unknown"
              "20230104" ["20230103"] eq_refl eq_refl)
    as [first [last [_ [_ [Hbounds [Hname _]]]]]].
  exists first, last. split; assumption.
Defined.

Lemma save_to_csv_returns (pd : Pandas) (host : Host) (df : DataFrame)
    (filename : option string) (output_dir : string) (tr tr' : trace) (p : option string) :
  df_empty df = false ->
  save_to_csv pd host df filename output_dir tr = (Ok p, tr') ->
  exists path made,
    p = Some path
    /\ tr' = tr ++ made ++ [WriteCsv path df]
    /\ (made = [] \/ made = [Makedirs output_dir]).
Proof.
  intros Hne. unfold save_to_csv. rewrite Hne. unfold bind, emit, lift, ret.
  destruct (path_exists host output_dir);
    [|destruct (makedirs host output_dir false) as [[]|e0]; [|discriminate]];
    (destruct (truthy filename);
       [|destruct (auto_filename host df) as [name|e1]; [|discriminate]]);
    (destruct (to_csv pd _ df) as [[]|e2]; [|discriminate]);
    intros H; inversion H; subst; eexists;
    first [ exists []; split; [reflexivity|]; split; [reflexivity | left; reflexivity]
          | exists [Makedirs output_dir]; split; [reflexivity|];
            split; [rewrite <- app_assoc; reflexivity | right; reflexivity] ].
Qed.

(** X6. Fetching and saving in one call: whenever it returns, the frame it
    returns is the frame [get_stock_data] fetched. It returns no path exactly
    when that frame is empty, and then nothing was written; otherwise the
    last effect is the writing of that very frame to the returned path,
    preceded at most by the creation of the output directory. *)
Theorem get_and_save_writes_what_it_returns
    (ts : Tushare) (pd : Pandas) (host : Host)
    (stock_name stock_code start_date end_date filename : option string)
    (output_dir : string) (tr tr' : trace) (df : DataFrame) (p : option string) :
  get_and_save_stock_data ts pd host stock_name stock_code start_date end_date
                          filename output_dir tr
  = (Ok (df, p), tr') ->
  exists tr1,
    get_stock_data ts pd host stock_name stock_code start_date end_date tr = (Ok df, tr1)
    /\ match p with
       | None => df_empty df = true /\ tr' = tr1
       | Some path =>
           df_empty df = false
           /\ exists made,
                tr' = tr1 ++ made ++ [WriteCsv path df]
                /\ (made = [] \/ made = [Makedirs output_dir])
       end.
Proof.
  unfold get_and_save_stock_data. unfold bind at 1.
  destruct (get_stock_data ts pd host stock_name stock_code start_date end_date tr)
    as [[fetched|e] tr1]; [|discriminate].
  destruct (df_empty fetched) eqn:Hempty.
  - unfold ret. intros H; inversion H; subst. exists tr'. split; [reflexivity|].
    split; [exact Hempty | reflexivity].
  - unfold bind, ret.
    destruct (save_to_csv pd host fetched filename output_dir tr1) as [[q|e] tr2] eqn:Hsave;
      [|discriminate].
    intros H; inversion H; subst.
    destruct (save_to_csv_returns pd host df filename output_dir tr1 tr' p Hempty Hsave)
      as [path [made [-> [Htr Hmade]]]].
    exists tr1. split; [reflexivity|]. split; [exact Hempty|].
    exists made. split; assumption.
Qed.

Lemma get_and_save_writes_what_it_returns_witness :
  exists df path tr1 made,
    get_and_save_stock_data
      (Stub.tushare [mkStock "T1" (Some "abc")] [("T1", Stub.sample_bars)])
      Stub.pandas Stub.host (Some "abc") None None None None "stock_data" []
    = (Ok (df, Some path), tr1 ++ made ++ [WriteCsv path df])
    /\ df_empty df = false.
Proof.
  destruct (get_and_save_writes_what_it_returns
              (Stub.tushare [mkStock "T1" (Some "abc")] [("T1", Stub.sample_bars)])
              Stub.pandas Stub.host (Some "abc") None None None None "stock_data" []
              _ _ (Some "stock_data/abc_20230103_20230104.csv") eq_refl)
    as [tr1 [_ [Hne [made [Htr _]]]]].
  eexists; eexists; exists tr1, made. split; [|exact Hne].
  rewrite <- Htr. reflexivity.
Defined.

(** ** Normalization: what the result looks like *)

Lemma lower_ascii_idempotent (a : ascii) : lower_ascii (lower_ascii a) = lower_ascii a.
Proof.
  unfold lower_ascii.
  destruct (Nat.leb 65 (nat_of_ascii a) && Nat.leb (nat_of_ascii a) 90)%bool eqn:H;
    [|rewrite H; reflexivity].
  apply andb_true_iff in H. destruct H as [H1 H2].
  apply Nat.leb_le in H1, H2.
  rewrite nat_ascii_embedding by lia.
  replace (Nat.leb (nat_of_ascii a + 32) 90) with false
    by (symmetry; apply Nat.leb_gt; lia).
  rewrite andb_false_r. reflexivity.
Qed.

Lemma lower_letters_idempotent (s : string) :
  lower_letters (lower_letters s) = lower_letters s.
Proof.
  induction s as [|a s IH]; simpl; [reflexivity|].
  rewrite lower_ascii_idempotent, IH. reflexivity.
Qed.

Lemma lower_ascii_below_128 (a : ascii) :
  Nat.ltb (nat_of_ascii a) 128 = true -> Nat.ltb (nat_of_ascii (lower_ascii a)) 128 = true.
Proof.
  unfold lower_ascii. intros Ha.
  destruct (Nat.leb 65 (nat_of_ascii a) && Nat.leb (nat_of_ascii a) 90)%bool eqn:H;
    [|exact Ha].
  apply andb_true_iff in H. destruct H as [H1 H2]. apply Nat.leb_le in H1, H2.
  rewrite nat_ascii_embedding by lia. apply Nat.ltb_lt. lia.
Qed.

Lemma lower_letters_is_ascii (s : string) :
  is_ascii s = true -> is_ascii (lower_letters s) = true.
Proof.
  unfold is_ascii. induction s as [|a s IH]; simpl; [reflexivity|].
  rewrite !andb_true_iff. intros [Ha Hs].
  split; [apply lower_ascii_below_128; exact Ha | apply IH; exact Hs].
Qed.

(** Lower-casing a name of ASCII characters a second time changes
    nothing. *)
Lemma lower_case_idempotent (pd : Pandas) (c : string) :
  is_ascii c = true -> lower_case pd (lower_case pd c) = lower_case pd c.
Proof.
  intros Hc. rewrite <- !lower_lower_case. unfold lower. rewrite Hc.
  rewrite (lower_letters_is_ascii c Hc). apply lower_letters_idempotent.
Qed.

Lemma synonym_cases (l : string) : synonym l = l \/ In (synonym l) canonical_columns.
Proof.
  unfold synonym.
  destruct (String.eqb l "open"); [right; simpl; tauto|].
  destruct (String.eqb l "high"); [right; simpl; tauto|].
  destruct (String.eqb l "low"); [right; simpl; tauto|].
  destruct (String.eqb l "close"); [right; simpl; tauto|].
  destruct (String.eqb l "vol" || String.eqb l "volume")%bool; [right; simpl; tauto|].
  left. reflexivity.
Qed.

Lemma prepare_data_result (pd : Pandas) (df out : DataFrame) :
  prepare_data pd df = Ok out ->
  exists data,
    index_by_date pd df = Ok data
    /\ columns_are_strings data = true
    /\ missing_columns (mkFrame (map (canonical_name pd) (columns data)) (rows data)) = []
    /\ homogeneous (map label (rows data)) = true
    /\ out = mkFrame (map (canonical_name pd) (columns data))
                     (sort_by label_leb (rows data)).
Proof.
  intros H. destruct (index_by_date pd df) as [data|e] eqn:Hidx;
    [|unfold prepare_data in H; rewrite Hidx in H; discriminate].
  destruct (columns_are_strings data) eqn:Hstr;
    [|rewrite (prepare_data_not_strings pd df data Hidx Hstr) in H; discriminate].
  rewrite (prepare_data_run pd df data Hidx Hstr) in H.
  exists data. split; [reflexivity|]. split; [exact Hstr|].
  destruct (missing_columns (mkFrame (map (canonical_name pd) (columns data)) (rows data)));
    [|discriminate].
  unfold sort_index in H. simpl in H.
  destruct (homogeneous (map label (rows data))); [|discriminate].
  inversion H. auto.
Qed.


Lemma prepare_data_keeps_rows (pd : Pandas) (df out : DataFrame) :
  prepare_data pd df = Ok out ->
  (has_col "trade_date" df || has_col "Date" df)%bool = false ->
  Permutation (rows out) (rows df).
Proof.
  intros Hprep Hcol.
  destruct (prepare_data_result pd df out Hprep) as [data [Hidx [_ [_ [_ ->]]]]].
  destruct (index_by_date_columns pd df data Hidx) as [_ [_ [_ Hsame]]].
  rewrite (Hsame Hcol). apply sort_by_perm.
Qed.

(** X7. The columns of a normalized frame: the four price columns are
    present; every column of the input other than [Date] arrives under its
    lower-cased, remapped name, and the frame has no other columns; a name
    that is not one of the five canonical names is the lower-cased name of
    an input column, which for a name of ASCII characters is a name that
    lower-casing leaves as it is; so a column called [vol] or [VOLUME]
    arrives as [Volume]. *)
Theorem normalized_columns (pd : Pandas) (df out : DataFrame) :
  prepare_data pd df = Ok out ->
  (forall c, In c required_columns -> In c (columns out))
  /\ (forall c, In c (columns df) -> c <> "Date" ->
        In (canonical_name pd c) (columns out))
  /\ (forall c', In c' (columns out) ->
        exists c, In c (columns df) /\ c' = canonical_name pd c)
  /\ (forall c', In c' (columns out) ->
        In c' canonical_columns
        \/ exists c, In c (columns df) /\ c' = lower_case pd c
                     /\ (is_ascii c = true -> lower_case pd c' = c'))
  /\ (forall c, In c (columns df) ->
        lower_case pd c = "vol" \/ lower_case pd c = "volume" ->
        In "Volume" (columns out)).
Proof.
  intros Hprep.
  destruct (prepare_data_result pd df out Hprep) as [data [Hidx [_ [Hmiss [_ ->]]]]].
  simpl columns.
  destruct (index_by_date_columns pd df data Hidx) as [Hincl _].
  assert (Hkeep : forall c, In c (columns df) -> c <> "Date" ->
                    In (canonical_name pd c) (map (canonical_name pd) (columns data))).
  { intros c Hin Hne. apply in_map.
    exact (index_by_date_keeps_columns pd df data c Hidx Hin Hne). }
  split; [|split; [exact Hkeep|split; [|split]]].
  - intros c Hreq.
    destruct (in_dec string_dec c (map (canonical_name pd) (columns data)))
      as [Hin | Hnot]; [exact Hin|].
    assert (Hm : In c (missing_columns
                         (mkFrame (map (canonical_name pd) (columns data)) (rows data))))
      by (apply missing_columns_In; split; assumption).
    rewrite Hmiss in Hm. destruct Hm.
  - intros c' Hin. apply in_map_iff in Hin. destruct Hin as [c [<- Hc]].
    exists c. split; [exact (Hincl c Hc) | reflexivity].
  - intros c' Hin. apply in_map_iff in Hin. destruct Hin as [c [<- Hc]].
    unfold canonical_name.
    destruct (synonym_cases (lower_case pd c)) as [-> | Hcanon]; [right | left; exact Hcanon].
    exists c. split; [exact (Hincl c Hc)|]. split; [reflexivity|].
    apply lower_case_idempotent.
  - intros c Hin Hvol.
    assert (Hne : c <> "Date") by (intros ->; destruct Hvol as [H | H]; discriminate).
    specialize (Hkeep c Hin Hne). unfold canonical_name in Hkeep.
    destruct Hvol as [Hv | Hv]; rewrite Hv in Hkeep; exact Hkeep.
Qed.

Lemma normalized_columns_witness :
  exists out,
    prepare_data Stub.pandas
      (mkFrame ["trade_date"; "OPEN"; "High"; "low"; "close"; "VOL"; "ÀB"]
               [mkRow (Num 0) [Str "20230103"; Num 10; Num 12; Num 9; Num 11; Num 400;
                               Str "x"]])
    = Ok out
    /\ columns out = ["trade_date"; "Open"; "High"; "Low"; "Close"; "Volume"; "àb"]
    /\ In "Volume" (columns out)
    /\ In (canonical_name Stub.pandas "ÀB") (columns out).
Proof.
  eexists. split; [reflexivity|]. split; [reflexivity|].
  destruct (normalized_columns Stub.pandas
              (mkFrame ["trade_date"; "OPEN"; "High"; "low"; "close"; "VOL"; "ÀB"]
                       [mkRow (Num 0) [Str "20230103"; Num 10; Num 12; Num 9; Num 11;
                                       Num 400; Str "x"]])
              _ eq_refl) as [_ [Hkeep [_ [_ Hvol]]]].
  split.
  - apply (Hvol "VOL"); [simpl; tauto | left; reflexivity].
  - apply (Hkeep "ÀB"); [simpl; tauto | discriminate].
Defined.

Lemma set_cells_In (pos : option nat) (rs : list Row) :
  forall (vs : list cell) (r' : Row),
    In r' (set_cells pos rs vs) ->
    exists r v, In r rs /\ In v vs /\ r' = set_cell pos v r.
Proof.
  induction rs as [|r rs IH]; intros [|v vs] r' Hin; simpl in Hin; try destruct Hin.
  - exists r, v. subst. simpl. tauto.
  - destruct (IH vs r' H) as [r0 [v0 [Hr [Hv Heq]]]].
    exists r0, v0. simpl. tauto.
Qed.

Lemma date_index_labels (vals : list cell) (df data : DataFrame) :
  rectangular df = true ->
  set_index "Date" (setitem "Date" vals df) = Ok data ->
  forall r, In r (rows data) -> In (label r) vals.
Proof.
  intros Hrect. unfold set_index, setitem. simpl.
  destruct (col_pos "Date" (set_cols "Date" (columns df))) as [i|] eqn:Hi; [|discriminate].
  intros H; inversion H; subst; clear H. simpl. intros r Hin.
  apply in_map_iff in Hin. destruct Hin as [r' [<- Hr']]. simpl.
  destruct (set_cells_In _ _ _ _ Hr') as [r0 [v [Hr0 [Hv ->]]]].
  rewrite (set_cell_same (columns df) "Date" i v r0); [exact Hv | | exact Hi].
  apply rectangular_row; assumption.
Qed.

Lemma index_by_date_labels (pd : Pandas) (df data : DataFrame) :
  rectangular df = true ->
  (has_col "trade_date" df || has_col "Date" df)%bool = true ->
  index_by_date pd df = Ok data ->
  forall r, In r (rows data) -> is_timestamp (label r) = true.
Proof.
  intros Hrect Hcol. unfold index_by_date.
  assert (Hts : forall dates (c : cell), In c (map Timestamp dates) -> is_timestamp c = true).
  { intros dates c Hc. apply in_map_iff in Hc. destruct Hc as [t [<- _]]. reflexivity. }
  destruct (has_col "trade_date" df).
  - destruct (getitem "trade_date" df) as [col|e]; simpl; [|discriminate].
    destruct (parse_trade_date pd col) as [dates|e]; simpl; [|discriminate].
    intros H r Hr. apply (Hts dates). exact (date_index_labels _ df data Hrect H r Hr).
  - simpl in Hcol. rewrite Hcol.
    destruct (getitem "Date" df) as [col|e]; simpl; [|discriminate].
    destruct (to_datetime pd col) as [dates|e]; simpl; [|discriminate].
    intros H r Hr. apply (Hts dates). exact (date_index_labels _ df data Hrect H r Hr).
Qed.

(** X8. The rows of a normalized frame are in ascending order of their
    index labels, and they are the rows of the input once the date column has
    become the index: none is lost, repeated or altered by the sort. For a
    rectangular input with a [trade_date] or [Date] column every index label
    is a timestamp, so the order is chronological; an input with neither
    column keeps its own rows, ordered by its own index. *)
Theorem normalized_rows_sorted (pd : Pandas) (df out : DataFrame) :
  prepare_data pd df = Ok out ->
  sorted_by label_leb (rows out)
  /\ (exists data, index_by_date pd df = Ok data /\ Permutation (rows out) (rows data))
  /\ (rectangular df = true ->
      (has_col "trade_date" df || has_col "Date" df)%bool = true ->
      forall r, In r (rows out) -> is_timestamp (label r) = true)
  /\ ((has_col "trade_date" df || has_col "Date" df)%bool = false ->
      Permutation (rows out) (rows df)).
Proof.
  intros Hprep.
  destruct (prepare_data_result pd df out Hprep) as [data [Hidx [_ [_ [_ ->]]]]].
  simpl rows. pose proof (sort_by_perm label_leb (rows data)) as Hperm.
  split; [apply sort_by_sorted; apply label_leb_total|].
  split; [exists data; split; [exact Hidx | exact Hperm]|]. split.
  - intros Hrect Hcol r Hr.
    apply (index_by_date_labels pd df data Hrect Hcol Hidx).
    exact (Permutation_in _ Hperm Hr).
  - intros Hcol. apply orb_false_iff in Hcol. destruct Hcol as [H1 H2].
    unfold index_by_date in Hidx. rewrite H1, H2 in Hidx. inversion Hidx; subst.
    exact Hperm.
Qed.

Lemma normalized_rows_sorted_witness :
  exists out,
    prepare_data Stub.pandas Stub.sample_bars = Ok out
    /\ sorted_by label_leb (rows out)
    /\ forall r, In r (rows out) -> is_timestamp (label r) = true.
Proof.
  eexists. split; [reflexivity|].
  destruct (normalized_rows_sorted Stub.pandas Stub.sample_bars _ eq_refl)
    as [Hsorted [_ [Hts _]]].
  split; [exact Hsorted|]. apply Hts; reflexivity.
Defined.

(** ** Rendering: effects *)

Lemma save_figure_emits (plt : Plotting) (fig : Figure) (path : string) :
  emits_only is_local (save_figure plt fig path).
Proof. unfold save_figure. emits. Qed.

Lemma save_and_show_emits (host : Host) (plt : Plotting) (fig : Figure)
    (save_path : option string) (show : bool) :
  emits_only is_local (save_and_show host plt fig save_path show).
Proof.
  unfold save_and_show. apply emits_only_bind.
  - destruct (truthy save_path); [|apply emits_only_ret].
    apply emits_only_bind; [apply emits_only_emit; reflexivity | intros ?].
    apply emits_only_bind; [apply emits_only_lift | intros ?].
    apply emits_only_bind; [apply save_figure_emits | intros ?; apply emits_only_ret].
  - intros saved. emits.
Qed.

Lemma generate_chart_emits (pd : Pandas) (host : Host) (plt : Plotting)
    (data : chart_source) (chart_type : string) (opts : chart_options)
    (save_path : option string) (show : bool) :
  emits_only is_local (generate_chart pd host plt data chart_type opts save_path show).
Proof.
  unfold generate_chart, load_source.
  apply emits_only_bind; [destruct data; emits | intros df].
  apply emits_only_bind; [apply emits_only_lift | intros chart_data].
  apply emits_only_bind; [apply emits_only_lift | intros title].
  apply emits_only_bind; [apply emits_only_lift | intros fig].
  apply save_and_show_emits.
Qed.

(** X9. Rendering never contacts the remote API: every effect of
    [generate_chart] is local (reading the CSV, making the directory, saving
    and showing the figure). Called on a frame, without a path to save to and
    without showing, it has no effect at all. *)
Theorem render_is_local
    (pd : Pandas) (host : Host) (plt : Plotting)
    (data : chart_source) (chart_type : string) (opts : chart_options)
    (save_path : option string) (show : bool) :
  emits_only is_local (generate_chart pd host plt data chart_type opts save_path show)
  /\ (forall df tr,
        data = Frame df -> truthy save_path = false -> show = false ->
        snd (generate_chart pd host plt data chart_type opts save_path show tr) = tr).
Proof.
  split.
  - apply generate_chart_emits.
  - intros df tr -> Hpath ->.
    unfold generate_chart, load_source, save_and_show, bind, lift, ret.
    rewrite Hpath.
    destruct (prepare_data pd df) as [chart_data|e]; [|reflexivity].
    destruct (chart_title pd host (opt_title opts) df chart_data) as [title|e]; [|reflexivity].
    destruct (plot_with_fallback pd plt chart_data _ title _ _) as [fig|e]; reflexivity.
Qed.

Lemma render_is_local_witness :
  snd (generate_chart Stub.pandas Stub.host Stub.plotting_ok (Frame Stub.sample_bars)
                      "candle" default_options (Some "") false [ReqStockBasic])
  = [ReqStockBasic].
Proof.
  apply (proj2 (render_is_local Stub.pandas Stub.host Stub.plotting_ok
                  (Frame Stub.sample_bars) "candle" default_options (Some "") false)
               Stub.sample_bars); reflexivity.
Defined.

(** X10. Saving a figure survives every failure of the font handling: if
    saving without a font override works, [save_figure] succeeds, whether the
    enumeration of the fonts raises, finds nothing, or finds fonts under which
    the first attempt to save raises. It calls [savefig] once, or twice when
    the first attempt raised. *)
Theorem save_figure_survives_font_failures
    (plt : Plotting) (fig : Figure) (path : string) (tr : trace) :
  savefig plt fig path None = Ok tt ->
  save_figure plt fig path tr = (Ok tt, tr ++ [SaveFig path])
  \/ ((exists fonts e, chinese_fonts plt = Ok fonts /\ fonts <> []
                       /\ savefig plt fig path (Some fonts) = Raise e)
      /\ save_figure plt fig path tr = (Ok tt, tr ++ [SaveFig path; SaveFig path])).
Proof.
  intros Hplain. unfold save_figure, try_except, bind, emit, lift.
  destruct (chinese_fonts plt) as [[|f fonts]|e] eqn:Hfonts; simpl.
  - rewrite Hplain. left. reflexivity.
  - destruct (savefig plt fig path (Some (f :: fonts))) as [[]|e] eqn:Hfirst.
    + left. reflexivity.
    + right. split; [exists (f :: fonts), e; repeat split; [discriminate | exact Hfirst]|].
      rewrite Hplain, <- app_assoc. reflexivity.
  - rewrite Hplain. left. reflexivity.
Qed.

Lemma save_figure_survives_font_failures_witness :
  save_figure (mkPlotting (fun _ _ => Ok tt) (Raise (ExternalError "fonts"))
                          (fun _ _ _ => Ok tt) (Ok tt))
              (FallbackFigure (mkManual (1, 1)%Q (mkPriceAxes [] "" (0, 0)%nat [] []) None))
              "out/chart.png" []
  = (Ok tt, [SaveFig "out/chart.png"]).
Proof.
  destruct (save_figure_survives_font_failures
              (mkPlotting (fun _ _ => Ok tt) (Raise (ExternalError "fonts"))
                          (fun _ _ _ => Ok tt) (Ok tt))
              (FallbackFigure (mkManual (1, 1)%Q (mkPriceAxes [] "" (0, 0)%nat [] []) None))
              "out/chart.png" [] eq_refl) as [H | [[fonts [e [Hf _]]] _]].
  - exact H.
  - discriminate Hf.
Defined.

(** ** Rendering: the default title *)



Lemma timestamps_homogeneous (cs : list cell) :
  (forall c, In c cs -> is_timestamp c = true) -> homogeneous cs = true.
Proof.
  intros H. apply homogeneous_pairs. intros a b Ha Hb.
  apply H in Ha, Hb. destruct a, b; try discriminate. reflexivity.
Qed.



(** X12. A frame with a [stock_name] column but neither a [trade_date] nor a
    [Date] column cannot be charted without an explicit title: its index
    labels are not timestamps, the derivation of the default title fails on
    them with [AttributeError], and [generate_chart] raises it before
    anything is drawn or saved. With a title given, the same frame gets past
    the title. *)
Theorem default_title_needs_a_date_index
    (pd : Pandas) (host : Host) (plt : Plotting) (df chart_data : DataFrame)
    (chart_type : string) (opts : chart_options) (save_path : option string)
    (show : bool) (tr : trace) (n : cell) (rest : list cell) :
  prepare_data pd df = Ok chart_data ->
  getitem "stock_name" df = Ok (n :: rest) ->
  (has_col "trade_date" df || has_col "Date" df)%bool = false ->
  rows df <> [] ->
  (forall r, In r (rows df) -> is_timestamp (label r) = false) ->
  (opt_title opts = None ->
   generate_chart pd host plt (Frame df) chart_type opts save_path show tr
   = (Raise AttributeError, tr))
  /\ (forall title, chart_title pd host (Some title) df chart_data = Ok title).
Proof.
  intros Hprep Hname Hcol Hne Hlabels. split; [|reflexivity].
  intros Htitle.
  pose proof (prepare_data_keeps_rows pd df chart_data Hprep Hcol) as Hperm.
  assert (Hhas : has_col "stock_name" df = true).
  { rewrite has_col_pos. unfold getitem in Hname.
    destruct (col_pos "stock_name" (columns df)); [reflexivity | discriminate]. }
  assert (Hfirst : strftime_label pd (option_map label (hd_error (rows chart_data)))
                   = Raise AttributeError).
  { destruct (rows chart_data) as [|r0 rs] eqn:Hrows.
    - apply Permutation_nil in Hperm. contradiction.
    - simpl. assert (Hin : In r0 (rows df))
        by (apply (Permutation_in _ Hperm); left; reflexivity).
      specialize (Hlabels r0 Hin). destruct (label r0); try reflexivity. discriminate. }
  unfold generate_chart, load_source, bind, lift, ret.
  rewrite Hprep, Htitle. unfold chart_title, default_title.
  rewrite Hhas, Hname, Hfirst. reflexivity.
Qed.

Lemma default_title_needs_a_date_index_witness :
  generate_chart Stub.pandas Stub.host Stub.plotting_ok
    (Frame (mkFrame ["stock_name"; "open"; "high"; "low"; "close"]
                    [mkRow (Num 0) [Str "abc"; Num 10; Num 12; Num 9; Num 11]]))
    "candle" default_options None false []
  = (Raise AttributeError, []).
Proof.
  apply (proj1 (default_title_needs_a_date_index Stub.pandas Stub.host Stub.plotting_ok
                  (mkFrame ["stock_name"; "open"; "high"; "low"; "close"]
                           [mkRow (Num 0) [Str "abc"; Num 10; Num 12; Num 9; Num 11]])
                  _ "candle" default_options None false [] (Str "abc") []
                  eq_refl eq_refl eq_refl ltac:(discriminate)
                  ltac:(simpl; intros r [<- | []]; reflexivity))).
  reflexivity.
Defined.

(** ** Batch rendering: what the list holds *)

Section BatchEntries.
Context (ts : Tushare) (pd : Pandas) (host : Host) (plt : Plotting).

Lemma chart_for_entries (stock_name stock_code start_date end_date : option string)
    (chart_type : string) (opts : chart_options) (output_dir : string)
    (tr tr' : trace) (entries : list chart_entry) :
  chart_for ts pd host plt stock_name stock_code start_date end_date
            chart_type opts output_dir tr = (Ok entries, tr') ->
  entries = []
  \/ exists e, entries = [e] /\ entry_key e = (py_or stock_name stock_code, chart_type).
Proof.
  unfold chart_for, try_except, bind, ret.
  destruct (generate_chart_from_stock ts pd host plt stock_name stock_code start_date
              end_date chart_type opts output_dir false tr) as [[[[fig df] path]|e] tr1].
  - destruct fig as [fig|]; [|intros H; inversion H; left; reflexivity].
    destruct path as [path|]; [|intros H; inversion H; left; reflexivity].
    destruct (truthy (Some path)); intros H; inversion H; [right | left; reflexivity].
    eexists; split; reflexivity.
  - intros H; inversion H. right. eexists; split; reflexivity.
Qed.

Lemma charts_for_stock_keys (stock_name stock_code start_date end_date : option string)
    (opts : chart_options) (output_dir : string) (chart_types : list string) :
  forall tr tr' entries,
    charts_for_stock ts pd host plt stock_name stock_code start_date end_date
                     chart_types opts output_dir tr = (Ok entries, tr') ->
    sublist (map entry_key entries)
            (map (fun chart_type => (py_or stock_name stock_code, chart_type)) chart_types).
Proof.
  induction chart_types as [|chart_type rest IH]; intros tr tr' entries; simpl.
  - unfold ret. intros H; inversion H. constructor.
  - unfold bind at 1.
    destruct (chart_for ts pd host plt stock_name stock_code start_date end_date
                        chart_type opts output_dir tr) as [[here|e] tr1] eqn:Hhere;
      [|discriminate].
    unfold bind at 1.
    destruct (charts_for_stock ts pd host plt stock_name stock_code start_date end_date
                               rest opts output_dir tr1) as [[more|e] tr2] eqn:Hmore;
      [|discriminate].
    unfold ret. intros H; inversion H; subst.
    specialize (IH tr1 tr' more Hmore).
    destruct (chart_for_entries _ _ _ _ _ _ _ _ _ _ Hhere) as [-> | [e [-> Hkey]]]; simpl.
    + apply sublist_cons. exact IH.
    + rewrite Hkey. apply sublist_skip. exact IH.
Qed.

Lemma generate_multiple_charts_keys (chart_types : list string) (output_dir : string)
    (opts : chart_options) (stock_list : list stock_item) :
  forall tr tr' entries,
    generate_multiple_charts ts pd host plt stock_list chart_types output_dir opts tr
    = (Ok entries, tr') ->
    sublist (map entry_key entries) (batch_keys stock_list chart_types).
Proof.
  induction stock_list as [|stock rest IH]; intros tr tr' entries; simpl.
  - unfold ret. intros H; inversion H. constructor.
  - unfold bind at 1.
    destruct (match stock with
              | StockName stock_name =>
                  charts_for_stock ts pd host plt (Some stock_name) None None None
                                   chart_types opts output_dir
              | StockDict name code start_date end_date =>
                  charts_for_stock ts pd host plt name code start_date end_date
                                   chart_types opts output_dir
              end tr) as [[here|e] tr1] eqn:Hhere; [|discriminate].
    unfold bind at 1.
    destruct (generate_multiple_charts ts pd host plt rest chart_types output_dir opts tr1)
      as [[more|e] tr2] eqn:Hmore; [|discriminate].
    unfold ret. intros H; inversion H; subst.
    rewrite map_app. apply sublist_app; [|exact (IH tr1 tr' more Hmore)].
    destruct stock as [stock_name | name code start_date end_date];
      exact (charts_for_stock_keys _ _ _ _ _ _ _ _ _ _ Hhere).
Qed.

End BatchEntries.

(** X13. The list returned by the batch follows the order of its loops, the
    stocks outside and the chart types inside, and holds at most one entry
    per pair of a stock and a chart type: the stocks and chart types of its
    entries form a subsequence of the pairs the batch goes through. So the
    list is never longer than the number of stocks times the number of chart
    types. *)
Theorem batch_entries_follow_input_order
    (ts : Tushare) (pd : Pandas) (host : Host) (plt : Plotting)
    (stock_list : list stock_item) (chart_types : list string) (output_dir : string)
    (opts : chart_options) (tr : trace) :
  exists entries tr',
    generate_multiple_charts ts pd host plt stock_list chart_types output_dir opts tr
    = (Ok entries, tr')
    /\ sublist (map entry_key entries) (batch_keys stock_list chart_types)
    /\ (List.length entries <= List.length stock_list * List.length chart_types)%nat.
Proof.
  destruct (generate_multiple_charts_returns ts pd host plt stock_list chart_types
              output_dir opts tr) as [entries [tr' Hrun]].
  exists entries, tr'. split; [exact Hrun|].
  pose proof (generate_multiple_charts_keys ts pd host plt chart_types output_dir opts
                stock_list tr tr' entries Hrun) as Hsub.
  split; [exact Hsub|].
  apply sublist_length in Hsub. rewrite length_map in Hsub.
  eapply Nat.le_trans; [exact Hsub|].
  unfold batch_keys. clear. induction stock_list as [|s rest IH]; simpl; [lia|].
  rewrite length_app, length_map. lia.
Qed.

(** X14. A stock for which the fetch returns an empty frame is passed over
    in silence: [generate_chart_from_stock] returns no figure and no path and
    has no effect beyond those of the fetch, and the batch appends neither a
    saved entry nor an error entry for it, whatever the chart types asked
    for. This is so whenever the fetch takes place: with a keyword repeated
    in the call there is no fetch, the call raises [TypeError], and the
    batch records that error for every chart type. *)
Theorem empty_fetch_leaves_no_entry
    (ts : Tushare) (pd : Pandas) (host : Host) (plt : Plotting)
    (stock_name stock_code start_date end_date : option string)
    (opts : chart_options) (output_dir : string) (df : DataFrame) :
  (forall tr, exists tr1,
     get_stock_data ts pd host stock_name stock_code start_date end_date tr
     = (Ok df, tr1)) ->
  df_empty df = true ->
  (forall chart_type show tr,
     generate_chart_from_stock ts pd host plt stock_name stock_code start_date end_date
                               chart_type opts output_dir show tr
     = if repeats_keyword stock_call_keywords (opt_extra opts)
       then (Raise TypeError, tr)
       else (Ok (None, df, None),
             snd (get_stock_data ts pd host stock_name stock_code start_date end_date tr)))
  /\ (forall chart_types tr,
        fst (charts_for_stock ts pd host plt stock_name stock_code start_date end_date
                              chart_types opts output_dir tr)
        = Ok (if repeats_keyword stock_call_keywords (opt_extra opts)
              then map (fun chart_type =>
                          ChartError (py_or stock_name stock_code) chart_type TypeError)
                       chart_types
              else [])).
Proof.
  intros Hfetch Hempty.
  assert (Hone : forall chart_type show tr,
            generate_chart_from_stock ts pd host plt stock_name stock_code start_date
                                      end_date chart_type opts output_dir show tr
            = if repeats_keyword stock_call_keywords (opt_extra opts)
              then (Raise TypeError, tr)
              else (Ok (None, df, None),
                    snd (get_stock_data ts pd host stock_name stock_code start_date
                                        end_date tr))).
  { intros chart_type show tr. destruct (Hfetch tr) as [tr1 H].
    unfold generate_chart_from_stock.
    destruct (repeats_keyword stock_call_keywords (opt_extra opts)); [reflexivity|].
    unfold bind. rewrite H, Hempty. reflexivity. }
  split; [exact Hone|].
  induction chart_types as [|chart_type rest IH]; intros tr;
    [destruct (repeats_keyword _ _); reflexivity|].
  simpl. unfold bind at 1. unfold chart_for, try_except. unfold bind at 1.
  rewrite (Hone chart_type false tr).
  destruct (repeats_keyword stock_call_keywords (opt_extra opts)).
  - unfold ret at 1. unfold bind. specialize (IH tr).
    destruct (charts_for_stock ts pd host plt stock_name stock_code start_date end_date
                               rest opts output_dir tr) as [[more|e] tr2];
      simpl in IH; [|discriminate].
    inversion IH. reflexivity.
  - unfold ret at 1. unfold bind.
    specialize (IH (snd (get_stock_data ts pd host stock_name stock_code start_date
                                        end_date tr))).
    destruct (charts_for_stock ts pd host plt stock_name stock_code start_date end_date
                               rest opts output_dir _) as [[more|e] tr2];
      simpl in IH; [|discriminate].
    inversion IH. reflexivity.
Qed.

Lemma empty_fetch_leaves_no_entry_witness :
  fst (charts_for_stock (Stub.tushare [] []) Stub.pandas Stub.host Stub.plotting_ok
                        None (Some "000001.SZ") None None
                        ["candle"; "line"] default_options "stock_charts" [])
  = Ok [].
Proof.
  apply (proj2 (empty_fetch_leaves_no_entry
                  (Stub.tushare [] []) Stub.pandas Stub.host Stub.plotting_ok
                  None (Some "000001.SZ") None None default_options "stock_charts"
                  empty_frame
                  (fun tr => ex_intro _ _ eq_refl) eq_refl)).
Defined.

(** ** Batch rendering: requests to the remote *)





Section BatchRequests.
Context (ts : Tushare) (pd : Pandas) (host : Host) (plt : Plotting).







End BatchRequests.





(** ** Where charts are saved *)

Section SavedPaths.
Context (ts : Tushare) (pd : Pandas) (host : Host) (plt : Plotting).

Lemma save_and_show_path (fig fig' : Figure) (save_path sp : option string) (show : bool)
    (tr tr' : trace) :
  save_and_show host plt fig save_path show tr = (Ok (fig', sp), tr') ->
  fig' = fig /\ sp = (if truthy save_path then Some (default "" save_path) else None).
Proof.
  unfold save_and_show, bind, emit, lift, ret.
  destruct (truthy save_path).
  - destruct (makedirs host _ true) as [[]|e]; [|discriminate].
    destruct (save_figure plt fig (default "" save_path) _) as [[[]|e] tr1]; [|discriminate].
    destruct show; [destruct (show_figure plt) as [[]|e]; [|discriminate]|];
      intros H; inversion H; split; reflexivity.
  - destruct show; [destruct (show_figure plt) as [[]|e]; [|discriminate]|];
      intros H; inversion H; split; reflexivity.
Qed.

Lemma generate_chart_path (data : chart_source) (chart_type : string)
    (opts : chart_options) (save_path sp : option string) (show : bool)
    (tr tr' : trace) (fig : Figure) :
  generate_chart pd host plt data chart_type opts save_path show tr = (Ok (fig, sp), tr') ->
  sp = (if truthy save_path then Some (default "" save_path) else None).
Proof.
  unfold generate_chart. unfold bind at 1.
  destruct (load_source pd data tr) as [[df|e] tr1]; [|discriminate].
  unfold bind at 1. unfold lift at 1.
  destruct (prepare_data pd df) as [chart_data|e]; [|discriminate].
  unfold bind at 1. unfold lift at 1.
  destruct (chart_title pd host (opt_title opts) df chart_data) as [title|e]; [|discriminate].
  unfold bind at 1. unfold lift at 1.
  destruct (plot_with_fallback pd plt chart_data _ title _ _) as [fig0|e]; [|discriminate].
  intros H. apply save_and_show_path in H. tauto.
Qed.

(** The name of the file a chart is saved under. *)
Lemma chart_from_stock_path (stock_name stock_code start_date end_date : option string)
    (chart_type : string) (opts : chart_options) (output_dir : string) (show : bool)
    (tr tr' : trace) (fig : option Figure) (df : DataFrame) (path : string) :
  generate_chart_from_stock ts pd host plt stock_name stock_code start_date end_date
                            chart_type opts output_dir show tr
  = (Ok (fig, df, Some path), tr') ->
  path = path_join host output_dir
           match opt_filename opts with
           | Some f => f
           | None =>
               (or_str (py_or stock_name stock_code) "unknown" ++ "_" ++ chart_type ++ "_"
                ++ or_str start_date "20100101" ++ "_"
                ++ or_str end_date (now_ymd host) ++ ".png")%string
           end.
Proof.
  unfold generate_chart_from_stock.
  destruct (repeats_keyword stock_call_keywords (opt_extra opts));
    [unfold raise; discriminate|].
  unfold bind at 1.
  destruct (get_stock_data ts pd host stock_name stock_code start_date end_date tr)
    as [[fetched|e] tr1]; [|discriminate].
  destruct (df_empty fetched); [unfold ret; discriminate|].
  cbv zeta. unfold bind at 1.
  destruct (repeats_keyword chart_call_keywords (opt_extra opts));
    [unfold raise; discriminate|].
  destruct (generate_chart pd host plt (Frame fetched) chart_type opts _ show tr1)
    as [[[fig0 sp]|e] tr2] eqn:Hchart; [|discriminate].
  unfold ret. intros H; inversion H; subst.
  apply generate_chart_path in Hchart. simpl in Hchart.
  destruct (negb _) in Hchart; [|discriminate].
  inversion Hchart. reflexivity.
Qed.

Lemma chart_for_paths (stock_name stock_code start_date end_date : option string)
    (chart_type : string) (opts : chart_options) (output_dir : string)
    (tr tr' : trace) (entries : list chart_entry) (f : string) :
  opt_filename opts = Some f ->
  chart_for ts pd host plt stock_name stock_code start_date end_date
            chart_type opts output_dir tr = (Ok entries, tr') ->
  forall e p, In e entries -> entry_path e = Some p -> p = path_join host output_dir f.
Proof.
  intros Hf. unfold chart_for, try_except. unfold bind at 1.
  destruct (generate_chart_from_stock ts pd host plt stock_name stock_code start_date
              end_date chart_type opts output_dir false tr)
    as [[[[fig df] path]|e] tr1] eqn:Hrun.
  - destruct fig as [fig|]; [|unfold ret; intros H; inversion H; intros ? ? []].
    destruct path as [path|]; [|unfold ret; intros H; inversion H; intros ? ? []].
    apply chart_from_stock_path in Hrun. rewrite Hf in Hrun.
    destruct (truthy (Some path)); unfold ret; intros H; inversion H; [|intros ? ? []].
    intros e p [<- | []] Hp. simpl in Hp. inversion Hp as [Heq]. rewrite <- Heq.
    exact Hrun.
  - unfold ret. intros H; inversion H. intros e0 p [<- | []] Hp. discriminate Hp.
Qed.

Lemma charts_for_stock_paths (stock_name stock_code start_date end_date : option string)
    (opts : chart_options) (output_dir : string) (f : string) (chart_types : list string) :
  opt_filename opts = Some f ->
  forall tr tr' entries,
    charts_for_stock ts pd host plt stock_name stock_code start_date end_date
                     chart_types opts output_dir tr = (Ok entries, tr') ->
    forall e p, In e entries -> entry_path e = Some p -> p = path_join host output_dir f.
Proof.
  intros Hf. induction chart_types as [|chart_type rest IH]; intros tr tr' entries; simpl.
  - unfold ret. intros H; inversion H. intros ? ? [].
  - unfold bind at 1.
    destruct (chart_for ts pd host plt stock_name stock_code start_date end_date
                        chart_type opts output_dir tr) as [[here|e] tr1] eqn:Hhere;
      [|discriminate].
    unfold bind at 1.
    destruct (charts_for_stock ts pd host plt stock_name stock_code start_date end_date
                               rest opts output_dir tr1) as [[more|e] tr2] eqn:Hmore;
      [|discriminate].
    unfold ret. intros H; inversion H; subst. intros e p Hin Hp.
    apply in_app_or in Hin. destruct Hin as [Hin | Hin].
    + exact (chart_for_paths _ _ _ _ _ _ _ _ _ _ f Hf Hhere e p Hin Hp).
    + exact (IH tr1 tr' more Hmore e p Hin Hp).
Qed.

End SavedPaths.

(** X16. A file name handed to the batch is used for every chart: all saved
    entries of the returned list carry the same path, the output directory
    joined with that name, so each chart is written over the previous one. *)
Theorem batch_with_filename_saves_to_one_path
    (ts : Tushare) (pd : Pandas) (host : Host) (plt : Plotting)
    (stock_list : list stock_item) (chart_types : list string) (output_dir : string)
    (opts : chart_options) (f : string) (tr : trace) :
  opt_filename opts = Some f ->
  exists entries tr',
    generate_multiple_charts ts pd host plt stock_list chart_types output_dir opts tr
    = (Ok entries, tr')
    /\ forall e p, In e entries -> entry_path e = Some p ->
                   p = path_join host output_dir f.
Proof.
  intros Hf.
  destruct (generate_multiple_charts_returns ts pd host plt stock_list chart_types
              output_dir opts tr) as [entries [tr' Hrun]].
  exists entries, tr'. split; [exact Hrun|].
  revert tr tr' entries Hrun.
  induction stock_list as [|stock rest IH]; intros tr tr' entries; simpl.
  - unfold ret. intros H; inversion H. intros ? ? [].
  - unfold bind at 1.
    destruct (match stock with
              | StockName stock_name =>
                  charts_for_stock ts pd host plt (Some stock_name) None None None
                                   chart_types opts output_dir
              | StockDict name code start_date end_date =>
                  charts_for_stock ts pd host plt name code start_date end_date
                                   chart_types opts output_dir
              end tr) as [[here|e] tr1] eqn:Hhere; [|discriminate].
    unfold bind at 1.
    destruct (generate_multiple_charts ts pd host plt rest chart_types output_dir opts tr1)
      as [[more|e] tr2] eqn:Hmore; [|discriminate].
    unfold ret. intros H; inversion H; subst. intros e p Hin Hp.
    apply in_app_or in Hin. destruct Hin as [Hin | Hin].
    + destruct stock as [stock_name | name code start_date end_date];
        exact (charts_for_stock_paths ts pd host plt _ _ _ _ opts output_dir f chart_types
                 Hf tr tr1 here Hhere e p Hin Hp).
    + exact (IH tr1 tr' more Hmore e p Hin Hp).
Qed.

Lemma batch_with_filename_saves_to_one_path_witness :
  exists entries tr',
    generate_multiple_charts
      (Stub.tushare [mkStock "T1" (Some "A")] [("T1", Stub.sample_bars)])
      Stub.pandas Stub.host Stub.plotting_ok
      [StockName "A"] ["candle"; "line"] "stock_charts"
      (mkOptions None true "yahoo" (12 # 1, 8 # 1)%Q (Some "one.png") []) []
    = (Ok entries, tr')
    /\ forall e p, In e entries -> entry_path e = Some p ->
                   p = path_join Stub.host "stock_charts" "one.png".
Proof.
  apply (batch_with_filename_saves_to_one_path
           (Stub.tushare [mkStock "T1" (Some "A")] [("T1", Stub.sample_bars)])
           Stub.pandas Stub.host Stub.plotting_ok
           [StockName "A"] ["candle"; "line"] "stock_charts"
           (mkOptions None true "yahoo" (12 # 1, 8 # 1)%Q (Some "one.png") []) "one.png" []).
  reflexivity.
Defined.

(** ** The manual rendering: shape of the figure *)

Lemma map_result_length {A B} (f : A -> result B) (l : list A) :
  forall ys, map_result f l = Ok ys -> List.length ys = List.length l.
Proof.
  induction l as [|a t IH]; intros ys; simpl.
  - intros H; inversion H. reflexivity.
  - destruct (f a) as [b|e]; simpl; [|discriminate].
    destruct (map_result f t) as [bs|e]; simpl; [|discriminate].
    intros H; inversion H. simpl. rewrite (IH bs eq_refl). reflexivity.
Qed.

Lemma candle_positions (cols : list string) (i : nat) (r : Row) (ls : list Line2D) :
  candle cols i r = Ok ls -> map xdata ls = [(i, i); (i, i)].
Proof.
  unfold candle.
  destruct (row_get cols "Close" r) as [c|e]; simpl; [|discriminate].
  destruct (row_get cols "Open" r) as [o|e]; simpl; [|discriminate].
  destruct (cell_ge c o) as [up|e]; simpl; [|discriminate].
  destruct (row_get cols "Low" r) as [lo|e]; simpl; [|discriminate].
  destruct (row_get cols "High" r) as [hi|e]; simpl; [|discriminate].
  intros H; inversion H. reflexivity.
Qed.

Lemma candles_positions (cols : list string) (rs : list Row) :
  forall i ls,
    candles cols i rs = Ok ls ->
    map xdata ls = flat_map (fun k => [(k, k); (k, k)]) (seq i (List.length rs)).
Proof.
  induction rs as [|r rs IH]; intros i ls; simpl.
  - intros H; inversion H. reflexivity.
  - destruct (candle cols i r) as [here|e] eqn:Hhere; simpl; [|discriminate].
    destruct (candles cols (S i) rs) as [rest|e] eqn:Hrest; simpl; [|discriminate].
    intros H; inversion H. rewrite map_app.
    rewrite (candle_positions cols i r here Hhere), (IH (S i) rest Hrest). reflexivity.
Qed.

Lemma pair_positions_length (n : nat) :
  forall s, List.length (flat_map (fun k : nat => [(k, k); (k, k)]) (seq s n)) = (2 * n)%nat.
Proof. induction n as [|n IH]; intros s; simpl; [reflexivity | rewrite IH; lia]. Qed.

Lemma bar_positions {A B} (f : A -> B) (l : list A) :
  forall s, map fst (combine (seq s (List.length l)) (map f l)) = seq s (List.length l).
Proof. induction l as [|a l IH]; intros s; simpl; [reflexivity | rewrite IH; reflexivity]. Qed.

(** X17. Whenever the manual rendering returns a figure, the figure has
    exactly two segments for every row, both at the row's position, counted
    from zero in the order of the rows; its horizontal axis spans the number
    of rows; it has one date label for each tick; and it has a volume subplot
    exactly when the volume was requested, with one bar per row at the row's
    position. *)
Theorem fallback_figure_shape
    (pd : Pandas) (data : DataFrame) (title : string) (volume : bool)
    (figsize : Q * Q) (fig : ManualFigure) :
  _fallback_plot pd data title volume figsize = Ok fig ->
  let n := List.length (rows data) in
  map xdata (lines (price_axes fig)) = flat_map (fun k => [(k, k); (k, k)]) (seq 0 n)
  /\ List.length (lines (price_axes fig)) = (2 * n)%nat
  /\ xlim (price_axes fig) = (0%nat, n)
  /\ xticks (price_axes fig) = tick_positions n
  /\ List.length (xticklabels (price_axes fig)) = List.length (tick_positions n)
  /\ match volume_axes fig with
     | Some axes => volume = true /\ map fst (bars axes) = seq 0 n
     | None => volume = false
     end.
Proof.
  unfold _fallback_plot.
  destruct (candles (columns data) 0 (rows data)) as [ls|e] eqn:Hls; simpl; [|discriminate].
  destruct (map_result (label_strftime pd data) (tick_positions (List.length (rows data))))
    as [labels|e] eqn:Hlabels; simpl; [|discriminate].
  pose proof (candles_positions _ _ _ _ Hls) as Hpos.
  assert (Hlen : List.length ls = (2 * List.length (rows data))%nat).
  { rewrite <- (length_map xdata), Hpos. apply pair_positions_length. }
  pose proof (map_result_length _ _ _ Hlabels) as Hll.
  destruct volume.
  - destruct (getitem "Volume" data) as [vols|e] eqn:Hvol; simpl; [|discriminate].
    intros H; inversion H; subst; simpl.
    repeat split; try assumption.
    unfold getitem in Hvol. destruct (col_pos "Volume" (columns data)); [|discriminate].
    inversion Hvol. apply bar_positions.
  - intros H; inversion H; subst; simpl. repeat split; assumption.
Qed.

Lemma fallback_figure_shape_witness :
  exists chart_data fig,
    prepare_data Stub.pandas Stub.sample_bars = Ok chart_data
    /\ _fallback_plot Stub.pandas chart_data "K" true (12 # 1, 8 # 1)%Q = Ok fig
    /\ List.length (lines (price_axes fig)) = (2 * List.length (rows chart_data))%nat.
Proof.
  eexists; eexists. split; [reflexivity|]. split; [reflexivity|].
  match goal with
  | |- List.length (lines (price_axes ?f)) = (2 * List.length (rows ?d))%nat =>
      exact (proj1 (proj2 (fallback_figure_shape Stub.pandas d "K" true
                             (12 # 1, 8 # 1)%Q f eq_refl)))
  end.
Defined.

(** ** The manual rendering: date labels *)






(** ** Font setup *)

Lemma collect_chinese_fonts_In (fh : FontHost) (fonts : list string) (name : string) :
  In name (collect_chinese_fonts fh fonts)
  <-> exists font, In font fonts /\ font_name fh font = Ok name
                   /\ is_chinese_font fh name = true.
Proof.
  induction fonts as [|font rest IH]; simpl.
  - split; [intros [] | intros [f [[] _]]].
  - destruct (font_name fh font) as [n|e] eqn:Hn.
    + destruct (is_chinese_font fh n) eqn:Hc; simpl; rewrite ?IH; split.
      * intros [<- | [f [Hf H]]]; [exists font; tauto | exists f; tauto].
      * intros [f [[<- | Hf] [Hname Hch]]]; [left; congruence | right; exists f; tauto].
      * intros [f [Hf H]]. exists f; tauto.
      * intros [f [[<- | Hf] [Hname Hch]]]; [congruence | exists f; tauto].
    + rewrite IH. split.
      * intros [f [Hf H]]. exists f; tauto.
      * intros [f [[<- | Hf] [Hname Hch]]]; [congruence | exists f; tauto].
Qed.

Lemma preferred_fonts_length (system : string) :
  List.length (preferred_fonts system) = 5%nat.
Proof.
  unfold preferred_fonts.
  destruct (String.eqb system "Darwin"); [reflexivity|].
  destruct (String.eqb system "Windows"); reflexivity.
Qed.

(** X19. Creating a generator sets matplotlib's sans-serif font list to the
    five fonts preferred on the host's platform, in their fixed order,
    followed by the names of the installed fonts that contain one of the
    keywords for Chinese fonts, each name once; a font file whose name
    cannot be read is skipped and never makes the setup fail. It also selects
    the sans-serif family and turns the Unicode minus sign off. *)
Theorem font_setup (fh : FontHost) (rc : RcParams) :
  set_semantics fh ->
  let rc' := init_generator fh rc in
  firstn 5 (font_sans_serif rc') = preferred_fonts (platform_system fh)
  /\ NoDup (skipn 5 (font_sans_serif rc'))
  /\ (forall name,
        In name (skipn 5 (font_sans_serif rc'))
        <-> exists font, In font (findSystemFonts fh) /\ font_name fh font = Ok name
                         /\ is_chinese_font fh name = true)
  /\ font_family rc' = "sans-serif"
  /\ axes_unicode_minus rc' = false.
Proof.
  intros Hset. simpl.
  pose proof (preferred_fonts_length (platform_system fh)) as Hlen.
  destruct (Hset (collect_chinese_fonts fh (findSystemFonts fh))) as [Hnd Hmem].
  assert (Hf : firstn 5 (preferred_fonts (platform_system fh))
               = preferred_fonts (platform_system fh)) by (apply firstn_all2; lia).
  assert (Hs : skipn 5 (preferred_fonts (platform_system fh)) = [])
    by (apply skipn_all2; lia).
  rewrite firstn_app, skipn_app, Hlen, Nat.sub_diag, Hf, Hs.
  rewrite firstn_O, skipn_O, app_nil_r, app_nil_l.
  split; [reflexivity|]. split; [exact Hnd|]. split; [|split; reflexivity].
  intros name. rewrite Hmem. apply collect_chinese_fonts_In.
Qed.

Lemma font_setup_witness :
  firstn 5 (font_sans_serif
              (init_generator
                 (mkFontHost "Linux" ["/f/a.ttf"; "/f/b.ttf"; "/f/c.ttf"]
                    (fun p => if String.eqb p "/f/a.ttf" then Ok "SimHei"
                              else if String.eqb p "/f/b.ttf"
                                   then Raise (ExternalError "unreadable")
                                   else Ok "DejaVu Serif")
                    (nodup string_dec) Stub.lower_latin1)
                 (mkRcParams [] "serif" true)))
  = preferred_fonts "Linux".
Proof.
  refine (proj1 (font_setup
           (mkFontHost "Linux" ["/f/a.ttf"; "/f/b.ttf"; "/f/c.ttf"]
              (fun p => if String.eqb p "/f/a.ttf" then Ok "SimHei"
                        else if String.eqb p "/f/b.ttf"
                             then Raise (ExternalError "unreadable")
                             else Ok "DejaVu Serif")
              (nodup string_dec) Stub.lower_latin1)
           (mkRcParams [] "serif" true) _)).
  intros l. split; [apply NoDup_nodup | intros x; apply nodup_In].
Defined.

(** ** Normalization: when it succeeds *)

Lemma missing_columns_nil (data : DataFrame) :
  (forall c, In c required_columns -> In c (columns data)) -> missing_columns data = [].
Proof.
  intros Hall. destruct (missing_columns data) as [|c rest] eqn:Hm; [reflexivity|].
  assert (Hin : In c (missing_columns data)) by (rewrite Hm; left; reflexivity).
  apply missing_columns_In in Hin. destruct Hin as [Hreq Hnot].
  exfalso. apply Hnot, Hall, Hreq.
Qed.

(** X20. Normalization succeeds on every rectangular frame whose date column
    is converted without error and which has, under any spelling that
    lower-cases and remaps to them, the four price columns: no
    [AttributeError], no [SchemaError], no [TypeError] from the sort. The
    frame returned has the lower-cased, remapped names for its columns and
    the rows of the input. A frame without a date column needs index labels
    of one type instead. *)
Theorem normalize_succeeds (pd : Pandas) (df data : DataFrame) :
  index_by_date pd df = Ok data ->
  rectangular df = true ->
  ((has_col "trade_date" df || has_col "Date" df)%bool = true
   \/ homogeneous (map label (rows df)) = true) ->
  (forall c, In c required_columns ->
     exists c0, In c0 (columns df) /\ c0 <> "Date" /\ canonical_name pd c0 = c) ->
  exists out,
    prepare_data pd df = Ok out
    /\ columns out = map (canonical_name pd) (columns data)
    /\ Permutation (rows out) (rows data).
Proof.
  intros Hidx Hrect Hlabels Hprices.
  assert (Hstr : columns_are_strings data = true).
  { destruct (Hprices "Open") as [c0 [Hin [Hne _]]]; [simpl; tauto|].
    pose proof (index_by_date_keeps_columns pd df data c0 Hidx Hin Hne) as Hc0.
    unfold columns_are_strings. destruct (columns data); [destruct Hc0 | reflexivity]. }
  rewrite (prepare_data_run pd df data Hidx Hstr).
  rewrite missing_columns_nil.
  - assert (Hhom : homogeneous (map label (rows data)) = true).
    { destruct (has_col "trade_date" df || has_col "Date" df)%bool eqn:Hcol.
      - apply timestamps_homogeneous. intros c Hc. apply in_map_iff in Hc.
        destruct Hc as [r [<- Hr]].
        exact (index_by_date_labels pd df data Hrect Hcol Hidx r Hr).
      - destruct Hlabels as [H | H]; [discriminate|].
        destruct (index_by_date_columns pd df data Hidx) as [_ [_ [_ Hsame]]].
        rewrite (Hsame Hcol). exact H. }
    unfold sort_index. simpl. rewrite Hhom.
    eexists. split; [reflexivity|]. split; [reflexivity|]. apply sort_by_perm.
  - simpl. intros c Hreq. destruct (Hprices c Hreq) as [c0 [Hin [Hne <-]]].
    apply in_map.
    exact (index_by_date_keeps_columns pd df data c0 Hidx Hin Hne).
Qed.

Lemma normalize_succeeds_witness :
  exists out,
    prepare_data Stub.pandas
      (mkFrame ["Date"; "OPEN"; "High"; "low"; "Close"; "ÀB"]
               [mkRow (Num 0) [Str "20230104"; Num 11; Num 13; Num 10; Num 12; Num 1];
                mkRow (Num 1) [Str "20230103"; Num 10; Num 12; Num 9; Num 11; Num 2]])
    = Ok out
    /\ columns out = ["Open"; "High"; "Low"; "Close"; "àb"].
Proof.
  destruct (normalize_succeeds Stub.pandas
              (mkFrame ["Date"; "OPEN"; "High"; "low"; "Close"; "ÀB"]
                       [mkRow (Num 0) [Str "20230104"; Num 11; Num 13; Num 10; Num 12; Num 1];
                        mkRow (Num 1) [Str "20230103"; Num 10; Num 12; Num 9; Num 11; Num 2]])
              (mkFrame ["OPEN"; "High"; "low"; "Close"; "ÀB"]
                       [mkRow (Timestamp 20230104) [Num 11; Num 13; Num 10; Num 12; Num 1];
                        mkRow (Timestamp 20230103) [Num 10; Num 12; Num 9; Num 11; Num 2]])
              eq_refl eq_refl (or_introl eq_refl))
    as [out [Hrun [Hcols _]]].
  - simpl. intros c [<- | [<- | [<- | [<- | []]]]].
    + exists "OPEN". split; [tauto | split; [discriminate | reflexivity]].
    + exists "High". split; [tauto | split; [discriminate | reflexivity]].
    + exists "low". split; [tauto | split; [discriminate | reflexivity]].
    + exists "Close". split; [tauto | split; [discriminate | reflexivity]].
  - exists out. split; [exact Hrun | exact Hcols].
Defined.
